(** * User CRUD service: validation, domain operations, error envelope

    A shallow embedding of the request pipeline of the service

      routes/userRoutes.js  ->  middlewares/validate.js (schemas/userSchema.js)
                            ->  controllers/userController.js
                            ->  services/userService.js
                            ->  middlewares/errorHandler.js (errors/AppError.js)

    JavaScript values are an inductive type, objects are association lists
    in insertion order, the table of users is a finite map from identifiers
    to rows, and every handler is a function from the database and the
    request to the new database and the HTTP response. *)

From Stdlib Require Import ZArith Ascii String List Bool Lia Sorted
  Permutation.
From stdpp Require Import base option list gmap strings pretty.

Set Warnings "-register-all".
Local Open Scope Z_scope.

(** ** JavaScript values *)

(** The values that travel through the pipeline: JSON request bodies,
    route parameters, rows selected from the table and JSON responses.
    Numbers are integers, Infinity or NaN: no schema of this service
    accepts a number from a request, numbers only arise from [Number] and
    [parseInt] applied to strings of digits, and from the rows of the
    table. [VNum n] is the number whose value is the integer [n], and
    [VNum (2 ^ 1024)], a value that no finite number has, is Infinity (see
    [Double]). *)
Inductive value : Type :=
  | VUndef
  | VNull
  | VBool (b : bool)
  | VNum (n : Z)
  | VNaN
  | VStr (s : string)
  | VArr (items : list value)
  | VObj (fields : list (string * value)).

Definition obj : Type := list (string * value).

(** [o[k]] for an own property, [undefined] when the key is missing. *)
Fixpoint get (k : string) (o : obj) : value :=
  match o with
  | [] => VUndef
  | (k', v) :: rest => if String.eqb k k' then v else get k rest
  end.

(** [k in o]. *)
Fixpoint hasKey (k : string) (o : obj) : bool :=
  match o with
  | [] => false
  | (k', _) :: rest => String.eqb k k' || hasKey k rest
  end.

(** Property access on an arbitrary value: only objects carry properties
    here. *)
Definition prop (k : string) (v : value) : value :=
  match v with
  | VObj o => get k o
  | _ => VUndef
  end.

(** JavaScript truthiness, as used by [if (x)], [x || y] and [!x]. *)
Definition truthy (v : value) : bool :=
  match v with
  | VUndef | VNull | VNaN => false
  | VBool b => b
  | VNum n => negb (n =? 0)
  | VStr s => negb (String.eqb s "")
  | VArr _ | VObj _ => true
  end.

(** [a || b]. *)
Definition jsOr (a b : value) : value := if truthy a then a else b.

(** [JSON.stringify] drops the properties whose value is [undefined];
    [res.json] goes through it. *)
Definition jsonObj (o : obj) : value :=
  VObj (List.filter
          (fun kv => match snd kv with VUndef => false | _ => true end) o).

(** ** Strings *)

(** A character of a string stands for one UTF-16 code unit below 256, so
    that [String.length] is the [length] of JavaScript on the strings the
    model speaks of. *)
Module Str.

(** White space and line terminators removed by [String.prototype.trim],
    in the 8-bit range. *)
Definition isWhite (c : ascii) : bool :=
  let n := nat_of_ascii c in
  ((9 <=? n) && (n <=? 13) || (n =? 32) || (n =? 160))%nat.

Fixpoint trimStart (s : string) : string :=
  match s with
  | EmptyString => EmptyString
  | String c r => if isWhite c then trimStart r else s
  end.

Fixpoint trimEnd (s : string) : string :=
  match s with
  | EmptyString => EmptyString
  | String c r =>
      let r' := trimEnd r in
      if isWhite c && String.eqb r' "" then EmptyString else String c r'
  end.

Definition trim (s : string) : string := trimEnd (trimStart s).

(** [toLowerCase] on code units below 256: A-Z, and the Latin-1 capitals
    except the multiplication sign. *)
Definition lowerChar (c : ascii) : ascii :=
  let n := nat_of_ascii c in
  if ((65 <=? n) && (n <=? 90))%nat then ascii_of_nat (n + 32)
  else if ((192 <=? n) && (n <=? 222) && negb (n =? 215))%nat
       then ascii_of_nat (n + 32)
  else c.

Fixpoint toLowerCase (s : string) : string :=
  match s with
  | EmptyString => EmptyString
  | String c r => String (lowerChar c) (toLowerCase r)
  end.

Definition isDigit (c : ascii) : bool :=
  let n := nat_of_ascii c in ((48 <=? n) && (n <=? 57))%nat.

Fixpoint allDigits (s : string) : bool :=
  match s with
  | EmptyString => true
  | String c r => isDigit c && allDigits r
  end.

(** The regular expression [/^\d+$/]. *)
Definition matchesDigits (s : string) : bool :=
  negb (String.eqb s "") && allDigits s.

Fixpoint digitsAcc (acc : Z) (s : string) : Z :=
  match s with
  | EmptyString => acc
  | String c r => digitsAcc (10 * acc + (Z.of_nat (nat_of_ascii c) - 48)) r
  end.

(** The number denoted by a string of decimal digits. *)
Definition digitsValue (s : string) : Z := digitsAcc 0 s.

Definition startsWith (p s : string) : bool := String.prefix p s.

(** [parts.join(sep)]. *)
Fixpoint join (sep : string) (parts : list string) : string :=
  match parts with
  | [] => ""
  | [p] => p
  | p :: rest => p +:+ sep +:+ join sep rest
  end.

End Str.

(** ** Numbers *)

(** The numbers of JavaScript are the IEEE 754 doubles. Every integer up to
    2^53 in magnitude is a double; a larger integer is read as the nearest
    double, a tie going to the even mantissa, and as Infinity when that
    double would reach 2^1024. (For a literal of more than 20 significant
    digits the language lets an implementation round from the first 20
    digits; the engines round exactly, and so does [round].) *)
Module Double.

Definition maxSafe : Z := 2 ^ 53.

(** Stands for Infinity: above every double, as the comparisons need. *)
Definition infinity : Z := 2 ^ 1024.

(** From here on [String(x)] is in exponent notation. *)
Definition exponential : Z := 10 ^ 21.

(** The double nearest to a natural number: [q] is the mantissa of 53
    bits, [r] what lies below it. *)
Definition roundNat (n : Z) : Z :=
  if n <=? maxSafe then n
  else
    let e := Z.log2 n - 52 in
    let q := Z.shiftr n e in
    let r := n - Z.shiftl q e in
    let half := Z.shiftl 1 (e - 1) in
    let q' := if (half <? r) || ((r =? half) && Z.odd q) then q + 1 else q in
    Z.min infinity (Z.shiftl q' e).

Definition round (n : Z) : Z :=
  if n <? 0 then - roundNat (- n) else roundNat n.

(** The largest power of ten that is at most [n]. *)
Fixpoint scale10 (fuel : nat) (n p : Z) : Z :=
  match fuel with
  | O => p
  | S fuel' => if 10 * p <=? n then scale10 fuel' n (10 * p) else p
  end.

Definition powerOfTenBelow (n : Z) : Z :=
  scale10 (Z.to_nat (Z.log2 n)) n 1.

(** The shortest decimal that reads back as the double [x], as an
    integer: the multiple of the unit [u], a power of ten, that is nearest
    to [x] among those that read back as [x] (the even one of two), for
    the largest unit that has one. *)
Fixpoint shortestFrom (fuel : nat) (x u : Z) : Z :=
  match fuel with
  | O => x
  | S fuel' =>
      if u <=? 1 then x
      else
        let lo := x / u * u in
        let hi := lo + u in
        let okLo := round lo =? x in
        let okHi := round hi =? x in
        if okLo && (negb okHi || (x - lo <? hi - x)
                    || ((x - lo =? hi - x) && Z.even (x / u)))
        then lo
        else if okHi then hi
        else shortestFrom fuel' x (u / 10)
  end.

Definition shortest (x : Z) : Z :=
  shortestFrom (Z.to_nat (Z.log2 x)) x (powerOfTenBelow x).

(** The first digit of the shortest decimal. *)
Definition shortestLead (x : Z) : Z :=
  let s := shortest x in s / powerOfTenBelow s.

Fixpoint dropZeros (fuel : nat) (n : Z) : Z :=
  match fuel with
  | O => n
  | S fuel' =>
      if (n mod 10 =? 0) && negb (n =? 0) then dropZeros fuel' (n / 10)
      else n
  end.

(** [String(x)] for a double [x] with an integer value: the digits of the
    shortest decimal, in full below 10^21 and from there on in exponent
    notation. *)
Definition decimalNat (x : Z) : string :=
  if infinity <=? x then "Infinity"
  else if x <? exponential then pretty (shortest x)
  else
    let s := shortest x in
    let digits := pretty (dropZeros (Z.to_nat (Z.log2 s)) s) in
    let e := pretty (Z.of_nat (String.length (pretty s)) - 1) in
    match digits with
    | String d EmptyString => String d ("e+" +:+ e)
    | String d r => String d ("." +:+ r +:+ "e+" +:+ e)
    | EmptyString => EmptyString
    end.

Definition decimal (x : Z) : string :=
  if x <? 0 then "-" +:+ decimalNat (- x) else decimalNat x.

(** The integer that [parseInt(x)] reads in [String(x)], for a number [x]
    with an integer value: the decimal digits of [x], which read back as
    [x], below 10^21; the digits before the point or the exponent, that is
    the first digit, from 10^21 on; none in ["Infinity"]. *)
Definition key (x : Z) : option Z :=
  if Z.abs x <? exponential then Some x
  else if infinity <=? Z.abs x then None
  else Some (Z.sgn x * shortestLead (Z.abs x)).

End Double.

(** ** The runtime *)

(** What the platform decides and the sources do not: the pattern behind
    [z.string().email()], whether [new URL(s)] succeeds, the coercions of
    JavaScript outside plain digit strings, numbers and primitive values,
    and whether [process.env.NODE_ENV] is ['development']. *)
Class Runtime : Type := {
  emailPattern : string -> bool;
  urlParses : string -> bool;
  toNumberOther : value -> value;
  parseIntOther : value -> value;
  toStringOther : value -> string;
  development : bool;
}.

Section Coercions.
Context `{Runtime}.

(** [Number(v)]: the number itself, and on a string of digits the double
    nearest to the integer the digits denote. *)
Definition Number_ (v : value) : value :=
  match v with
  | VNum _ | VNaN => v
  | VStr s =>
      if Str.matchesDigits s then VNum (Double.round (Str.digitsValue s))
      else toNumberOther v
  | _ => toNumberOther v
  end.

(** [v > 0]. *)
Definition gtZero (v : value) : bool :=
  match Number_ v with
  | VNum n => 0 <? n
  | _ => false
  end.

(** [v <= 0]. *)
Definition leZero (v : value) : bool :=
  match Number_ v with
  | VNum n => n <=? 0
  | _ => false
  end.

(** [isNaN(v)]. *)
Definition isNaN (v : value) : bool :=
  match Number_ v with
  | VNaN => true
  | _ => false
  end.

(** [parseInt(v)] reads an integer in [String(v)]: on a number what
    [Double.key] finds there, NaN in ["Infinity"]; on a string of digits
    the double nearest to the integer the digits denote. *)
Definition parseInt (v : value) : value :=
  match v with
  | VNum x =>
      match Double.key x with
      | Some k => VNum k
      | None => VNaN
      end
  | VStr s =>
      if Str.matchesDigits s then VNum (Double.round (Str.digitsValue s))
      else parseIntOther v
  | _ => parseIntOther v
  end.

(** [`${v}`]. A number up to 2^53 in magnitude is written with its
    decimal digits; above, with the shortest decimal that reads back as
    the number. *)
Definition toString (v : value) : string :=
  match v with
  | VUndef => "undefined"
  | VNull => "null"
  | VBool b => if b then "true" else "false"
  | VNum n =>
      if Z.abs n <=? Double.maxSafe then pretty n else Double.decimal n
  | VNaN => "NaN"
  | VStr s => s
  | _ => toStringOther v
  end.

(** [a !== b] on primitive values; two objects read from different
    places are never the same reference. *)
Definition strictNeq (a b : value) : bool :=
  match a, b with
  | VUndef, VUndef | VNull, VNull => false
  | VBool x, VBool y => negb (Bool.eqb x y)
  | VNum x, VNum y => negb (x =? y)
  | VStr x, VStr y => negb (String.eqb x y)
  | _, _ => true
  end.

End Coercions.

(** ** The validation library *)

(** The combinators of the schema library that schemas/userSchema.js uses,
    with the parsing discipline of its version 3: a parse is valid, dirty
    (issues were recorded, a value is still produced) or aborted; the checks
    of a string run in the order in which they were chained. *)
Module Zod.

Record issue : Type := Issue {
  code : string;
  path : list string;
  message : string;
}.

Inductive check : Type :=
  | Min (n : nat) (msg : string)
  | Max (n : nat) (msg : string)
  | Email (msg : string)
  | Url (msg : string)
  | Regex (re : string -> bool) (msg : string)
  | Trim
  | ToLowerCase.

Inductive unknownKeys : Type := Strip | Strict.

Inductive schema : Type :=
  | String_ (required_error invalid_type_error : option string)
            (checks : list check)
  | Enum (values : list string) (errorMap : option string)
  | Optional (inner : schema)
  | Nullable (inner : schema)
  | Default (inner : schema) (d : value)
  | Transform (inner : schema) (f : value -> value)
  | Refine (inner : schema) (p : value -> bool) (msg : string)
  | Object (shape : list (string * schema)) (unknown : unknownKeys).

Inductive parsed : Type :=
  | INVALID
  | DIRTY (v : value)
  | OK (v : value).

Definition parsedType (v : value) : string :=
  match v with
  | VUndef => "undefined"
  | VNull => "null"
  | VBool _ => "boolean"
  | VNum _ => "number"
  | VNaN => "nan"
  | VStr _ => "string"
  | VArr _ => "array"
  | VObj _ => "object"
  end.

(** The default message of an [invalid_type] issue. *)
Definition invalidTypeDefault (expected : string) (v : value) : string :=
  match v with
  | VUndef => "Required"
  | _ => "Expected " +:+ expected +:+ ", received " +:+ parsedType v
  end.

Definition quoted (s : string) : string := "'" +:+ s +:+ "'".

Section Parse.
Context `{Runtime}.

(** The loop over [this._def.checks] of a string schema: the data is
    rewritten by [trim] and [toLowerCase] where they stand in the
    chain, every failed check adds its issue. *)
Fixpoint runChecks (p : list string) (cs : list check) (data : string)
  : bool * string * list issue :=
  match cs with
  | [] => (false, data, [])
  | c :: rest =>
      let '(bad, data', found) :=
        match c with
        | Min n msg =>
            if (String.length data <? n)%nat
            then (true, data, [Issue "too_small" p msg])
            else (false, data, [])
        | Max n msg =>
            if (n <? String.length data)%nat
            then (true, data, [Issue "too_big" p msg])
            else (false, data, [])
        | Email msg =>
            if emailPattern data then (false, data, [])
            else (true, data, [Issue "invalid_string" p msg])
        | Url msg =>
            if urlParses data then (false, data, [])
            else (true, data, [Issue "invalid_string" p msg])
        | Regex re msg =>
            if re data then (false, data, [])
            else (true, data, [Issue "invalid_string" p msg])
        | Trim => (false, Str.trim data, [])
        | ToLowerCase => (false, Str.toLowerCase data, [])
        end in
      let '(bad', out, more) := runChecks p rest data' in
      (bad || bad', out, found ++ more)
  end.

(** One parsed property of an object: the key, [key in data], and the
    outcome of its schema. *)
Definition entry : Type := string * bool * parsed.

(** [ParseStatus.mergeObjectSync]. *)
Fixpoint mergeObject (dirty : bool) (pairs : list entry) (acc : obj)
  : parsed :=
  match pairs with
  | [] => if dirty then DIRTY (VObj acc) else OK (VObj acc)
  | (k, alwaysSet, r) :: rest =>
      match r with
      | INVALID => INVALID
      | DIRTY v =>
          mergeObject true rest
            (match v with
             | VUndef => if alwaysSet then acc ++ [(k, v)] else acc
             | _ => acc ++ [(k, v)]
             end)
      | OK v =>
          mergeObject dirty rest
            (match v with
             | VUndef => if alwaysSet then acc ++ [(k, v)] else acc
             | _ => acc ++ [(k, v)]
             end)
      end
  end.

Definition extraKeys (shapeKeys : list string) (o : obj) : list string :=
  List.filter (fun k => negb (existsb (String.eqb k) shapeKeys))
              (map fst o).

Fixpoint parse (s : schema) (p : list string) (v : value) {struct s}
  : parsed * list issue :=
  match s with
  | String_ req inv cs =>
      match v with
      | VStr data =>
          let '(bad, out, found) := runChecks p cs data in
          (if bad then DIRTY (VStr out) else OK (VStr out), found)
      | _ =>
          let dflt := invalidTypeDefault "string" v in
          let msg := match v with
                     | VUndef => default dflt req
                     | _ => default dflt inv
                     end in
          (INVALID, [Issue "invalid_type" p msg])
      end
  | Enum values em =>
      let expected := Str.join " | " (map quoted values) in
      match v with
      | VStr data =>
          if existsb (String.eqb data) values then (OK v, [])
          else (INVALID,
                [Issue "invalid_enum_value" p
                   (default ("Invalid enum value. Expected " +:+ expected
                             +:+ ", received " +:+ quoted data) em)])
      | _ =>
          (INVALID,
           [Issue "invalid_type" p
              (default (invalidTypeDefault expected v) em)])
      end
  | Optional inner =>
      match v with
      | VUndef => (OK VUndef, [])
      | _ => parse inner p v
      end
  | Nullable inner =>
      match v with
      | VNull => (OK VNull, [])
      | _ => parse inner p v
      end
  | Default inner d =>
      match v with
      | VUndef => parse inner p d
      | _ => parse inner p v
      end
  | Transform inner f =>
      match parse inner p v with
      | (OK base, found) => (OK (f base), found)
      | other => other
      end
  | Refine inner check msg =>
      match parse inner p v with
      | (INVALID, found) => (INVALID, found)
      | (DIRTY out, found) =>
          (DIRTY out,
           if check out then found else found ++ [Issue "custom" p msg])
      | (OK out, found) =>
          if check out then (OK out, found)
          else (DIRTY out, found ++ [Issue "custom" p msg])
      end
  | Object shape unknown =>
      match v with
      | VObj o =>
          let results :=
            (fix each (sh : list (string * schema))
               : list (entry * list issue) :=
               match sh with
               | [] => []
               | (k, sk) :: rest =>
                   let '(r, found) := parse sk (p ++ [k]) (get k o) in
                   ((k, hasKey k o, r), found) :: each rest
               end) shape in
          let extra := extraKeys (map fst shape) o in
          let strict :=
            match unknown, extra with
            | Strict, _ :: _ =>
                [Issue "unrecognized_keys" p
                   ("Unrecognized key(s) in object: "
                    +:+ Str.join ", " (map quoted extra))]
            | _, _ => []
            end in
          (mergeObject (match strict with [] => false | _ => true end)
                       (map fst results) [],
           concat (map snd results) ++ strict)
      | _ =>
          (INVALID,
           [Issue "invalid_type" p (invalidTypeDefault "object" v)])
      end
  end.

(** [schema.safeParse(data)]: success with the parsed data, or the
    issues. *)
Definition safeParse (s : schema) (data : value) : list issue + value :=
  match parse s [] data with
  | (OK out, _) => inr out
  | (_, found) => inl found
  end.

End Parse.

End Zod.

(** ** schemas/userSchema.js *)

Definition createUserSchema : Zod.schema :=
  Zod.Object
    [ ("nome",
       Zod.String_ (Some "Nome é obrigatório") (Some "Nome deve ser um texto")
         [ Zod.Min 3 "Nome deve ter pelo menos 3 caracteres";
           Zod.Max 100 "Nome deve ter no máximo 100 caracteres";
           Zod.Trim ]);
      ("email",
       Zod.String_ (Some "Email é obrigatório")
         (Some "Email deve ser um texto")
         [ Zod.Email "Email inválido"; Zod.ToLowerCase; Zod.Trim ]);
      ("senha",
       Zod.String_ (Some "Senha é obrigatória")
         (Some "Senha deve ser um texto")
         [ Zod.Min 6 "Senha deve ter pelo menos 6 caracteres";
           Zod.Max 100 "Senha deve ter no máximo 100 caracteres" ]);
      ("papel",
       Zod.Optional
         (Zod.Default
            (Zod.Enum ["PROFESSOR"; "ADMIN"]
               (Some "Papel deve ser PROFESSOR ou ADMIN"))
            (VStr "PROFESSOR")));
      ("foto",
       Zod.Transform
         (Zod.Nullable
            (Zod.Optional
               (Zod.String_ None None [ Zod.Url "URL da foto inválida" ])))
         (fun val => jsOr val VNull)) ]
    Zod.Strip.

(** [Object.values(data).some(v => v !== undefined && v !== null)]. *)
Definition someDefined (data : value) : bool :=
  match data with
  | VObj o =>
      existsb (fun kv => match snd kv with
                         | VUndef | VNull => false
                         | _ => true
                         end) o
  | _ => false
  end.

Definition updateUserSchema : Zod.schema :=
  Zod.Refine
    (Zod.Object
       [ ("nome",
          Zod.Optional
            (Zod.String_ None (Some "Nome deve ser um texto")
               [ Zod.Min 3 "Nome deve ter pelo menos 3 caracteres";
                 Zod.Max 100 "Nome deve ter no máximo 100 caracteres";
                 Zod.Trim ]));
         ("email",
          Zod.Optional
            (Zod.String_ None (Some "Email deve ser um texto")
               [ Zod.Email "Email inválido"; Zod.ToLowerCase; Zod.Trim ]));
         ("senha",
          Zod.Optional
            (Zod.String_ None (Some "Senha deve ser um texto")
               [ Zod.Min 6 "Senha deve ter pelo menos 6 caracteres";
                 Zod.Max 100 "Senha deve ter no máximo 100 caracteres" ]));
         ("papel",
          Zod.Optional
            (Zod.Enum ["PROFESSOR"; "ADMIN"]
               (Some "Papel deve ser PROFESSOR ou ADMIN")));
         ("foto",
          Zod.Transform
            (Zod.Nullable
               (Zod.Optional
                  (Zod.String_ None None [ Zod.Url "URL da foto inválida" ])))
            (fun val => jsOr val VNull)) ]
       Zod.Strict)
    someDefined
    "Pelo menos um campo deve ser fornecido para atualização".

Section IdParam.
Context `{Runtime}.

Definition idParamSchema : Zod.schema :=
  Zod.Object
    [ ("id",
       Zod.Refine
         (Zod.Transform
            (Zod.String_ None None
               [ Zod.Regex Str.matchesDigits "ID deve ser um número" ])
            Number_)
         gtZero
         "ID deve ser um número positivo") ]
    Zod.Strip.

End IdParam.

(** ** errors/AppError.js *)

(** An error object as the error middleware inspects it: whether it is an
    instance of [AppError], and the properties [isOperational],
    [statusCode], [code] ([None] for [undefined]), [name], [message],
    [details], [errors] (the issues of a validation-library error), [meta]
    and [stack]. *)
Record JsError : Type := mkJsError {
  instanceofAppError : bool;
  isOperational : bool;
  statusCode : Z;
  code : option string;
  name : string;
  message : string;
  details : list value;
  errors : list Zod.issue;
  meta : value;
  stack : string;
}.

Module Errors.

(** [new AppError(message, statusCode, code, details)] with the defaults of
    the constructor for the arguments left out. *)
Definition AppError (message : string) (statusCode : option Z)
    (code : option string) (details : option (list value)) : JsError :=
  {| instanceofAppError := true;
     isOperational := true;
     statusCode := default 500 statusCode;
     code := Some (default "INTERNAL_ERROR" code);
     name := "Error";
     message := message;
     details := default [] details;
     errors := [];
     meta := VUndef;
     stack := "" |}.

Definition ValidationError (message : option string)
    (details : option (list value)) : JsError :=
  AppError (default "Dados de entrada inválidos" message)
    (Some 400) (Some "VALIDATION_ERROR") (Some (default [] details)).

Definition NotFoundError (message : option string)
    (resource : option string) : JsError :=
  AppError (default "Recurso não encontrado" message)
    (Some 404) (Some "NOT_FOUND")
    (Some [VObj [("resource", VStr (default "" resource))]]).

Definition ConflictError (message : option string)
    (field : option string) : JsError :=
  AppError (default "Conflito de dados" message)
    (Some 409) (Some "CONFLICT")
    (Some [VObj [("field", VStr (default "" field))]]).

Definition UnauthorizedError (message : option string) : JsError :=
  AppError (default "Autenticação necessária" message)
    (Some 401) (Some "UNAUTHORIZED") None.

Definition ForbiddenError (message : option string) : JsError :=
  AppError (default "Acesso negado" message)
    (Some 403) (Some "FORBIDDEN") None.

End Errors.

(** ** The persistence client *)

Inductive Role : Type := PROFESSOR | ADMIN.

(** Modelled from the spec: the User table. The Prisma schema is not among
    the sources; the columns are the ones of the data model (identifier,
    name, email, password, role defaulting to PROFESSOR, optional photo,
    creation and update timestamps), which are also the ones the service
    selects. *)
Record User : Type := mkUser {
  id : Z;
  nome : string;
  email : string;
  senha : string;
  papel : Role;
  foto : option string;
  createdAt : Z;
  updatedAt : Z;
}.

(** The database: the rows by identifier, the next identifier of the
    sequence, and the clock that stamps the rows. *)
Record DB : Type := mkDB {
  users : gmap Z User;
  nextId : Z;
  clock : Z;
}.

(** Asynchronous operations on the database that may throw: the state is
    threaded, a rejection carries the error object. *)
Definition M (A : Type) : Type := DB -> DB * (JsError + A).

Definition ret {A : Type} (a : A) : M A := fun db => (db, inr a).

Definition throw {A : Type} (e : JsError) : M A := fun db => (db, inl e).

Definition bind {A B : Type} (m : M A) (k : A -> M B) : M B :=
  fun db =>
    match m db with
    | (db', inr a) => k a db'
    | (db', inl e) => (db', inl e)
    end.

Notation "'await' x '<-' m 'in' k" := (bind m (fun x => k))
  (at level 10, x name, m at level 100, k at level 200,
   format "'[v' 'await'  x  '<-'  m  'in' '/' k ']'").

Definition roleName (r : Role) : string :=
  match r with PROFESSOR => "PROFESSOR" | ADMIN => "ADMIN" end.

Module Prisma.

Definition KnownRequestError (code : string) (meta : value) : JsError :=
  {| instanceofAppError := false;
     isOperational := false;
     statusCode := 0;
     code := Some code;
     name := "PrismaClientKnownRequestError";
     message := "Invalid invocation";
     details := [];
     errors := [];
     meta := meta;
     stack := "" |}.

Definition ValidationError : JsError :=
  {| instanceofAppError := false;
     isOperational := false;
     statusCode := 0;
     code := None;
     name := "PrismaClientValidationError";
     message := "Invalid invocation";
     details := [];
     errors := [];
     meta := VUndef;
     stack := "" |}.

(** A row as the object the client returns. *)
Definition record (u : User) : obj :=
  [ ("id", VNum (id u));
    ("nome", VStr (nome u));
    ("email", VStr (email u));
    ("senha", VStr (senha u));
    ("papel", VStr (roleName (papel u)));
    ("foto", match foto u with Some url => VStr url | None => VNull end);
    ("createdAt", VNum (createdAt u));
    ("updatedAt", VNum (updatedAt u)) ].

(** [select: { k: true, ... }]; every column without a selection. *)
Definition project (select : option (list string)) (u : User) : value :=
  match select with
  | None => VObj (record u)
  | Some keys =>
      VObj (List.filter (fun kv => existsb (String.eqb (fst kv)) keys)
                        (record u))
  end.

Definition rows (db : DB) : list User := map snd (map_to_list (users db)).

Fixpoint insertDesc (u : User) (l : list User) : list User :=
  match l with
  | [] => [u]
  | x :: rest =>
      if createdAt x <=? createdAt u then u :: l else x :: insertDesc u rest
  end.

(** [findMany({ select, orderBy: { createdAt: 'desc' } })]. *)
Definition findMany (select : option (list string)) : M value :=
  fun db =>
    (db, inr (VArr (map (project select) (foldr insertDesc [] (rows db))))).

Definition byEmail (e : string) (db : DB) : option User :=
  List.find (fun u => String.eqb (email u) e) (rows db).

(** [findUnique({ where: { id }, select })]: the row or [null]. *)
Definition findUniqueById (idv : value) (select : option (list string))
  : M value :=
  fun db =>
    match idv with
    | VNum n =>
        (db, inr (match users db !! n with
                  | Some u => project select u
                  | None => VNull
                  end))
    | _ => (db, inl ValidationError)
    end.

(** [findUnique({ where: { email }, select })]. *)
Definition findUniqueByEmail (ev : value) (select : option (list string))
  : M value :=
  fun db =>
    match ev with
    | VStr e =>
        (db, inr (match byEmail e db with
                  | Some u => project select u
                  | None => VNull
                  end))
    | _ => (db, inl ValidationError)
    end.

(** An argument of [data]: left out ([undefined]), a value of the column
    type, or a value the client refuses. *)
Inductive arg (A : Type) : Type :=
  | Skip
  | Given (a : A)
  | Refused.
Arguments Skip {A}.
Arguments Given {A} a.
Arguments Refused {A}.

Definition strArg (v : value) : arg string :=
  match v with
  | VUndef => Skip
  | VStr s => Given s
  | _ => Refused
  end.

Definition roleArg (v : value) : arg Role :=
  match v with
  | VUndef => Skip
  | VStr s =>
      if String.eqb s "PROFESSOR" then Given PROFESSOR
      else if String.eqb s "ADMIN" then Given ADMIN
      else Refused
  | _ => Refused
  end.

Definition fotoArg (v : value) : arg (option string) :=
  match v with
  | VUndef => Skip
  | VNull => Given None
  | VStr s => Given (Some s)
  | _ => Refused
  end.

(** [create({ data, select })]: the three required columns must be given,
    the role defaults to PROFESSOR and the photo to [null]; a taken email
    violates the unique constraint (P2002). *)
Definition create (data : obj) (select : option (list string)) : M value :=
  fun db =>
    match strArg (get "nome" data), strArg (get "email" data),
          strArg (get "senha" data), roleArg (get "papel" data),
          fotoArg (get "foto" data) with
    | Given n, Given e, Given s, r, f =>
        match r, f with
        | Refused, _ | _, Refused => (db, inl ValidationError)
        | _, _ =>
            match byEmail e db with
            | Some _ =>
                (db, inl (KnownRequestError "P2002"
                            (VObj [("target", VArr [VStr "email"])])))
            | None =>
                let u :=
                  {| id := nextId db;
                     nome := n;
                     email := e;
                     senha := s;
                     papel := match r with Given x => x | _ => PROFESSOR end;
                     foto := match f with Given x => x | _ => None end;
                     createdAt := clock db;
                     updatedAt := clock db |} in
                ({| users := <[nextId db := u]> (users db);
                    nextId := nextId db + 1;
                    clock := clock db + 1 |},
                 inr (project select u))
            end
        end
    | _, _, _, _, _ => (db, inl ValidationError)
    end.

Definition patch {A : Type} (a : arg A) (old : A) : A :=
  match a with Given x => x | _ => old end.

Definition refused {A : Type} (a : arg A) : bool :=
  match a with Refused => true | _ => false end.

(** [update({ where: { id }, data, select })]: the columns given in
    [data] are written, the others kept, the update timestamp refreshed;
    a missing row is P2025, an email of another row P2002. *)
Definition update (idv : value) (data : obj) (select : option (list string))
  : M value :=
  fun db =>
    match idv with
    | VNum n =>
        let an := strArg (get "nome" data) in
        let ae := strArg (get "email" data) in
        let az := strArg (get "senha" data) in
        let ar := roleArg (get "papel" data) in
        let af := fotoArg (get "foto" data) in
        if refused an || refused ae || refused az || refused ar || refused af
        then (db, inl ValidationError)
        else
          match users db !! n with
          | None => (db, inl (KnownRequestError "P2025" VUndef))
          | Some old =>
              let taken :=
                match ae with
                | Given e =>
                    match byEmail e db with
                    | Some other => negb (id other =? n)
                    | None => false
                    end
                | _ => false
                end in
              if taken
              then (db, inl (KnownRequestError "P2002"
                               (VObj [("target", VArr [VStr "email"])])))
              else
                let u :=
                  {| id := id old;
                     nome := patch an (nome old);
                     email := patch ae (email old);
                     senha := patch az (senha old);
                     papel := patch ar (papel old);
                     foto := patch af (foto old);
                     createdAt := createdAt old;
                     updatedAt := clock db |} in
                ({| users := <[n := u]> (users db);
                    nextId := nextId db;
                    clock := clock db + 1 |},
                 inr (project select u))
          end
    | _ => (db, inl ValidationError)
    end.

(** [delete({ where: { id } })]. *)
Definition delete_ (idv : value) : M value :=
  fun db =>
    match idv with
    | VNum n =>
        match users db !! n with
        | None => (db, inl (KnownRequestError "P2025" VUndef))
        | Some old =>
            ({| users := delete n (users db);
                nextId := nextId db;
                clock := clock db |},
             inr (VObj (record old)))
        end
    | _ => (db, inl ValidationError)
    end.

End Prisma.

(** ** services/userService.js *)

Section Service.
Context `{Runtime}.

Definition userSelect : list string :=
  ["id"; "nome"; "email"; "papel"; "foto"; "createdAt"].

(** [!userId || isNaN(userId) || userId <= 0]. *)
Definition idInvalid (userId : value) : bool :=
  negb (truthy userId) || isNaN userId || leZero userId.

Definition notFound (userId : value) : JsError :=
  Errors.NotFoundError
    (Some ("Usuário com ID " +:+ toString userId +:+ " não encontrado"))
    (Some "User").

Definition getAllUsers : M value :=
  await usuarios <- Prisma.findMany (Some userSelect) in
  ret usuarios.

Definition getUserById (userId : value) : M value :=
  if idInvalid userId
  then throw (Errors.ValidationError
                (Some "ID inválido. Deve ser um número positivo") None)
  else
    await usuario <- Prisma.findUniqueById (parseInt userId)
                       (Some userSelect) in
    if negb (truthy usuario) then throw (notFound userId)
    else ret usuario.

Definition emailExists (email : value) : M bool :=
  await usuario <- Prisma.findUniqueByEmail email None in
  ret (truthy usuario).

Definition createUser (userData : value) : M value :=
  await emailJaExiste <- emailExists (prop "email" userData) in
  if emailJaExiste
  then throw (Errors.ConflictError
                (Some "Email já cadastrado no sistema") (Some "email"))
  else
    let dadosUsuario : obj :=
      [ ("nome", prop "nome" userData);
        ("email", prop "email" userData);
        ("senha", prop "senha" userData);
        ("papel", jsOr (prop "papel" userData) (VStr "PROFESSOR"));
        ("foto", jsOr (prop "foto" userData) VNull) ] in
    await novoUsuario <- Prisma.create dadosUsuario (Some userSelect) in
    ret novoUsuario.

(** [if (cond) o[k] = v]. *)
Definition assignIf (cond : bool) (k : string) (v : value) (o : obj) : obj :=
  if cond then o ++ [(k, v)] else o.

Definition isUndefined (v : value) : bool :=
  match v with VUndef => true | _ => false end.

(** The object [dadosAtualizacao] after its five conditional
    assignments. *)
Definition dadosAtualizacao (userData : value) : obj :=
  let d0 : obj := [] in
  let d1 := assignIf (truthy (prop "nome" userData))
              "nome" (prop "nome" userData) d0 in
  let d2 := assignIf (truthy (prop "email" userData))
              "email" (prop "email" userData) d1 in
  let d3 := assignIf (truthy (prop "senha" userData))
              "senha" (prop "senha" userData) d2 in
  let d4 := assignIf (truthy (prop "papel" userData))
              "papel" (prop "papel" userData) d3 in
  assignIf (negb (isUndefined (prop "foto" userData)))
    "foto" (prop "foto" userData) d4.

Definition updateUser (userId userData : value) : M value :=
  if idInvalid userId
  then throw (Errors.ValidationError
                (Some "ID inválido. Deve ser um número positivo") None)
  else
    await usuarioExistente <- Prisma.findUniqueById (parseInt userId) None in
    if negb (truthy usuarioExistente) then throw (notFound userId)
    else
      await _ <-
        (if truthy (prop "email" userData)
            && strictNeq (prop "email" userData)
                         (prop "email" usuarioExistente)
         then
           await emailJaExiste <- emailExists (prop "email" userData) in
           if emailJaExiste
           then throw (Errors.ConflictError
                         (Some "Email já está em uso por outro usuário")
                         (Some "email"))
           else ret tt
         else ret tt) in
      await usuarioAtualizado <-
        Prisma.update (parseInt userId) (dadosAtualizacao userData)
          (Some (userSelect ++ ["updatedAt"])) in
      ret usuarioAtualizado.

Definition deleteUser (userId : value) : M value :=
  if idInvalid userId
  then throw (Errors.ValidationError
                (Some "ID inválido. Deve ser um número positivo") None)
  else
    await usuarioExistente <- Prisma.findUniqueById (parseInt userId)
                                (Some ["id"; "nome"; "email"]) in
    if negb (truthy usuarioExistente) then throw (notFound userId)
    else
      await _ <- Prisma.delete_ (parseInt userId) in
      ret usuarioExistente.

End Service.

(** ** The request and the response *)

Record Request : Type := mkRequest {
  method : string;
  path : string;
  params : value;
  query : value;
  body : value;
  (** [new Date().toISOString()] while the request is handled. *)
  now : string;
}.

Record Response : Type := mkResponse {
  status : Z;
  json : value;
}.

Inductive source : Type := SBody | SParams | SQuery.

Definition readSource (src : source) (req : Request) : value :=
  match src with
  | SBody => body req
  | SParams => params req
  | SQuery => query req
  end.

Definition writeSource (src : source) (data : value) (req : Request)
  : Request :=
  match src with
  | SBody =>
      {| method := method req; path := path req; params := params req;
         query := query req; body := data; now := now req |}
  | SParams =>
      {| method := method req; path := path req; params := data;
         query := query req; body := body req; now := now req |}
  | SQuery =>
      {| method := method req; path := path req; params := params req;
         query := data; body := body req; now := now req |}
  end.

(** ** middlewares/validate.js *)

Section Validate.
Context `{Runtime}.

(** One issue of the library as a detail of the validation error. *)
Definition detailOf (err : Zod.issue) : value :=
  VObj [ ("field", VStr (Str.join "." (Zod.path err)));
         ("message", VStr (Zod.message err));
         ("code", VStr (Zod.code err)) ].

(** The middleware: the validated and transformed data replace the
    original ones, or one validation error carries every issue. *)
Definition validate (schema : Zod.schema) (src : source) (req : Request)
  : JsError + Request :=
  match Zod.safeParse schema (readSource src req) with
  | inl issues =>
      inl (Errors.ValidationError (Some "Dados de entrada inválidos")
             (Some (map detailOf issues)))
  | inr data => inr (writeSource src data req)
  end.

End Validate.

(** ** middlewares/errorHandler.js *)

Section ErrorHandler.
Context `{Runtime}.

Definition codeValue (c : option string) : value :=
  match c with Some s => VStr s | None => VUndef end.

Definition envelope (code : value) (message : string) (extra : obj)
    (req : Request) : value :=
  jsonObj
    [ ("success", VBool false);
      ("error", jsonObj ([("code", code); ("message", VStr message)]
                         ++ extra));
      ("timestamp", VStr (now req));
      ("path", VStr (path req)) ].

(** The table [errorMap] of [handlePrismaError] with its fallback. *)
Definition prismaErrorMap (code : string) : Z * string * string :=
  if String.eqb code "P2002"
  then (409, "CONFLICT",
        "Registro duplicado. Este valor já existe no sistema.")
  else if String.eqb code "P2025"
  then (404, "NOT_FOUND", "Registro não encontrado.")
  else if String.eqb code "P2003"
  then (400, "INVALID_REFERENCE", "Referência inválida a outro registro.")
  else (500, "DATABASE_ERROR", "Erro no banco de dados.").

Definition handlePrismaError (error : JsError) (req : Request) : Response :=
  let '(st, c, msg) := prismaErrorMap (default "" (code error)) in
  {| status := st;
     json := envelope (VStr c) msg
               (if development
                then [ ("prismaCode", codeValue (code error));
                       ("details", meta error) ]
                else [])
               req |}.

Definition handleZodError (error : JsError) (req : Request) : Response :=
  let details :=
    map (fun err =>
           VObj [ ("field", VStr (Str.join "." (Zod.path err)));
                  ("message", VStr (Zod.message err)) ])
        (errors error) in
  {| status := 400;
     json := envelope (VStr "VALIDATION_ERROR") "Dados de entrada inválidos"
               [("details", VArr details)] req |}.

(** [error.code && error.code.startsWith('P')]. *)
Definition hasPrismaCode (error : JsError) : bool :=
  match code error with
  | Some c => negb (String.eqb c "") && Str.startsWith "P" c
  | None => false
  end.

Definition errorHandler (error : JsError) (req : Request) : Response :=
  if instanceofAppError error && isOperational error
  then {| status := statusCode error;
          json := envelope (codeValue (code error)) (message error)
                    [("details", VArr (details error))] req |}
  else if hasPrismaCode error then handlePrismaError error req
  else if String.eqb (name error) "ZodError" then handleZodError error req
  else {| status := 500;
          json := envelope (VStr "INTERNAL_ERROR")
                    (if development then message error
                     else "Erro interno do servidor")
                    (if development then [("stack", VStr (stack error))]
                     else [])
                    req |}.

End ErrorHandler.

(** ** controllers/userController.js *)

Section Controller.
Context `{Runtime}.

Definition arrayLength (v : value) : value :=
  match v with
  | VArr items => VNum (Z.of_nat (List.length items))
  | _ => VUndef
  end.

Definition getAll (req : Request) : M Response :=
  await usuarios <- getAllUsers in
  ret {| status := 200;
         json := jsonObj [ ("success", VBool true);
                           ("data", usuarios);
                           ("total", arrayLength usuarios) ] |}.

Definition getById (req : Request) : M Response :=
  let id := prop "id" (params req) in
  await usuario <- getUserById id in
  ret {| status := 200;
         json := jsonObj [ ("success", VBool true); ("data", usuario) ] |}.

Definition create (req : Request) : M Response :=
  await novoUsuario <- createUser (body req) in
  ret {| status := 201;
         json := jsonObj [ ("success", VBool true);
                           ("message", VStr "Usuário criado com sucesso");
                           ("data", novoUsuario) ] |}.

Definition update (req : Request) : M Response :=
  let id := prop "id" (params req) in
  await usuarioAtualizado <- updateUser id (body req) in
  ret {| status := 200;
         json := jsonObj [ ("success", VBool true);
                           ("message",
                            VStr "Usuário atualizado com sucesso");
                           ("data", usuarioAtualizado) ] |}.

Definition remove (req : Request) : M Response :=
  let id := prop "id" (params req) in
  await usuarioRemovido <- deleteUser id in
  ret {| status := 200;
         json := jsonObj [ ("success", VBool true);
                           ("message", VStr "Usuário removido com sucesso");
                           ("data", usuarioRemovido) ] |}.

End Controller.

(** ** routes/userRoutes.js *)

Section Routes.
Context `{Runtime}.

Definition middleware : Type := Request -> JsError + Request.

(** A route: the middlewares in order, then the controller; the first
    error, wherever it is raised, goes to the error handler. *)
Fixpoint route (mws : list middleware) (controller : Request -> M Response)
    (req : Request) (db : DB) : DB * Response :=
  match mws with
  | [] =>
      match controller req db with
      | (db', inr res) => (db', res)
      | (db', inl error) => (db', errorHandler error req)
      end
  | mw :: rest =>
      match mw req with
      | inl error => (db, errorHandler error req)
      | inr req' => route rest controller req' db
      end
  end.

Definition postUsers : Request -> DB -> DB * Response :=
  route [validate createUserSchema SBody] create.

Definition getUsers : Request -> DB -> DB * Response :=
  route [] getAll.

Definition getUser : Request -> DB -> DB * Response :=
  route [validate idParamSchema SParams] getById.

Definition putUser : Request -> DB -> DB * Response :=
  route [validate idParamSchema SParams; validate updateUserSchema SBody]
        update.

Definition deleteUser_ : Request -> DB -> DB * Response :=
  route [validate idParamSchema SParams] remove.

End Routes.

(** ** A concrete runtime *)

(** The runtime on which the closed examples below are evaluated: Node.js
    in production mode. The email pattern is the one release 3.22 of the
    validation library ships: no leading dot, no two dots in a row, a local
    part of letters, digits and [_ ' + - .] that ends in a letter, a digit
    or one of [_ + -], an [@], one or more labels each closed by a dot, and
    a last label of two or more letters, case-insensitive. [Number],
    [parseInt] and [String] follow the language; [newURL] follows the URL
    standard, the mapping of domains to ASCII apart. *)
Module Node.

Definition between (lo hi : nat) (c : ascii) : bool :=
  let n := nat_of_ascii c in ((lo <=? n) && (n <=? hi))%nat.

Definition isLetter (c : ascii) : bool := between 65 90 c || between 97 122 c.

Definition isAlnum (c : ascii) : bool := isLetter c || Str.isDigit c.

Definition isChar (x : nat) (c : ascii) : bool := (nat_of_ascii c =? x)%nat.

Fixpoint forallChars (f : ascii -> bool) (s : string) : bool :=
  match s with
  | EmptyString => true
  | String c r => f c && forallChars f r
  end.

Fixpoint lastChar (s : string) : option ascii :=
  match s with
  | EmptyString => None
  | String c EmptyString => Some c
  | String _ r => lastChar r
  end.

(** The part before the first [sep] and the part after it. *)
Fixpoint splitAt (sep : nat) (s : string) : option (string * string) :=
  match s with
  | EmptyString => None
  | String c r =>
      if isChar sep c then Some (EmptyString, r)
      else match splitAt sep r with
           | Some (a, b) => Some (String c a, b)
           | None => None
           end
  end.

Fixpoint hasDotDot (s : string) : bool :=
  match s with
  | String a ((String b _) as r) => isChar 46 a && isChar 46 b || hasDotDot r
  | _ => false
  end.

(** A character of the local part. *)
Definition localChar (c : ascii) : bool :=
  isAlnum c || isChar 95 c || isChar 39 c || isChar 43 c || isChar 45 c
  || isChar 46 c.

(** The last character of the local part. *)
Definition localLast (c : ascii) : bool :=
  isAlnum c || isChar 95 c || isChar 43 c || isChar 45 c.

(** A label: a letter or digit, then letters, digits and hyphens. *)
Definition label (s : string) : bool :=
  match s with
  | EmptyString => false
  | String c r =>
      isAlnum c && forallChars (fun x => isAlnum x || isChar 45 x) r
  end.

(** One or more labels closed by a dot, then two or more letters; [fuel]
    bounds the number of labels, [seen] records that one has been read. *)
Fixpoint domain (fuel : nat) (seen : bool) (s : string) : bool :=
  match fuel with
  | O => false
  | S fuel' =>
      match splitAt 46 s with
      | Some (l, rest) => label l && domain fuel' true rest
      | None => seen && forallChars isLetter s && (2 <=? String.length s)%nat
      end
  end.

Definition emailRegex (s : string) : bool :=
  match splitAt 64 s with
  | Some (loc, dom) =>
      negb (hasDotDot s)
      && match loc with
         | EmptyString => false
         | String c _ => negb (isChar 46 c)
         end
      && forallChars localChar loc
      && match lastChar loc with Some c => localLast c | None => false end
      && domain (S (String.length dom)) false dom
  | None => false
  end.

(** *** Numbers in strings *)

(** The value of a digit of the radix. *)
Definition digitOf (radix : Z) (c : ascii) : option Z :=
  let d := if Str.isDigit c then Z.of_nat (nat_of_ascii c) - 48
           else if between 97 122 c then Z.of_nat (nat_of_ascii c) - 87
           else if between 65 90 c then Z.of_nat (nat_of_ascii c) - 55
           else radix in
  if d <? radix then Some d else None.

(** The integer denoted by the longest prefix of digits of the radix, when
    there is a digit, and what follows the prefix. *)
Fixpoint prefixValue (radix acc : Z) (seen : bool) (s : string)
    : option Z * string :=
  match s with
  | EmptyString => (if seen then Some acc else None, s)
  | String c r =>
      match digitOf radix c with
      | Some d => prefixValue radix (radix * acc + d) true r
      | None => (if seen then Some acc else None, s)
      end
  end.

(** A leading sign. *)
Definition signed (s : string) : bool * string :=
  match s with
  | String c r =>
      if isChar 45 c then (true, r)
      else if isChar 43 c then (false, r)
      else (false, s)
  | EmptyString => (false, s)
  end.

(** The radix announced by [0x], [0o] or [0b], and what follows. *)
Definition radixMark (s : string) : option (Z * string) :=
  match s with
  | String z (String c r) =>
      if isChar 48 z then
        if isChar 120 c || isChar 88 c then Some (16, r)
        else if isChar 111 c || isChar 79 c then Some (8, r)
        else if isChar 98 c || isChar 66 c then Some (2, r)
        else None
      else None
  | _ => None
  end.

(** [parseInt(s)] on a string: leading white space is dropped, a sign is
    read, [0x] announces hexadecimal digits, and the longest prefix of
    digits denotes the integer; NaN without a digit. *)
Definition parseIntString (s : string) : value :=
  let (neg, u) := signed (Str.trimStart s) in
  let n := match radixMark u with
           | Some (16, h) => fst (prefixValue 16 0 false h)
           | _ => fst (prefixValue 10 0 false u)
           end in
  match n with
  | Some k => VNum (Double.round (if neg then - k else k))
  | None => VNaN
  end.

(** The double nearest to [m * 10^e] for a natural number [m]. A [value]
    has no fractions: a fraction is stood for by the next integer above
    it, which answers every comparison with an integer as the fraction
    does, and is 0 when the fraction is too small for a double. *)
Definition scaled (neg : bool) (m e : Z) : Z :=
  if 0 <=? e then Double.round ((if neg then - m else m) * 10 ^ e)
  else
    let d := 10 ^ (- e) in
    if m mod d =? 0 then Double.round ((if neg then - m else m) / d)
    else if m * 2 ^ 1075 <=? d then 0
    else Double.round (if neg then - (m / d) else m / d + 1).

(** The exponent part of a decimal literal, which ends the string. *)
Definition exponentPart (s : string) : option Z :=
  match s with
  | EmptyString => Some 0
  | String c r =>
      if isChar 101 c || isChar 69 c then
        let (neg, ds) := signed r in
        match prefixValue 10 0 false ds with
        | (Some x, EmptyString) => Some (if neg then - x else x)
        | _ => None
        end
      else None
  end.

(** A decimal literal: a sign, then [Infinity] or digits with an optional
    point and an optional exponent. *)
Definition decimalLiteral (s : string) : value :=
  let (neg, u) := signed s in
  if String.eqb u "Infinity"
  then VNum (if neg then - Double.infinity else Double.infinity)
  else
    let (whole, r1) := prefixValue 10 0 false u in
    let (part, r2) :=
      match r1 with
      | String c r => if isChar 46 c then prefixValue 10 0 false r
                      else (None, r1)
      | EmptyString => (None, r1)
      end in
    let places :=
      match part with
      | Some _ => Z.of_nat (String.length r1 - 1 - String.length r2)
      | None => 0
      end in
    match whole, part, exponentPart r2 with
    | None, None, _ | _, _, None => VNaN
    | _, _, Some x =>
        VNum (scaled neg (default 0 whole * 10 ^ places + default 0 part)
                (x - places))
    end.

(** [Number(s)] on a string: white space is dropped at both ends; the
    empty string is 0; then a literal in radix 16, 8 or 2, or a decimal
    literal, and NaN for anything else. *)
Definition stringToNumber (s : string) : value :=
  let t := Str.trim s in
  if String.eqb t "" then VNum 0
  else match radixMark t with
       | Some (radix, r) =>
           match prefixValue radix 0 false r with
           | (Some k, EmptyString) => VNum (Double.round k)
           | _ => VNaN
           end
       | None => decimalLiteral t
       end.

(** [String(v)]; the elements of an array are joined by commas, null and
    undefined leaving nothing, and an object literal is [[object Object]]. *)
Fixpoint stringOf (v : value) : string :=
  match v with
  | VUndef => "undefined"
  | VNull => "null"
  | VBool b => if b then "true" else "false"
  | VNum n => if Z.abs n <=? Double.maxSafe then pretty n
              else Double.decimal n
  | VNaN => "NaN"
  | VStr s => s
  | VArr l =>
      Str.join ","
        (map (fun e => match e with
                       | VUndef | VNull => ""
                       | _ => stringOf e
                       end) l)
  | VObj _ => "[object Object]"
  end.

(** [Number(v)]. *)
Definition toNumber (v : value) : value :=
  match v with
  | VUndef => VNaN
  | VNull => VNum 0
  | VBool b => VNum (if b then 1 else 0)
  | VNum _ | VNaN => v
  | _ => stringToNumber (stringOf v)
  end.

(** *** new URL *)

(** The parts of [s] between the occurrences of [sep]. *)
Fixpoint splitOn (sep : nat) (s : string) : list string :=
  match s with
  | EmptyString => [EmptyString]
  | String c r =>
      if isChar sep c then EmptyString :: splitOn sep r
      else match splitOn sep r with
           | p :: ps => String c p :: ps
           | [] => [String c EmptyString]
           end
  end.

(** The prefix before the first character that satisfies [stop]. *)
Fixpoint upTo (stop : ascii -> bool) (s : string) : string :=
  match s with
  | EmptyString => EmptyString
  | String c r => if stop c then EmptyString else String c (upTo stop r)
  end.

Fixpoint dropWhile (f : ascii -> bool) (s : string) : string :=
  match s with
  | EmptyString => EmptyString
  | String c r => if f c then dropWhile f r else s
  end.

Fixpoint dropWhileEnd (f : ascii -> bool) (s : string) : string :=
  match s with
  | EmptyString => EmptyString
  | String c r =>
      let r' := dropWhileEnd f r in
      if f c && String.eqb r' "" then EmptyString else String c r'
  end.

Fixpoint removeChars (f : ascii -> bool) (s : string) : string :=
  match s with
  | EmptyString => EmptyString
  | String c r => if f c then removeChars f r else String c (removeChars f r)
  end.

(** A C0 control or a space. *)
Definition isControlOrSpace (c : ascii) : bool := between 0 32 c.

(** A tab or a newline. *)
Definition isTabOrNewline (c : ascii) : bool :=
  isChar 9 c || isChar 10 c || isChar 13 c.

(** A letter, then letters, digits and [+ - .], up to the first colon. *)
Definition scheme (s : string) : option (string * string) :=
  match splitAt 58 s with
  | Some (String c r, rest) =>
      if isLetter c
         && forallChars (fun x => isAlnum x || isChar 43 x || isChar 45 x
                                  || isChar 46 x) r
      then Some (Str.toLowerCase (String c r), rest)
      else None
  | _ => None
  end.

Definition isSlash (c : ascii) : bool := isChar 47 c || isChar 92 c.

Definition dropSlashes (s : string) : string := dropWhile isSlash s.

(** A code point that no host holds. *)
Definition forbiddenHost (c : ascii) : bool :=
  existsb (fun x => isChar x c)
    [0; 9; 10; 13; 32; 35; 47; 58; 60; 62; 63; 64; 91; 92; 93; 94; 124]%nat.

(** A code point that no domain holds. *)
Definition forbiddenDomain (c : ascii) : bool :=
  forbiddenHost c || between 0 31 c || isChar 37 c || isChar 127 c.

(** The bytes of a string with its percent escapes decoded. *)
Fixpoint percentDecode (s : string) : string :=
  match s with
  | EmptyString => EmptyString
  | String c r =>
      match r with
      | String a (String b r') =>
          match digitOf 16 a, digitOf 16 b with
          | Some x, Some y =>
              if isChar 37 c
              then String (ascii_of_nat (Z.to_nat (16 * x + y)))
                     (percentDecode r')
              else String c (percentDecode r)
          | _, _ => String c (percentDecode r)
          end
      | _ => String c (percentDecode r)
      end
  end.

(** A part of an IPv4 address: decimal, octal after [0], hexadecimal
    after [0x]. *)
Definition ipv4Number (s : string) : option Z :=
  let digits (radix : Z) (t : string) :=
    match t with
    | EmptyString => Some 0
    | _ => match prefixValue radix 0 false t with
           | (Some n, EmptyString) => Some n
           | _ => None
           end
    end in
  match s with
  | EmptyString => None
  | String z (String c r) =>
      if isChar 48 z then
        if isChar 120 c || isChar 88 c then digits 16 r
        else digits 8 (String c r)
      else digits 10 s
  | _ => digits 10 s
  end.

(** The parts without an empty last one. *)
Definition dropLastEmpty (parts : list string) : list string :=
  match rev parts with
  | EmptyString :: ((_ :: _) as rest) => rev rest
  | _ => parts
  end.

(** The host ends in a number, and is then read as an IPv4 address. *)
Definition endsInNumber (h : string) : bool :=
  match rev (splitOn 46 h) with
  | [EmptyString] | [] => false
  | EmptyString :: l :: _ | l :: _ =>
      negb (String.eqb l "") && forallChars Str.isDigit l
      || bool_decide (is_Some (ipv4Number l))
  end.

Fixpoint ipv4Fits (count : Z) (ns : list (option Z)) : bool :=
  match ns with
  | [] => false
  | [Some n] => n <? 256 ^ (5 - count)
  | Some n :: rest => (n <=? 255) && ipv4Fits count rest
  | None :: _ => false
  end.

(** At most four parts, each a number, all but the last up to 255 and the
    last within what is left of the 32 bits. *)
Definition ipv4 (h : string) : bool :=
  let parts := dropLastEmpty (splitOn 46 h) in
  (length parts <=? 4)%nat
  && ipv4Fits (Z.of_nat (length parts)) (map ipv4Number parts).

(** What an IPv6 address is made of: a field between colons, a colon,
    two colons. *)
Inductive token : Type :=
  | Field (f : string)
  | Colon
  | Compress.

Fixpoint tokens (s : string) : list token :=
  match s with
  | EmptyString => []
  | String c r =>
      if isChar 58 c then
        match r with
        | String c' r' => if isChar 58 c' then Compress :: tokens r'
                          else Colon :: tokens r
        | EmptyString => [Colon]
        end
      else match tokens r with
           | Field f :: ts => Field (String c f) :: ts
           | ts => Field (String c EmptyString) :: ts
           end
  end.

(** One to four hexadecimal digits. *)
Definition hexPiece (f : string) : bool :=
  negb (String.eqb f "") && (String.length f <=? 4)%nat
  && forallChars (fun c => bool_decide (is_Some (digitOf 16 c))) f.

(** A decimal number up to 255 without a leading zero. *)
Definition quadPart (p : string) : bool :=
  Str.matchesDigits p
  && (String.eqb p "0" || negb (String.prefix "0" p))
  && (Str.digitsValue p <=? 255).

(** Four such numbers between dots. *)
Definition dottedQuad (f : string) : bool :=
  let parts := splitOn 46 f in
  (length parts =? 4)%nat && forallb quadPart parts.

(** The pieces of 16 bits that the tokens stand for, two colons counted
    as one piece; none when a field is not a piece, when a colon opens or
    closes the address or follows another, or when the dotted quad is not
    the last token. *)
Fixpoint pieces (afterField : bool) (ts : list token) : option nat :=
  match ts with
  | [] => Some O
  | [Field f] =>
      if afterField then None
      else if hexPiece f then Some 1%nat
      else if dottedQuad f then Some 2%nat
      else None
  | Field f :: rest =>
      if negb afterField && hexPiece f
      then option_map S (pieces true rest)
      else None
  | Colon :: rest =>
      match rest with
      | Field _ :: _ => if afterField then pieces false rest else None
      | _ => None
      end
  | Compress :: rest => option_map S (pieces false rest)
  end.

Definition compressions (ts : list token) : nat :=
  length (List.filter
            (fun t => match t with Compress => true | _ => false end) ts).

(** Eight pieces, or fewer around one pair of colons. *)
Definition ipv6 (s : string) : bool :=
  let ts := tokens s in
  match pieces false ts, compressions ts with
  | Some n, O => (n =? 8)%nat
  | Some n, S O => (n <=? 8)%nat
  | _, _ => false
  end.

(** The host parser. A host in brackets is an IPv6 address. The host of
    a scheme without a special meaning holds no forbidden code point. A
    domain is taken with its percent escapes decoded, holds no forbidden
    code point, and is an IPv4 address when it ends in a number. The
    mapping of a domain to ASCII is not modelled: it fails on some
    domains with a code point outside ASCII or a label in [xn--], which
    are accepted here. *)
Definition hostParses (opaque : bool) (h : string) : bool :=
  match h with
  | String c r =>
      if isChar 91 c then
        match lastChar r with
        | Some e => isChar 93 e
                    && ipv6 (String.substring 0 (String.length r - 1) r)
        | None => false
        end
      else if opaque then forallChars (fun x => negb (forbiddenHost x)) h
      else
        let d := percentDecode h in
        negb (String.eqb d "")
        && forallChars (fun x => negb (forbiddenDomain x)) d
        && (negb (endsInNumber (Str.toLowerCase d))
            || ipv4 (Str.toLowerCase d))
  | EmptyString => opaque
  end.

(** The host, up to the first colon outside brackets, and the port. *)
Fixpoint hostAndPort (inside : bool) (s : string) : string * option string :=
  match s with
  | EmptyString => (EmptyString, None)
  | String c r =>
      if isChar 58 c && negb inside then (EmptyString, Some r)
      else
        let inside' := if isChar 91 c then true
                       else if isChar 93 c then false
                       else inside in
        let (h, p) := hostAndPort inside' r in (String c h, p)
  end.

(** The authority, which ends at the first slash, question mark or hash:
    credentials up to the last [@], a host, and a port of digits up to
    65535. *)
Definition authorityParses (special : bool) (s : string) : bool :=
  let stop c := isChar 47 c || isChar 63 c || isChar 35 c
                || (special && isChar 92 c) in
  let parts := splitOn 64 (upTo stop s) in
  match hostAndPort false (List.last parts EmptyString) with
  | (h, port) =>
      negb ((1 <? length parts)%nat && String.eqb h ""
            && bool_decide (port = None))
      && negb (String.eqb h "" && (special || bool_decide (port <> None)))
      && hostParses (negb special) h
      && match port with
         | Some p => Str.allDigits p && (Str.digitsValue p <=? 65535)
         | None => true
         end
  end.

(** The host of a file URL, read after two slashes: none, a drive letter,
    or a domain. *)
Definition fileHostParses (s : string) : bool :=
  let h := upTo (fun c => isSlash c || isChar 63 c || isChar 35 c) s in
  match h with
  | EmptyString => true
  | String a (String b EmptyString) =>
      isLetter a && (isChar 58 b || isChar 124 b) || hostParses false h
  | _ => hostParses false h
  end.

(** [new URL(s)] returns: control characters and spaces are dropped at
    both ends and tabs and newlines everywhere; a scheme is required; a
    scheme with a special meaning is followed by slashes and an authority,
    [file] by a host after two slashes, and any other scheme by an
    authority after two slashes or by a path, which never fails. *)
Definition newURL (s : string) : bool :=
  let input :=
    removeChars isTabOrNewline
      (dropWhileEnd isControlOrSpace (dropWhile isControlOrSpace s)) in
  match scheme input with
  | Some (sch, rest) =>
      if existsb (String.eqb sch) ["http"; "https"; "ftp"; "ws"; "wss"]
      then authorityParses true (dropSlashes rest)
      else if String.eqb sch "file" then
        match rest with
        | String a (String b r) =>
            if isSlash a && isSlash b then fileHostParses r else true
        | _ => true
        end
      else
        match rest with
        | String a (String b r) =>
            if isChar 47 a && isChar 47 b then authorityParses false r
            else true
        | _ => true
        end
  | None => false
  end.

Definition runtime : Runtime :=
  {| emailPattern := emailRegex;
     urlParses := newURL;
     toNumberOther := toNumber;
     parseIntOther := fun v => parseIntString (stringOf v);
     toStringOther := stringOf;
     development := false |}.

End Node.

(** ** Definitions for the statements *)

Module ZodSpec.
Import Zod.

Section Defs.
Context `{Runtime}.

(** The outcome of every property of a shape, in the order of the
    shape. *)
Definition fieldResults (p : list string) (o : obj)
    (shape : list (string * schema)) : list (entry * list issue) :=
  map (fun ks =>
         let '(r, found) := parse (snd ks) (p ++ [fst ks]) (get (fst ks) o)
         in ((fst ks, hasKey (fst ks) o, r), found))
      shape.

Definition strictIssues (unknown : unknownKeys) (p : list string)
    (extra : list string) : list issue :=
  match unknown, extra with
  | Strict, _ :: _ =>
      [Issue "unrecognized_keys" p
         ("Unrecognized key(s) in object: "
          +:+ Str.join ", " (map quoted extra))]
  | _, _ => []
  end.

(** What [mergeObject] keeps of a property. *)
Definition kept (pr : entry) : obj :=
  match pr with
  | (k, alwaysSet, OK v) | (k, alwaysSet, DIRTY v) =>
      match v with
      | VUndef => if alwaysSet then [(k, v)] else []
      | _ => [(k, v)]
      end
  | (_, _, INVALID) => []
  end.

Definition isOK (r : parsed) : bool :=
  match r with OK _ => true | _ => false end.

Definition isINVALID (r : parsed) : bool :=
  match r with INVALID => true | _ => false end.

(** The schema of a property of an object schema. *)
Fixpoint field (k : string) (s : schema) : schema :=
  match s with
  | Object shape _ =>
      match List.find (fun ks => String.eqb k (fst ks)) shape with
      | Some ks => snd ks
      | None => s
      end
  | Refine inner _ _ => field k inner
  | _ => s
  end.

(** The field and the message of an issue, as a detail shows them. *)
Definition shown (i : issue) : string * string :=
  (Str.join "." (path i), message i).

End Defs.
End ZodSpec.

(** ** The rule table of the schemas *)

(** The rules of the create schema read field by field: for a request
    body, every violated rule as the pair of its field and its message, in
    the order of the fields. *)
Module Table.
Section Rules.
Context `{Runtime}.

Definition lengthRule (lo hi : nat) (tooShort tooLong : string)
    (s : string) : list string :=
  (if (String.length s <? lo)%nat then [tooShort] else [])
  ++ (if (hi <? String.length s)%nat then [tooLong] else []).

Definition nomeRule (v : value) : list string :=
  match v with
  | VUndef => ["Nome é obrigatório"]
  | VStr s =>
      lengthRule 3 100 "Nome deve ter pelo menos 3 caracteres"
        "Nome deve ter no máximo 100 caracteres" s
  | _ => ["Nome deve ser um texto"]
  end.

Definition emailRule (v : value) : list string :=
  match v with
  | VUndef => ["Email é obrigatório"]
  | VStr s => if emailPattern s then [] else ["Email inválido"]
  | _ => ["Email deve ser um texto"]
  end.

Definition senhaRule (v : value) : list string :=
  match v with
  | VUndef => ["Senha é obrigatória"]
  | VStr s =>
      lengthRule 6 100 "Senha deve ter pelo menos 6 caracteres"
        "Senha deve ter no máximo 100 caracteres" s
  | _ => ["Senha deve ser um texto"]
  end.

Definition isRole (s : string) : bool :=
  String.eqb s "PROFESSOR" || String.eqb s "ADMIN".

Definition papelRule (v : value) : list string :=
  match v with
  | VUndef => []
  | VStr s => if isRole s then [] else ["Papel deve ser PROFESSOR ou ADMIN"]
  | _ => ["Papel deve ser PROFESSOR ou ADMIN"]
  end.

Definition fotoRule (v : value) : list string :=
  match v with
  | VUndef | VNull => []
  | VStr s => if urlParses s then [] else ["URL da foto inválida"]
  | _ => ["Expected string, received " +:+ Zod.parsedType v]
  end.

Definition createViolations (o : obj) : list (string * string) :=
  map (pair "nome") (nomeRule (get "nome" o))
  ++ map (pair "email") (emailRule (get "email" o))
  ++ map (pair "senha") (senhaRule (get "senha" o))
  ++ map (pair "papel") (papelRule (get "papel" o))
  ++ map (pair "foto") (fotoRule (get "foto" o)).

(** The data handed downstream when no rule is violated: the name
    trimmed, the email in lower case and trimmed, the role when the body
    carries one, the photo or [null]. *)
Definition mapStr (f : string -> string) (v : value) : value :=
  match v with VStr s => VStr (f s) | _ => v end.

Definition createNormalized (o : obj) : obj :=
  [ ("nome", mapStr Str.trim (get "nome" o));
    ("email", mapStr (fun s => Str.trim (Str.toLowerCase s))
                (get "email" o));
    ("senha", get "senha" o) ]
  ++ (match get "papel" o with
      | VUndef => if hasKey "papel" o then [("papel", VUndef)] else []
      | v => [("papel", v)]
      end)
  ++ [ ("foto", jsOr (get "foto" o) VNull) ].

End Rules.
End Table.

(** ** The response as the client reads it *)

(** The user data of a response carry no password: no property [senha] in
    the object, nor in any element of the array. *)
Definition noSenha (v : value) : bool :=
  match v with
  | VObj o => negb (hasKey "senha" o)
  | VArr items =>
      forallb (fun x => match x with
                        | VObj o => negb (hasKey "senha" o)
                        | _ => true
                        end) items
  | _ => true
  end.

(** A row as an object without the columns [keys]. *)
Definition without (keys : list string) (u : User) : value :=
  VObj (List.filter
          (fun kv => negb (existsb (String.eqb (fst kv)) keys))
          (Prisma.record u)).

(** [Number(s)] for a string of digits [s], as the id schema hands it on,
    and the identifier that the services look up for it. *)
Definition idNumber (s : string) : Z := Double.round (Str.digitsValue s).

Definition idRow (s : string) : option Z := Double.key (idNumber s).

(** A well-formed database: the sequence of identifiers is positive and
    above every stored identifier, and every row is stored under its own
    identifier. *)
Definition storeOk (db : DB) : Prop :=
  0 < nextId db
  /\ forall k u, users db !! k = Some u -> id u = k /\ 0 < k < nextId db.

(** The machine code and the details of an error response. *)
Definition errorCode (res : Response) : value :=
  prop "code" (prop "error" (json res)).

Definition errorDetails (res : Response) : value :=
  prop "details" (prop "error" (json res)).

(** The schema under a refinement. *)
Definition refined (s : Zod.schema) : Zod.schema :=
  match s with
  | Zod.Refine inner _ _ => inner
  | _ => s
  end.

(** The detail of the rule that asks for at least one field. *)
Definition atLeastOneField : value :=
  VObj [ ("field", VStr "");
         ("message",
          VStr "Pelo menos um campo deve ser fornecido para atualização");
         ("code", VStr "custom") ].

Definition errorMessage (res : Response) : value :=
  prop "message" (prop "error" (json res)).

(** Whether the error object of a response has the property [details]. *)
Definition hasDetails (res : Response) : bool :=
  match prop "error" (json res) with
  | VObj o => hasKey "details" o
  | _ => false
  end.

(** A taxonomy error: an operational instance of [AppError]. *)
Definition taxonomy (e : JsError) : bool :=
  instanceofAppError e && isOperational e.

(** The details of a native error of the validation library, reshaped. *)
Definition reshaped (e : JsError) : list value :=
  map (fun err => VObj [ ("field", VStr (Str.join "." (Zod.path err)));
                         ("message", VStr (Zod.message err)) ])
      (errors e).


(** ** Scenarios *)

(** Requests and databases on which the properties are evaluated with the
    concrete runtime. *)
Module Scenario.

Definition request (m p : string) (ps b : value) : Request :=
  {| method := m; path := p; params := ps; query := VObj []; body := b;
     now := "2025-01-01T00:00:00.000Z" |}.

Definition emptyDB : DB := {| users := ∅; nextId := 1; clock := 0 |}.

(** A body whose name is one letter between blanks. *)
Definition paddedName : value :=
  VObj [ ("nome", VStr "  a  "); ("email", VStr "Ana@Escola.com");
         ("senha", VStr "senha123") ].

Definition paddedNameNormalized : value :=
  VObj [ ("nome", VStr "a"); ("email", VStr "ana@escola.com");
         ("senha", VStr "senha123"); ("foto", VNull) ].

Definition emptyFoto : obj :=
  [ ("nome", VStr "Teste"); ("email", VStr "teste@escola.com");
    ("senha", VStr "senha123"); ("foto", VStr "") ].

Definition threeViolations : value :=
  VObj [ ("nome", VStr "Jo"); ("email", VStr "invalido");
         ("senha", VStr "123") ].

Definition ana : User :=
  {| id := 1; nome := "Ana"; email := "ana@escola.com"; senha := "senha123";
     papel := PROFESSOR; foto := Some "https://example.com/foto.jpg";
     createdAt := 0; updatedAt := 0 |}.

Definition oneUser : DB :=
  {| users := {[ 1 := ana ]}; nextId := 2; clock := 1 |}.

Definition rename : obj := [ ("nome", VStr "Novo Nome") ].

End Scenario.


(** * Further definitions *)

(** ** The query schema of the listing *)

(** [parseInt(s, 10)] on a string: the leading white space is dropped, a
    sign is read, and the longest prefix of decimal digits denotes an
    integer, which [parseInt] returns as the nearest number; without a
    digit the result is NaN. [radix10] is the integer. *)
Module ParseInt.

Fixpoint digitsPrefix (s : string) : string :=
  match s with
  | EmptyString => EmptyString
  | String c r => if Str.isDigit c then String c (digitsPrefix r)
                  else EmptyString
  end.

Definition unsigned (s : string) : option Z :=
  match digitsPrefix s with
  | EmptyString => None
  | ds => Some (Str.digitsValue ds)
  end.

Definition radix10 (s : string) : option Z :=
  match Str.trimStart s with
  | String "-" r => option_map Z.opp (unsigned r)
  | String "+" r => unsigned r
  | t => unsigned t
  end.

End ParseInt.

Section ListQuery.
Context `{Runtime}.

(** [parseInt(val, 10)] on a value. *)
Definition parseInt10 (val : value) : value :=
  match val with
  | VStr s => match ParseInt.radix10 s with
              | Some n => VNum (Double.round n)
              | None => VNaN
              end
  | _ => parseIntOther val
  end.

(** [val <= k]. *)
Definition leNum (k : Z) (val : value) : bool :=
  match Number_ val with
  | VNum n => n <=? k
  | _ => false
  end.

Definition listUsersQuerySchema : Zod.schema :=
  Zod.Optional
    (Zod.Object
       [ ("page",
          Zod.Refine
            (Zod.Transform
               (Zod.Optional (Zod.String_ None None []))
               (fun val => if truthy val then parseInt10 val else VNum 1))
            (fun val => gtZero val)
            "Página deve ser maior que 0");
         ("limit",
          Zod.Refine
            (Zod.Transform
               (Zod.Optional (Zod.String_ None None []))
               (fun val => if truthy val then parseInt10 val else VNum 10))
            (fun val => gtZero val && leNum 100 val)
            "Limite deve estar entre 1 e 100");
         ("papel",
          Zod.Optional (Zod.Enum ["PROFESSOR"; "ADMIN"] None)) ]
       Zod.Strip).

End ListQuery.

(** The number a query parameter stands for: the default when it is missing
    or empty, otherwise the number nearest to the integer that [parseInt]
    reads ([Double.infinity] for Infinity); nothing for NaN and for a value
    that is not a string. *)
Definition queryNumber (dflt : Z) (v : value) : option Z :=
  match v with
  | VUndef => Some dflt
  | VStr s =>
      if String.eqb s "" then Some dflt
      else option_map Double.round (ParseInt.radix10 s)
  | _ => None
  end.

(** The schema under [optional]. *)
Definition underOptional (s : Zod.schema) : Zod.schema :=
  match s with
  | Zod.Optional inner => inner
  | _ => s
  end.

(** ** The rule table of the update schema *)

(** A rule of an optional field: nothing is violated when the field is
    missing. *)
Definition optionalRule (rule : value -> list string) (v : value)
  : list string :=
  match v with
  | VUndef => []
  | _ => rule v
  end.

Section UpdateTable.
Context `{Runtime}.

(** The violated rules of the fields of an update body. *)
Definition updateFieldViolations (o : obj) : list (string * string) :=
  map (pair "nome") (optionalRule Table.nomeRule (get "nome" o))
  ++ map (pair "email") (optionalRule Table.emailRule (get "email" o))
  ++ map (pair "senha") (optionalRule Table.senhaRule (get "senha" o))
  ++ map (pair "papel") (Table.papelRule (get "papel" o))
  ++ map (pair "foto") (Table.fotoRule (get "foto" o)).

(** The data the update schema hands downstream: every field the body
    gives, normalized, and the photo in every case. *)
Definition updateNormalized (o : obj) : obj :=
  ZodSpec.kept ("nome", hasKey "nome" o,
                Zod.OK (Table.mapStr Str.trim (get "nome" o)))
  ++ ZodSpec.kept ("email", hasKey "email" o,
                   Zod.OK (Table.mapStr
                             (fun s => Str.trim (Str.toLowerCase s))
                             (get "email" o)))
  ++ ZodSpec.kept ("senha", hasKey "senha" o, Zod.OK (get "senha" o))
  ++ ZodSpec.kept ("papel", hasKey "papel" o, Zod.OK (get "papel" o))
  ++ ZodSpec.kept ("foto", hasKey "foto" o,
                   Zod.OK (jsOr (get "foto" o) VNull)).

End UpdateTable.

(** [v !== undefined && v !== null]. *)
Definition defined (v : value) : bool :=
  match v with
  | VUndef | VNull => false
  | _ => true
  end.

(** ** Invariants of the table *)

(** No two rows have the same email. *)
Definition emailsUnique (db : DB) : Prop :=
  forall k1 k2 u1 u2,
    users db !! k1 = Some u1 -> users db !! k2 = Some u2 ->
    email u1 = email u2 -> k1 = k2.

Definition dbOk (db : DB) : Prop := storeOk db /\ emailsUnique db.

(** The status of a response with the machine code of its error, which is
    [undefined] on a success response. *)
Definition answer (res : Response) : Z * value :=
  (status res, errorCode res).

(** A list of rows from the newest to the oldest. *)
Definition newestFirst (l : list User) : Prop :=
  StronglySorted (fun x y => createdAt y <= createdAt x) l.

(** Every stored name is trimmed and every stored email is lower-case and
    trimmed. *)
Definition normalized (db : DB) : Prop :=
  forall k u,
    users db !! k = Some u ->
    Str.trim (nome u) = nome u
    /\ Str.trim (Str.toLowerCase (email u)) = email u.

(** A string that does not begin with white space. *)
Definition startsBlack (s : string) : bool :=
  match s with
  | EmptyString => true
  | String c _ => negb (Str.isWhite c)
  end.

(** ** Further scenarios *)

Module Cases.

Definition bia : obj :=
  [ ("nome", VStr "Bia Souza"); ("email", VStr "Bia@Escola.com");
    ("senha", VStr "segredo1") ].

(** The email of [bia] in another case. *)
Definition beatriz : obj :=
  [ ("nome", VStr "Beatriz"); ("email", VStr "bia@escola.COM");
    ("senha", VStr "segredo2") ].

Definition postBia : Request :=
  Scenario.request "POST" "/users" (VObj []) (VObj bia).

Definition postBeatriz : Request :=
  Scenario.request "POST" "/users" (VObj []) (VObj beatriz).

Definition getOne : Request :=
  Scenario.request "GET" "/users/1" (VObj [("id", VStr "1")]) VUndef.

Definition getAbc : Request :=
  Scenario.request "GET" "/users/abc" (VObj [("id", VStr "abc")]) VUndef.

Definition deleteOne : Request :=
  Scenario.request "DELETE" "/users/1" (VObj [("id", VStr "1")]) VUndef.

(** An id of 22 digits, the number 10^21. *)
Definition getSextillion : Request :=
  Scenario.request "GET" "/users/1000000000000000000000"
    (VObj [("id", VStr "1000000000000000000000")]) VUndef.

(** An id of 400 digits, which reads as Infinity. *)
Definition nines : string := string_of_list_ascii (replicate 400 "9"%char).

Definition getNines : Request :=
  Scenario.request "GET" ("/users/" +:+ nines) (VObj [("id", VStr nines)])
    VUndef.

Definition renameOne : Request :=
  Scenario.request "PUT" "/users/1" (VObj [("id", VStr "1")])
    (VObj Scenario.rename).

(** The email of the stored user in capitals. *)
Definition ownEmail : value := VObj [ ("email", VStr "ANA@ESCOLA.COM") ].

Definition ownEmailNormalized : value :=
  VObj [ ("email", VStr "ana@escola.com"); ("foto", VNull) ].

(** An error that no branch of the handler knows. *)
Definition typeError : JsError :=
  {| instanceofAppError := false;
     isOperational := false;
     statusCode := 0;
     code := None;
     name := "TypeError";
     message := "Cannot read properties of undefined";
     details := [];
     errors := [];
     meta := VUndef;
     stack := "TypeError: Cannot read properties of undefined" |}.

End Cases.

(** * Properties *)

(** ** Numbers *)

Module DoubleFacts.
Import Double.

Lemma maxSafe_exponential : maxSafe < exponential.
Proof. reflexivity. Qed.

Lemma exponential_infinity : exponential < infinity.
Proof. reflexivity. Qed.

Lemma roundNat_safe n : n <= maxSafe -> roundNat n = n.
Proof.
  intros Hn. unfold roundNat. destruct (Z.leb_spec n maxSafe); [reflexivity|lia].
Qed.

Lemma roundNat_pos n : 0 < n -> 0 < roundNat n.
Proof.
  intros Hn. unfold roundNat. destruct (Z.leb_spec n maxSafe); [exact Hn|].
  cbv zeta.
  set (e := Z.log2 n - 52). set (q := Z.shiftr n e).
  assert (He : 0 <= e).
  { assert (53 <= Z.log2 n); [|lia].
    apply Z.log2_le_pow2; [lia|]. change (2 ^ 53) with maxSafe. lia. }
  assert (Hq : 0 < q).
  { unfold q. rewrite Z.shiftr_div_pow2 by exact He.
    apply Z.div_str_pos. split; [apply Z.pow_pos_nonneg; lia|].
    transitivity (2 ^ Z.log2 n); [|apply Z.log2_spec; lia].
    apply Z.pow_le_mono_r; lia. }
  apply Z.min_glb_lt; [reflexivity|].
  rewrite Z.shiftl_mul_pow2 by exact He.
  apply Z.mul_pos_pos; [|apply Z.pow_pos_nonneg; lia].
  destruct (_ || _); lia.
Qed.

Lemma roundNat_le_infinity n : roundNat n <= infinity \/ n <= maxSafe.
Proof.
  unfold roundNat. destruct (Z.leb_spec n maxSafe); [now right|].
  left. apply Z.le_min_l.
Qed.

Lemma round_le_infinity n : round n <= infinity.
Proof.
  unfold round. destruct (Z.ltb_spec n 0).
  - pose proof (roundNat_pos (- n)). change infinity with (2 ^ 1024). lia.
  - unfold roundNat.
    destruct (Z.leb_spec n maxSafe) as [Hle|]; [|apply Z.le_min_l].
    transitivity maxSafe; [exact Hle|]. discriminate.
Qed.

Lemma round_infinity n : infinity <= n -> round n = infinity.
Proof.
  intros Hn. assert (H0 : 0 < infinity) by reflexivity.
  pose proof maxSafe_exponential. pose proof exponential_infinity.
  unfold round. destruct (Z.ltb_spec n 0); [lia|].
  unfold roundNat. destruct (Z.leb_spec n maxSafe); [lia|].
  cbv zeta.
  set (e := Z.log2 n - 52). set (q := Z.shiftr n e).
  assert (Hlog : 1024 <= Z.log2 n).
  { apply Z.log2_le_pow2; [lia|]. exact Hn. }
  assert (He : 0 <= e) by (unfold e; lia).
  assert (Hq : 2 ^ 52 <= q).
  { unfold q. rewrite Z.shiftr_div_pow2 by exact He.
    apply Z.div_le_lower_bound; [apply Z.pow_pos_nonneg; lia|].
    rewrite <- Z.pow_add_r by lia.
    replace (e + 52) with (Z.log2 n) by (unfold e; lia).
    apply Z.log2_spec. lia. }
  apply Z.min_l. rewrite Z.shiftl_mul_pow2 by exact He.
  transitivity (2 ^ 52 * 2 ^ e).
  - rewrite <- Z.pow_add_r by lia. apply Z.pow_le_mono_r; [lia|].
    unfold e. lia.
  - apply Z.mul_le_mono_nonneg_r; [apply Z.pow_nonneg; lia|].
    destruct (_ || _); lia.
Qed.

Lemma round_safe n : Z.abs n <= maxSafe -> round n = n.
Proof.
  intros Hn. unfold round. destruct (Z.ltb_spec n 0).
  - rewrite roundNat_safe by lia. lia.
  - apply roundNat_safe. lia.
Qed.

Lemma round_pos n : 0 < n -> 0 < round n.
Proof.
  intros Hn. unfold round. destruct (Z.ltb_spec n 0); [lia|].
  now apply roundNat_pos.
Qed.

Lemma roundNat_0 : roundNat 0 = 0.
Proof. reflexivity. Qed.

Lemma round_nonpos n : n <= 0 -> round n <= 0.
Proof.
  intros Hn. unfold round. destruct (Z.ltb_spec n 0).
  - pose proof (roundNat_pos (- n)). lia.
  - assert (n = 0) as -> by lia. now rewrite roundNat_0.
Qed.

Lemma round_nonneg n : 0 <= n -> 0 <= round n.
Proof.
  intros Hn. destruct (Z.eq_dec n 0) as [->|Hne]; [reflexivity|].
  pose proof (round_pos n). lia.
Qed.

Lemma round_gt0 n : (0 <? round n) = (0 <? n).
Proof.
  destruct (Z.ltb_spec 0 n).
  - apply Z.ltb_lt. now apply round_pos.
  - apply Z.ltb_ge. apply round_nonpos. lia.
Qed.

Lemma key_below x : Z.abs x < exponential -> key x = Some x.
Proof.
  intros Hx. unfold key. destruct (Z.ltb_spec (Z.abs x) exponential); [reflexivity|lia].
Qed.

Lemma key_safe x : Z.abs x <= maxSafe -> key x = Some x.
Proof.
  intros Hx. apply key_below. pose proof maxSafe_exponential. lia.
Qed.

Lemma key_None x : key x = None <-> infinity <= Z.abs x.
Proof.
  unfold key. pose proof exponential_infinity.
  destruct (Z.ltb_spec (Z.abs x) exponential); [split; [discriminate|lia]|].
  destruct (Z.leb_spec infinity (Z.abs x)); [tauto|].
  split; [discriminate|lia].
Qed.

End DoubleFacts.

(** ** The validation library *)

Module ZodFacts.
Import Zod ZodSpec.

Section Facts.
Context `{Runtime}.

Lemma parse_Object shape unknown p o :
  parse (Object shape unknown) p (VObj o) =
  (mergeObject
     (match strictIssues unknown p (extraKeys (map fst shape) o) with
      | [] => false
      | _ => true
      end)
     (map fst (fieldResults p o shape)) [],
   concat (map snd (fieldResults p o shape))
   ++ strictIssues unknown p (extraKeys (map fst shape) o)).
Proof.
  cbn [parse].
  set (each := fix each (sh : list (string * schema)) := _).
  assert (Heach : forall sh, each sh = fieldResults p o sh).
  { induction sh as [|[k sk] sh IH]; [reflexivity|].
    cbn [each fieldResults map fst snd]. fold each. rewrite IH.
    destruct (parse sk (p ++ [k]) (get k o)); reflexivity. }
  rewrite Heach. reflexivity.
Qed.

Lemma mergeObject_spec dirty pairs acc :
  mergeObject dirty pairs acc =
  if existsb (fun pr => isINVALID (snd pr)) pairs then INVALID
  else if dirty || negb (forallb (fun pr => isOK (snd pr)) pairs)
       then DIRTY (VObj (acc ++ concat (map kept pairs)))
       else OK (VObj (acc ++ concat (map kept pairs))).
Proof.
  revert dirty acc.
  induction pairs as [|[[k a] r] pairs IH]; intros dirty acc.
  - cbn. rewrite app_nil_r. destruct dirty; reflexivity.
  - destruct r as [|v|v]; cbn [mergeObject existsb forallb snd isINVALID
                               isOK orb andb negb map concat kept].
    + reflexivity.
    + rewrite IH, orb_true_r.
      destruct (existsb (fun pr => isINVALID (snd pr)) pairs);
        [reflexivity|].
      cbn [orb].
      destruct v; try destruct a; cbn [app]; rewrite <- ?app_assoc;
        reflexivity.
    + rewrite IH.
      destruct (existsb (fun pr => isINVALID (snd pr)) pairs);
        [reflexivity|].
      destruct v; try destruct a; cbn [app]; rewrite <- ?app_assoc;
        reflexivity.
Qed.

Lemma parse_String_other req inv cs p v :
  (forall s, v <> VStr s) ->
  exists msg, parse (String_ req inv cs) p v
              = (INVALID, [Issue "invalid_type" p msg]).
Proof.
  intros Hv. destruct v; cbn [parse]; eauto. now destruct (Hv s).
Qed.

(** A string schema whose chain is [min], [max], [trim]. *)
Lemma parse_min_max_trim req inv lo hi mlo mhi p s :
  parse (String_ req inv [Min lo mlo; Max hi mhi; Trim]) p (VStr s) =
  ((if (String.length s <? lo)%nat || (hi <? String.length s)%nat
    then DIRTY (VStr (Str.trim s)) else OK (VStr (Str.trim s))),
   (if (String.length s <? lo)%nat then [Issue "too_small" p mlo] else [])
   ++ (if (hi <? String.length s)%nat then [Issue "too_big" p mhi]
       else [])).
Proof.
  cbn [parse runChecks].
  destruct (String.length s <? lo)%nat, (hi <? String.length s)%nat;
    reflexivity.
Qed.

(** A string schema whose chain is [min], [max]. *)
Lemma parse_min_max req inv lo hi mlo mhi p s :
  parse (String_ req inv [Min lo mlo; Max hi mhi]) p (VStr s) =
  ((if (String.length s <? lo)%nat || (hi <? String.length s)%nat
    then DIRTY (VStr s) else OK (VStr s)),
   (if (String.length s <? lo)%nat then [Issue "too_small" p mlo] else [])
   ++ (if (hi <? String.length s)%nat then [Issue "too_big" p mhi]
       else [])).
Proof.
  cbn [parse runChecks].
  destruct (String.length s <? lo)%nat, (hi <? String.length s)%nat;
    reflexivity.
Qed.

(** A string schema whose chain is [email], [toLowerCase], [trim]. *)
Lemma parse_email_lower_trim req inv msg p s :
  parse (String_ req inv [Email msg; ToLowerCase; Trim]) p (VStr s) =
  (let out := VStr (Str.trim (Str.toLowerCase s)) in
   if emailPattern s then (OK out, [])
   else (DIRTY out, [Issue "invalid_string" p msg])).
Proof.
  cbn [parse runChecks]. destruct (emailPattern s); reflexivity.
Qed.

Lemma parse_url msg p s :
  parse (String_ None None [Url msg]) p (VStr s) =
  if urlParses s then (OK (VStr s), [])
  else (DIRTY (VStr s), [Issue "invalid_string" p msg]).
Proof.
  cbn [parse runChecks]. destruct (urlParses s); reflexivity.
Qed.

End Facts.
End ZodFacts.

(** ** The create schema *)

Module CreateFacts.
Import Zod ZodSpec ZodFacts Table.

Section Facts.
Context `{Runtime}.

Lemma create_nome v r f :
  parse (field "nome" createUserSchema) ["nome"] v = (r, f) ->
  map shown f = map (pair "nome") (nomeRule v)
  /\ match r with
     | OK out => exists s, v = VStr s /\ out = VStr (Str.trim s)
                           /\ (3 <= String.length s <= 100)%nat
     | _ => True
     end
  /\ (isOK r = true <-> f = [])
  /\ (isINVALID r = true <-> forall s, v <> VStr s).
Proof.
  cbn [field createUserSchema List.find String.eqb Ascii.eqb Bool.eqb
       fst snd].
  destruct v; try (cbn [parse]; intros [= <- <-]; cbn;
                   repeat split; try discriminate; try congruence;
                   intros; discriminate).
  rewrite parse_min_max_trim. intros [= <- <-]. unfold nomeRule, lengthRule.
  destruct (Nat.ltb_spec (String.length s) 3),
           (Nat.ltb_spec 100 (String.length s)); cbn;
    repeat split; try discriminate; try congruence; try lia;
    try (intros; exfalso; eauto; fail).
  all: try (eexists; repeat split; eauto; lia).
  all: intros Hs; now destruct (Hs s).
Qed.

Lemma create_email v r f :
  parse (field "email" createUserSchema) ["email"] v = (r, f) ->
  map shown f = map (pair "email") (emailRule v)
  /\ match r with
     | OK out => exists s, v = VStr s
                           /\ out = VStr (Str.trim (Str.toLowerCase s))
                           /\ emailPattern s = true
     | _ => True
     end
  /\ (isOK r = true <-> f = [])
  /\ (isINVALID r = true <-> forall s, v <> VStr s).
Proof.
  cbn [field createUserSchema List.find String.eqb Ascii.eqb Bool.eqb
       fst snd].
  destruct v; try (cbn [parse]; intros [= <- <-]; cbn;
                   repeat split; try discriminate; try congruence;
                   intros; discriminate).
  rewrite parse_email_lower_trim. cbn zeta. unfold emailRule.
  destruct (emailPattern s) eqn:E; intros [= <- <-]; cbn;
    repeat split; try discriminate; try congruence; eauto.
  all: intros Hs; now destruct (Hs s).
Qed.

Lemma create_senha v r f :
  parse (field "senha" createUserSchema) ["senha"] v = (r, f) ->
  map shown f = map (pair "senha") (senhaRule v)
  /\ match r with
     | OK out => exists s, v = VStr s /\ out = VStr s
                           /\ (6 <= String.length s <= 100)%nat
     | _ => True
     end
  /\ (isOK r = true <-> f = [])
  /\ (isINVALID r = true <-> forall s, v <> VStr s).
Proof.
  cbn [field createUserSchema List.find String.eqb Ascii.eqb Bool.eqb
       fst snd].
  destruct v; try (cbn [parse]; intros [= <- <-]; cbn;
                   repeat split; try discriminate; try congruence;
                   intros; discriminate).
  rewrite parse_min_max. intros [= <- <-]. unfold senhaRule, lengthRule.
  destruct (Nat.ltb_spec (String.length s) 6),
           (Nat.ltb_spec 100 (String.length s)); cbn;
    repeat split; try discriminate; try congruence; try lia;
    try (intros; exfalso; eauto; fail).
  all: try (eexists; repeat split; eauto; lia).
  all: intros Hs; now destruct (Hs s).
Qed.

Lemma create_papel v r f :
  parse (field "papel" createUserSchema) ["papel"] v = (r, f) ->
  map shown f = map (pair "papel") (papelRule v)
  /\ match r with
     | OK out => out = v
                 /\ (v = VUndef \/ v = VStr "PROFESSOR" \/ v = VStr "ADMIN")
     | DIRTY _ => False
     | INVALID => True
     end
  /\ (isOK r = true <-> f = []).
Proof.
  cbn [field createUserSchema List.find String.eqb Ascii.eqb Bool.eqb
       fst snd].
  destruct v; try (cbn [parse]; intros [= <- <-]; cbn;
                   repeat split; try discriminate; try congruence;
                   eauto; fail).
  cbn [parse existsb]. unfold papelRule, isRole.
  destruct (String.eqb_spec s "PROFESSOR") as [->|];
    [|destruct (String.eqb_spec s "ADMIN") as [->|]];
    cbn [orb]; intros [= <- <-]; cbn;
    repeat split; try discriminate; try congruence; eauto.
Qed.

Lemma create_foto v r f :
  parse (field "foto" createUserSchema) ["foto"] v = (r, f) ->
  map shown f = map (pair "foto") (fotoRule v)
  /\ match r with
     | OK out =>
         out = jsOr v VNull
         /\ (v = VUndef \/ v = VNull
             \/ exists s, v = VStr s /\ urlParses s = true)
     | _ => True
     end
  /\ (isOK r = true <-> f = []).
Proof.
  cbn [field createUserSchema List.find String.eqb Ascii.eqb Bool.eqb
       fst snd].
  destruct v; try (cbn [parse]; intros [= <- <-]; cbn;
                   repeat split; try discriminate; try congruence;
                   eauto; fail).
  cbn [parse].
  pose proof (parse_url "URL da foto inválida" ["foto"] s) as Hu.
  cbn [parse] in Hu. rewrite Hu. unfold fotoRule.
  destruct (urlParses s) eqn:E; intros [= <- <-]; cbn;
    repeat split; try discriminate; try congruence; eauto 6.
Qed.

Lemma jsOr_null_defined v : jsOr v VNull <> VUndef.
Proof.
  unfold jsOr. destruct (truthy v) eqn:E; [|discriminate].
  intros ->. discriminate.
Qed.

Lemma map_pair_nil (k : string) (l : list string) :
  map (pair k) l = [] <-> l = [].
Proof. destruct l; cbn; split; congruence. Qed.

(** The outcome of the create schema on an object: the issues are the
    violated rules of the table, and the parse is valid exactly when
    there is none, with the normalized data as its value. *)
Lemma create_outcome o :
  exists r found,
    parse createUserSchema [] (VObj o) = (r, found)
    /\ map shown found = createViolations o
    /\ (createViolations o = [] -> r = OK (VObj (createNormalized o)))
    /\ (createViolations o <> [] -> isOK r = false).
Proof.
  unfold createUserSchema. rewrite parse_Object.
  cbn [fieldResults map fst snd app extraKeys strictIssues].
  destruct (parse _ ["nome"] (get "nome" o)) as [r1 f1] eqn:E1.
  destruct (parse _ ["email"] (get "email" o)) as [r2 f2] eqn:E2.
  destruct (parse _ ["senha"] (get "senha" o)) as [r3 f3] eqn:E3.
  destruct (parse _ ["papel"] (get "papel" o)) as [r4 f4] eqn:E4.
  destruct (parse _ ["foto"] (get "foto" o)) as [r5 f5] eqn:E5.
  apply create_nome in E1 as (M1 & V1 & K1 & _).
  apply create_email in E2 as (M2 & V2 & K2 & _).
  apply create_senha in E3 as (M3 & V3 & K3 & _).
  apply create_papel in E4 as (M4 & V4 & K4).
  apply create_foto in E5 as (M5 & V5 & K5).
  eexists _, _. split; [reflexivity|].
  cbn [concat map fst snd]. rewrite !app_nil_r.
  unfold createViolations. rewrite !map_app, M1, M2, M3, M4, M5.
  split; [reflexivity|]. rewrite mergeObject_spec.
  cbn [existsb forallb snd orb andb map concat]. split.
  - intros Hnil.
    repeat (apply app_eq_nil in Hnil as [?%map_pair_nil Hnil]).
    apply map_pair_nil in Hnil.
    repeat match goal with
           | E : map shown _ = map _ ?rule, N : ?rule = [] |- _ =>
               rewrite N in E; apply map_eq_nil in E
           end.
    destruct K1 as [_ K1], K2 as [_ K2], K3 as [_ K3], K4 as [_ K4],
             K5 as [_ K5].
    destruct r1; try (now specialize (K1 M1)).
    destruct r2; try (now specialize (K2 M2)).
    destruct r3; try (now specialize (K3 M3)).
    destruct r4; try (now specialize (K4 M4)).
    destruct r5; try (now specialize (K5 M5)).
    destruct V1 as (s1 & G1 & -> & _), V2 as (s2 & G2 & -> & _),
             V3 as (s3 & G3 & -> & _), V4 as (-> & _), V5 as (-> & _).
    cbn [isINVALID isOK orb andb negb kept app].
    unfold createNormalized. rewrite G1, G2, G3. cbn [mapStr].
    do 2 f_equal. do 3 f_equal.
    pose proof (jsOr_null_defined (get "foto" o)).
    destruct (get "papel" o), (jsOr (get "foto" o) VNull);
      try reflexivity; congruence.
  - intros Hne.
    assert (Hbad : isOK r1 && (isOK r2 && (isOK r3 && (isOK r4
                      && (isOK r5 && true)))) = false).
    { apply not_true_is_false. intros Hall. apply Hne.
      apply andb_prop in Hall as [O1 Hall].
      apply andb_prop in Hall as [O2 Hall].
      apply andb_prop in Hall as [O3 Hall].
      apply andb_prop in Hall as [O4 Hall].
      apply andb_prop in Hall as [O5 _].
      apply K1 in O1 as ->. apply K2 in O2 as ->. apply K3 in O3 as ->.
      apply K4 in O4 as ->. apply K5 in O5 as ->.
      cbn in *. now rewrite <- M1, <- M2, <- M3, <- M4, <- M5. }
    rewrite Hbad. cbn [negb].
    now destruct (_ || _).
Qed.

End Facts.
End CreateFacts.

(** ** The table of users *)

Module PrismaFacts.
Import Prisma.

Lemma rows_elem (db : DB) (u : User) :
  In u (rows db) <-> exists k, users db !! k = Some u.
Proof.
  unfold rows. rewrite in_map_iff. split.
  - intros ([k u'] & <- & Hin). exists k.
    apply list_elem_of_In, elem_of_map_to_list in Hin. exact Hin.
  - intros (k & Hk). exists (k, u). split; [reflexivity|].
    apply list_elem_of_In, elem_of_map_to_list. exact Hk.
Qed.

Lemma byEmail_Some e db u :
  byEmail e db = Some u ->
  email u = e /\ exists k, users db !! k = Some u.
Proof.
  unfold byEmail. intros Hf. apply find_some in Hf as [Hin He].
  apply String.eqb_eq in He. split; [exact He|]. now apply rows_elem.
Qed.

Lemma byEmail_None e db :
  byEmail e db = None <->
  forall k u, users db !! k = Some u -> email u <> e.
Proof.
  unfold byEmail. split.
  - intros Hf k u Hk He.
    eapply find_none in Hf; [|apply rows_elem; eauto].
    apply String.eqb_neq in Hf. contradiction.
  - intros Hall. destruct (List.find _ _) as [u|] eqn:Hf; [|reflexivity].
    apply find_some in Hf as [Hin He]. apply String.eqb_eq in He.
    apply rows_elem in Hin as [k Hk]. now destruct (Hall k u Hk).
Qed.

Lemma byEmail_stored e db k u :
  users db !! k = Some u -> email u = e -> byEmail e db <> None.
Proof.
  intros Hk He Hnone. rewrite byEmail_None in Hnone. exact (Hnone k u Hk He).
Qed.

End PrismaFacts.

Module AcceptFacts.
Import Zod ZodSpec ZodFacts Table CreateFacts.

Section Facts.
Context `{Runtime}.

Lemma lengthRule_nil lo hi a b s :
  lengthRule lo hi a b s = [] -> (lo <= String.length s <= hi)%nat.
Proof.
  unfold lengthRule.
  destruct (Nat.ltb_spec (String.length s) lo),
           (Nat.ltb_spec hi (String.length s)); cbn; try discriminate.
  lia.
Qed.

Lemma nomeRule_nil v :
  nomeRule v = [] ->
  exists s, v = VStr s /\ (3 <= String.length s <= 100)%nat.
Proof.
  destruct v; try discriminate. intros Hr%lengthRule_nil. eauto.
Qed.

Lemma emailRule_nil v :
  emailRule v = [] -> exists s, v = VStr s /\ emailPattern s = true.
Proof.
  destruct v; try discriminate. cbn.
  destruct (emailPattern s) eqn:E; [eauto|discriminate].
Qed.

Lemma senhaRule_nil v :
  senhaRule v = [] ->
  exists s, v = VStr s /\ (6 <= String.length s <= 100)%nat.
Proof.
  destruct v; try discriminate. intros Hr%lengthRule_nil. eauto.
Qed.

Lemma papelRule_nil v :
  papelRule v = [] ->
  v = VUndef \/ v = VStr "PROFESSOR" \/ v = VStr "ADMIN".
Proof.
  destruct v; try discriminate; [now left|]. cbn. unfold isRole.
  destruct (String.eqb_spec s "PROFESSOR") as [->|]; [eauto|].
  destruct (String.eqb_spec s "ADMIN") as [->|]; [eauto|discriminate].
Qed.

Lemma fotoRule_nil v :
  fotoRule v = [] ->
  v = VUndef \/ v = VNull \/ exists s, v = VStr s /\ urlParses s = true.
Proof.
  destruct v; try discriminate; eauto. cbn.
  destruct (urlParses s) eqn:E; [eauto 6|discriminate].
Qed.

Lemma createViolations_nil o :
  createViolations o = [] ->
  nomeRule (get "nome" o) = [] /\ emailRule (get "email" o) = []
  /\ senhaRule (get "senha" o) = [] /\ papelRule (get "papel" o) = []
  /\ fotoRule (get "foto" o) = [].
Proof.
  unfold createViolations. intros Hnil.
  repeat (apply app_eq_nil in Hnil as [?%map_pair_nil Hnil]).
  apply map_pair_nil in Hnil. auto.
Qed.

(** The create schema accepts exactly the objects that violate no rule
    of the table, and hands their normalized data downstream. *)
Lemma createUserSchema_accepts body data :
  safeParse createUserSchema body = inr data <->
  exists o, body = VObj o /\ createViolations o = []
            /\ data = VObj (createNormalized o).
Proof.
  unfold safeParse. split.
  - destruct body; try (cbn; discriminate).
    destruct (create_outcome fields) as (r & found & -> & _ & Hok & Hbad).
    destruct r; try discriminate. intros [= <-].
    destruct (createViolations fields) eqn:E.
    + specialize (Hok eq_refl) as [= ->]. eauto.
    + now specialize (Hbad ltac:(discriminate)).
  - intros (o & -> & Hnil & ->).
    destruct (create_outcome o) as (r & found & -> & _ & Hok & _).
    now rewrite (Hok Hnil).
Qed.

Lemma createNormalized_get o :
  createViolations o = [] ->
  get "nome" (createNormalized o) = mapStr Str.trim (get "nome" o)
  /\ get "email" (createNormalized o)
     = mapStr (fun s => Str.trim (Str.toLowerCase s)) (get "email" o)
  /\ get "senha" (createNormalized o) = get "senha" o
  /\ get "papel" (createNormalized o) = get "papel" o
  /\ get "foto" (createNormalized o) = jsOr (get "foto" o) VNull.
Proof.
  intros (_ & _ & _ & Hp & _)%createViolations_nil.
  unfold createNormalized. repeat split; try reflexivity.
  - apply papelRule_nil in Hp as [-> | [-> | ->]]; try reflexivity.
    destruct (hasKey "papel" o); reflexivity.
  - apply papelRule_nil in Hp as [-> | [-> | ->]]; try reflexivity.
    destruct (hasKey "papel" o); reflexivity.
Qed.

End Facts.
End AcceptFacts.

Import ZodSpec ZodFacts Table CreateFacts AcceptFacts PrismaFacts.

Lemma trimStart_length s :
  (String.length (Str.trimStart s) <= String.length s)%nat.
Proof.
  induction s as [|c s IH]; cbn; [lia|]. destruct (Str.isWhite c); cbn; lia.
Qed.

Lemma trimEnd_length s :
  (String.length (Str.trimEnd s) <= String.length s)%nat.
Proof.
  induction s as [|c s IH]; cbn; [lia|].
  destruct (Str.isWhite c && _); cbn; lia.
Qed.

Lemma trim_length s : (String.length (Str.trim s) <= String.length s)%nat.
Proof.
  unfold Str.trim. etransitivity; [apply trimEnd_length|apply trimStart_length].
Qed.

Section ValidateFacts.
Context `{Runtime}.

Lemma validate_inr schema src req req' :
  validate schema src req = inr req' <->
  exists data, Zod.safeParse schema (readSource src req) = inr data
               /\ req' = writeSource src data req.
Proof.
  unfold validate. destruct (Zod.safeParse _ _) as [found|data]; split.
  - discriminate.
  - intros (? & [=] & _).
  - intros [= <-]. eauto.
  - intros (? & [= <-] & ->). reflexivity.
Qed.

(** A create body that violates a rule of the table is refused with one
    validation error whose details are the violated rules, all of them, in
    the order of the table. *)
Lemma createUserSchema_reports (req : Request) (o : obj) :
  body req = VObj o -> createViolations o <> [] ->
  exists found,
    validate createUserSchema SBody req
    = inl (Errors.ValidationError (Some "Dados de entrada inválidos")
             (Some (map detailOf found)))
    /\ map shown found = createViolations o.
Proof.
  intros Hb Hne. unfold validate, Zod.safeParse. cbn [readSource].
  rewrite Hb.
  destruct (create_outcome o) as (r & found & -> & Hs & _ & Hbad).
  specialize (Hbad Hne). exists found.
  destruct r; try discriminate; auto.
Qed.

(** C2, amended. In Create validation the length and format checks are
    applied to the value as received, and the trim (for the email, also the
    lower-casing) after them. For every body the create schema accepts, the
    received name has between 3 and 100 characters and the name handed
    downstream is its trimmed form, of at most 100 characters; the received
    email matches the email pattern and the email handed downstream is its
    lower-cased, trimmed form. *)
Theorem create_checks_run_before_transforms (req req' : Request) :
  validate createUserSchema SBody req = inr req' ->
  exists (o : obj) (n e : string),
    body req = VObj o
    /\ get "nome" o = VStr n
    /\ (3 <= String.length n <= 100)%nat
    /\ prop "nome" (body req') = VStr (Str.trim n)
    /\ (String.length (Str.trim n) <= 100)%nat
    /\ get "email" o = VStr e
    /\ emailPattern e = true
    /\ prop "email" (body req') = VStr (Str.trim (Str.toLowerCase e)).
Proof.
  intros (data & Hp & ->)%validate_inr. cbn [readSource] in Hp.
  apply createUserSchema_accepts in Hp as (o & Hb & Hnil & ->).
  pose proof (createNormalized_get o Hnil) as (Gn & Ge & _).
  apply createViolations_nil in Hnil as (Rn & Re & _).
  apply nomeRule_nil in Rn as (n & Hn & Hlen).
  apply emailRule_nil in Re as (e & He & Hpat).
  exists o, n, e. cbn [writeSource body prop].
  rewrite Gn, Ge, Hn, He. cbn [mapStr].
  pose proof (trim_length n). repeat split; auto; lia.
Qed.

(** C6. When validation fails, one validation error (400,
    VALIDATION_ERROR) is raised whose details are the issues of the parse,
    one detail per issue and in their order, each with the path of the
    issue joined by dots as [field], with the message of the issue and with
    its code. For the create schema the fields and messages of the details
    are all the violated rules of the table, not only the first. On the
    body with name "Jo", email "invalido" and password "123" there are
    exactly three details, one for each of the three fields, and the route
    answers 400 with them. *)
Theorem validate_collects_every_violation :
  (forall schema src req e,
      validate schema src req = inl e ->
      statusCode e = 400 /\ code e = Some "VALIDATION_ERROR"
      /\ instanceofAppError e = true /\ isOperational e = true
      /\ details e
         = map (fun i =>
                  VObj [ ("field", VStr (Str.join "." (Zod.path i)));
                         ("message", VStr (Zod.message i));
                         ("code", VStr (Zod.code i)) ])
               (snd (Zod.parse schema [] (readSource src req))))
  /\ (forall req o,
         body req = VObj o -> createViolations o <> [] ->
         exists e,
           validate createUserSchema SBody req = inl e
           /\ statusCode e = 400 /\ code e = Some "VALIDATION_ERROR"
           /\ map (fun d => (prop "field" d, prop "message" d)) (details e)
              = map (fun rule => (VStr (fst rule), VStr (snd rule)))
                    (createViolations o))
  /\ (emailPattern "invalido" = false ->
      forall req db,
        body req = VObj [ ("nome", VStr "Jo"); ("email", VStr "invalido");
                          ("senha", VStr "123") ] ->
        exists e,
          validate createUserSchema SBody req = inl e
          /\ details e
             = [ VObj [ ("field", VStr "nome");
                        ("message",
                         VStr "Nome deve ter pelo menos 3 caracteres");
                        ("code", VStr "too_small") ];
                 VObj [ ("field", VStr "email");
                        ("message", VStr "Email inválido");
                        ("code", VStr "invalid_string") ];
                 VObj [ ("field", VStr "senha");
                        ("message",
                         VStr "Senha deve ter pelo menos 6 caracteres");
                        ("code", VStr "too_small") ] ]
          /\ postUsers req db
             = (db, {| status := 400;
                       json := VObj [ ("success", VBool false);
                                      ("error",
                                       VObj [ ("code",
                                               VStr "VALIDATION_ERROR");
                                              ("message",
                                               VStr "Dados de entrada inválidos");
                                              ("details",
                                               VArr (details e)) ]);
                                      ("timestamp", VStr (now req));
                                      ("path", VStr (path req)) ] |})).
Proof.
  split; [|split].
  - intros schema src req e. unfold validate, Zod.safeParse.
    destruct (Zod.parse schema [] (readSource src req)) as [[| |] found];
      intros [= <-]; repeat split; reflexivity.
  - intros req o Hb Hne.
    destruct (createUserSchema_reports req o Hb Hne) as (found & -> & Hs).
    eexists. split; [reflexivity|]. split; [reflexivity|].
    split; [reflexivity|].
    cbn [details Errors.ValidationError Errors.AppError default from_option
         Datatypes.id].
    rewrite <- Hs, !map_map. apply map_ext. intros i. reflexivity.
  - intros Hinv req db Hb.
    assert (Hparse :
              Zod.safeParse createUserSchema
                (VObj [ ("nome", VStr "Jo"); ("email", VStr "invalido");
                        ("senha", VStr "123") ])
              = inl [ {| Zod.code := "too_small"; Zod.path := ["nome"];
                         Zod.message :=
                           "Nome deve ter pelo menos 3 caracteres" |};
                      {| Zod.code := "invalid_string"; Zod.path := ["email"];
                         Zod.message := "Email inválido" |};
                      {| Zod.code := "too_small"; Zod.path := ["senha"];
                         Zod.message :=
                           "Senha deve ter pelo menos 6 caracteres" |} ]).
    { unfold Zod.safeParse, createUserSchema. rewrite parse_Object.
      cbn -[emailPattern]. rewrite Hinv. reflexivity. }
    unfold postUsers. cbn [route]. unfold validate. cbn [readSource].
    rewrite Hb, Hparse.
    eexists. split; [reflexivity|]. split; reflexivity.
Qed.

End ValidateFacts.

(** ** The service *)

Section ServiceFacts.
Context `{Runtime}.

Lemma emailExists_string e db :
  emailExists (VStr e) db
  = (db, inr (match Prisma.byEmail e db with
              | Some _ => true
              | None => false
              end)).
Proof.
  unfold emailExists, bind, Prisma.findUniqueByEmail, ret.
  destruct (Prisma.byEmail e db); reflexivity.
Qed.

Lemma jsOr_idem v w : jsOr (jsOr v w) w = jsOr v w.
Proof.
  unfold jsOr. destruct (truthy v) eqn:E; [now rewrite E|].
  now destruct (truthy w).
Qed.

Lemma project_userSelect u :
  Prisma.project (Some userSelect) u
  = VObj [ ("id", VNum (id u)); ("nome", VStr (nome u));
           ("email", VStr (email u)); ("papel", VStr (roleName (papel u)));
           ("foto", match foto u with Some url => VStr url | None => VNull end);
           ("createdAt", VNum (createdAt u)) ].
Proof. reflexivity. Qed.

(** C4, amended. For data accepted by the create schema: when a user with
    the email of the data exists, [createUser] raises the conflict error
    (409, CONFLICT) with the field "email" and leaves the database as it
    was; otherwise it stores one row under the next identifier, a fresh one
    in a well-formed database, with the role PROFESSOR when the body has no
    [papel] and without photo when the body has no [foto], and it returns
    that row without the password and without the update time: the
    identifier, the name, the email, the role, the photo and the creation
    time. A later create with the same email is refused with 409
    CONFLICT. *)
Theorem createUser_contract (body data : value) (db : DB) :
  Zod.safeParse createUserSchema body = inr data ->
  exists e : string,
    prop "email" data = VStr e
    /\ (Prisma.byEmail e db <> None ->
        exists err,
          createUser data db = (db, inl err)
          /\ err = Errors.ConflictError (Some "Email já cadastrado no sistema")
                     (Some "email")
          /\ statusCode err = 409
          /\ code err = Some "CONFLICT"
          /\ details err = [VObj [("field", VStr "email")]])
    /\ (Prisma.byEmail e db = None ->
        exists (u : User) (db' : DB),
          createUser data db
          = (db', inr (VObj [ ("id", VNum (id u));
                              ("nome", VStr (nome u));
                              ("email", VStr (email u));
                              ("papel", VStr (roleName (papel u)));
                              ("foto", match foto u with
                                       | Some url => VStr url
                                       | None => VNull
                                       end);
                              ("createdAt", VNum (createdAt u)) ]))
          /\ VObj [ ("id", VNum (id u));
                    ("nome", VStr (nome u));
                    ("email", VStr (email u));
                    ("papel", VStr (roleName (papel u)));
                    ("foto", match foto u with
                             | Some url => VStr url
                             | None => VNull
                             end);
                    ("createdAt", VNum (createdAt u)) ]
             = without ["senha"; "updatedAt"] u
          /\ db' = {| users := <[nextId db := u]> (users db);
                      nextId := nextId db + 1;
                      clock := clock db + 1 |}
          /\ users db' !! nextId db = Some u
          /\ id u = nextId db
          /\ (storeOk db -> users db !! nextId db = None /\ storeOk db')
          /\ prop "nome" data = VStr (nome u)
          /\ email u = e
          /\ prop "senha" data = VStr (senha u)
          /\ (prop "papel" body = VUndef -> papel u = PROFESSOR)
          /\ (prop "foto" body = VUndef -> foto u = None)
          /\ forall body2 data2,
               Zod.safeParse createUserSchema body2 = inr data2 ->
               prop "email" data2 = VStr e ->
               exists err,
                 createUser data2 db' = (db', inl err)
                 /\ statusCode err = 409 /\ code err = Some "CONFLICT").
Proof.
  intros (o & -> & Hnil & ->)%createUserSchema_accepts.
  pose proof (createNormalized_get o Hnil) as (Gn & Ge & Gs & Gp & Gf).
  pose proof (createViolations_nil o Hnil) as (Rn & Re & Rs & Rp & Rf).
  apply nomeRule_nil in Rn as (n & Hn & _).
  apply emailRule_nil in Re as (e & He & _).
  apply senhaRule_nil in Rs as (s & Hs & _).
  rewrite Hn in Gn. rewrite He in Ge. rewrite Hs in Gs. cbn [mapStr] in *.
  exists (Str.trim (Str.toLowerCase e)). cbn [prop]. split; [exact Ge|].
  assert (Hconflict : forall d db0,
            prop "email" d = VStr (Str.trim (Str.toLowerCase e)) ->
            Prisma.byEmail (Str.trim (Str.toLowerCase e)) db0 <> None ->
            createUser d db0
            = (db0, inl (Errors.ConflictError
                           (Some "Email já cadastrado no sistema")
                           (Some "email")))).
  { intros d db0 Hd Hsome. unfold createUser, bind.
    rewrite Hd, emailExists_string.
    destruct (Prisma.byEmail _ db0); [reflexivity|congruence]. }
  split.
  - intros Hsome. eexists. split; [apply Hconflict; auto|].
    repeat split; reflexivity.
  - intros Hnone.
    unfold createUser, bind. cbn [prop]. rewrite Ge, Gn, Gs, Gp, Gf.
    rewrite emailExists_string, Hnone.
    unfold Prisma.create, ret.
    cbn [get String.eqb Ascii.eqb Bool.eqb Prisma.strArg].
    rewrite Hnone.
    assert (Hrole : exists r,
               Prisma.roleArg (jsOr (get "papel" o) (VStr "PROFESSOR"))
               = Prisma.Given r
               /\ (get "papel" o = VUndef -> r = PROFESSOR)).
    { apply papelRule_nil in Rp as [-> | [-> | ->]]; cbn; eauto.
      exists ADMIN. split; [reflexivity|discriminate]. }
    destruct Hrole as (r & -> & Hr).
    assert (Hfoto : exists f,
               Prisma.fotoArg (jsOr (jsOr (get "foto" o) VNull) VNull)
               = Prisma.Given f
               /\ (get "foto" o = VUndef -> f = None)).
    { apply fotoRule_nil in Rf as [-> | [-> | (url & -> & _)]];
        [cbn; eauto | cbn; eauto |].
      rewrite jsOr_idem. unfold jsOr. cbn [truthy].
      destruct (String.eqb url ""); cbn.
      - exists None. split; [reflexivity|auto].
      - exists (Some url). split; [reflexivity|discriminate]. }
    destruct Hfoto as (f & -> & Hf).
    eexists _, _. split; [reflexivity|].
    split; [reflexivity|].
    split; [reflexivity|]. cbn [id nome email senha papel foto users].
    split; [apply lookup_insert_eq|].
    split; [reflexivity|]. split.
    { intros [Hpos Hrows]. split.
      - destruct (users db !! nextId db) as [x|] eqn:Ex; [|reflexivity].
        apply Hrows in Ex. lia.
      - split; cbn [nextId users]; [lia|]. intros k x Hk.
        destruct (decide (k = nextId db)) as [->|Hne].
        + rewrite lookup_insert_eq in Hk. injection Hk as <-.
          cbn [id]. lia.
        + rewrite lookup_insert_ne in Hk by congruence.
          apply Hrows in Hk. lia. }
    repeat split; auto.
    intros body2 data2 Hacc Hemail.
    eexists. split.
    { apply Hconflict; [exact Hemail|].
      eapply byEmail_stored with (k := nextId db);
        [cbn [users]; apply lookup_insert_eq | reflexivity]. }
    split; reflexivity.
Qed.

End ServiceFacts.

(** ** The routes *)

Section RouteFacts.
Context `{Runtime}.

(** A route ends in the error handler or in the response of its
    controller. *)
Lemma route_outcome mws controller req db :
  (exists e req', route mws controller req db = (db, errorHandler e req'))
  \/ (exists req' db' e,
         controller req' db = (db', inl e)
         /\ route mws controller req db = (db', errorHandler e req'))
  \/ (exists req' db' res,
         controller req' db = (db', inr res)
         /\ route mws controller req db = (db', res)).
Proof.
  revert req. induction mws as [|mw mws IH]; intros req; cbn [route].
  - destruct (controller req db) as [db' [e|res]] eqn:E; eauto 8.
  - destruct (mw req) as [e|req']; eauto.
Qed.

Lemma errorHandler_no_data e req :
  prop "data" (json (errorHandler e req)) = VUndef.
Proof.
  unfold errorHandler, handlePrismaError, handleZodError.
  destruct (instanceofAppError e && isOperational e); [reflexivity|].
  destruct (hasPrismaCode e).
  { destruct (prismaErrorMap _) as [[st c] msg]. reflexivity. }
  destruct (String.eqb (name e) "ZodError"); reflexivity.
Qed.

Lemma project_noSenha keys u :
  existsb (String.eqb "senha") keys = false ->
  noSenha (Prisma.project (Some keys) u) = true.
Proof.
  intros Hk. unfold Prisma.project, Prisma.record, noSenha.
  cbn [List.filter fst snd].
  repeat match goal with
         | |- context [existsb (String.eqb ?k) keys] =>
             destruct (existsb (String.eqb k) keys) eqn:?
         end; try discriminate; reflexivity.
Qed.

Lemma getAllUsers_noSenha db db' v :
  getAllUsers db = (db', inr v) -> noSenha v = true.
Proof.
  unfold getAllUsers, bind, Prisma.findMany, ret. intros [= <- <-].
  cbn [noSenha]. apply forallb_forall. intros x (u & <- & _)%in_map_iff.
  apply (project_noSenha userSelect u). reflexivity.
Qed.

Lemma getUserById_Some userId db db' v :
  getUserById userId db = (db', inr v) ->
  db' = db
  /\ exists n u, parseInt userId = VNum n /\ users db !! n = Some u
                 /\ v = Prisma.project (Some userSelect) u.
Proof.
  unfold getUserById, bind, throw, ret, Prisma.findUniqueById.
  destruct (idInvalid userId); [discriminate|].
  destruct (parseInt userId); try discriminate.
  destruct (users db !! n) as [u|] eqn:E; cbn; [|discriminate].
  intros [= <- <-]. split; [reflexivity|]. exists n, u. auto.
Qed.

Lemma updateUser_Some userId userData db db' v :
  updateUser userId userData db = (db', inr v) ->
  exists n old,
    parseInt userId = VNum n
    /\ users db !! n = Some old
    /\ Prisma.update (VNum n) (dadosAtualizacao userData)
         (Some (userSelect ++ ["updatedAt"])) db = (db', inr v).
Proof.
  unfold updateUser, bind, throw, ret.
  destruct (idInvalid userId); [discriminate|].
  unfold Prisma.findUniqueById at 1.
  destruct (parseInt userId); try discriminate.
  destruct (users db !! n) as [old|] eqn:E; cbn [truthy negb Prisma.project];
    [|discriminate].
  destruct (truthy (prop "email" userData) && _).
  - destruct (emailExists (prop "email" userData) db) as [db1 [e|b]] eqn:Ee;
      [discriminate|].
    assert (db1 = db) as ->.
    { unfold emailExists, bind, Prisma.findUniqueByEmail, ret in Ee.
      destruct (prop "email" userData); try discriminate.
      now injection Ee as <- _. }
    destruct b; [discriminate|].
    destruct (Prisma.update _ _ _ db) as [db2 [e|w]] eqn:Eu; [discriminate|].
    intros [= <- <-]. eauto.
  - destruct (Prisma.update _ _ _ db) as [db2 [e|w]] eqn:Eu; [discriminate|].
    intros [= <- <-]. eauto.
Qed.

Lemma update_Some n data keys db db' v :
  Prisma.update (VNum n) data keys db = (db', inr v) ->
  exists old u,
    users db !! n = Some old
    /\ v = Prisma.project keys u
    /\ db' = {| users := <[n := u]> (users db);
                nextId := nextId db;
                clock := clock db + 1 |}
    /\ u = {| id := id old;
              nome := Prisma.patch (Prisma.strArg (get "nome" data)) (nome old);
              email := Prisma.patch (Prisma.strArg (get "email" data))
                         (email old);
              senha := Prisma.patch (Prisma.strArg (get "senha" data))
                         (senha old);
              papel := Prisma.patch (Prisma.roleArg (get "papel" data))
                         (papel old);
              foto := Prisma.patch (Prisma.fotoArg (get "foto" data))
                        (foto old);
              createdAt := createdAt old;
              updatedAt := clock db |}.
Proof.
  unfold Prisma.update.
  destruct (_ || _); [discriminate|].
  destruct (users db !! n) as [old|]; [|discriminate].
  match goal with |- context [if ?c then _ else _] => destruct c end;
    [discriminate|].
  intros [= <- <-]. eauto 10.
Qed.

Lemma deleteUser_Some userId db db' v :
  deleteUser userId db = (db', inr v) ->
  exists n u, parseInt userId = VNum n /\ users db !! n = Some u
              /\ v = Prisma.project (Some ["id"; "nome"; "email"]) u
              /\ db' = {| users := delete n (users db);
                          nextId := nextId db;
                          clock := clock db |}.
Proof.
  unfold deleteUser, bind, throw, ret.
  destruct (idInvalid userId); [discriminate|].
  unfold Prisma.findUniqueById, Prisma.delete_.
  destruct (parseInt userId); try discriminate.
  destruct (users db !! n) as [u|] eqn:E; cbn [truthy negb Prisma.project];
    [|discriminate].
  rewrite E. intros [= <- <-]. eauto 10.
Qed.

Lemma createUser_Some userData db db' v :
  createUser userData db = (db', inr v) ->
  exists u, v = Prisma.project (Some userSelect) u
            /\ users db' = <[nextId db := u]> (users db).
Proof.
  unfold createUser, bind, throw, ret.
  destruct (emailExists (prop "email" userData) db) as [db1 [e|b]] eqn:Ee;
    [discriminate|].
  assert (db1 = db) as ->.
  { unfold emailExists, bind, Prisma.findUniqueByEmail, ret in Ee.
    destruct (prop "email" userData); try discriminate.
    now injection Ee as <- _. }
  destruct b; [discriminate|].
  unfold Prisma.create.
  repeat match goal with
         | |- context [match ?a with Prisma.Skip => _ | _ => _ end] =>
             destruct a; try discriminate
         | |- context [match Prisma.byEmail ?e ?d with _ => _ end] =>
             destruct (Prisma.byEmail e d); try discriminate
         end.
  all: intros [= <- <-]; eexists; split; [|reflexivity]; reflexivity.
Qed.

(** C5. In the response of each of the five routes (list, get by id,
    create, update, delete) the user data carry no property [senha]:
    neither the object under [data] nor any element of the array under
    [data] has it. *)
Theorem responses_never_carry_password (req : Request) (db : DB) :
  noSenha (prop "data" (json (snd (getUsers req db)))) = true
  /\ noSenha (prop "data" (json (snd (getUser req db)))) = true
  /\ noSenha (prop "data" (json (snd (postUsers req db)))) = true
  /\ noSenha (prop "data" (json (snd (putUser req db)))) = true
  /\ noSenha (prop "data" (json (snd (deleteUser_ req db)))) = true.
Proof.
  unfold getUsers, getUser, postUsers, putUser, deleteUser_.
  repeat split.
  all: match goal with
       | |- context [route ?mws ?c ?r ?d] =>
           destruct (route_outcome mws c r d)
             as [(e & req' & ->) | [(req' & db' & e & _ & ->)
                                   | (req' & db' & res & Hc & ->)]]
       end; cbn [snd]; rewrite ?errorHandler_no_data; try reflexivity.
  - unfold getAll, bind, ret in Hc.
    destruct (getAllUsers db) as [db1 [e|v]] eqn:Es; [discriminate|].
    injection Hc as <- <-. apply getAllUsers_noSenha in Es.
    destruct v; try reflexivity; exact Es.
  - unfold getById, bind, ret in Hc.
    destruct (getUserById _ db) as [db1 [e|v]] eqn:Es; [discriminate|].
    injection Hc as <- <-.
    apply getUserById_Some in Es as (_ & n & u & _ & _ & ->). reflexivity.
  - unfold create, bind, ret in Hc.
    destruct (createUser _ db) as [db1 [e|v]] eqn:Es; [discriminate|].
    injection Hc as <- <-.
    apply createUser_Some in Es as (u & -> & _). reflexivity.
  - unfold update, bind, ret in Hc.
    destruct (updateUser _ _ db) as [db1 [e|v]] eqn:Es; [discriminate|].
    injection Hc as <- <-.
    apply updateUser_Some in Es as (n & old & _ & _ & Hu).
    apply update_Some in Hu as (old' & u & _ & -> & _). reflexivity.
  - unfold remove, bind, ret in Hc.
    destruct (deleteUser _ db) as [db1 [e|v]] eqn:Es; [discriminate|].
    injection Hc as <- <-.
    apply deleteUser_Some in Es as (n & u & _ & _ & -> & _). reflexivity.
Qed.

End RouteFacts.

(** ** The id parameter *)

Section IdFacts.
Context `{Runtime}.

Lemma digitsAcc_nonneg s acc :
  Str.allDigits s = true -> 0 <= acc -> 0 <= Str.digitsAcc acc s.
Proof.
  revert acc. induction s as [|c r IH]; intros acc Hd Hacc; [exact Hacc|].
  cbn [Str.allDigits Str.digitsAcc] in *.
  apply andb_prop in Hd as [Hc Hr]. apply IH; [exact Hr|].
  unfold Str.isDigit in Hc. apply andb_prop in Hc as [Hlo _].
  apply Nat.leb_le in Hlo. lia.
Qed.

Lemma idNumber_nonneg s : Str.matchesDigits s = true -> 0 <= idNumber s.
Proof.
  intros Hd. apply DoubleFacts.round_nonneg.
  unfold Str.matchesDigits in Hd. apply andb_prop in Hd as [_ Hd].
  now apply digitsAcc_nonneg.
Qed.

(** The identifier the service looks up is positive only for a positive
    number. *)
Lemma idRow_positive s k :
  Str.matchesDigits s = true -> idRow s = Some k -> 0 < k ->
  0 < idNumber s.
Proof.
  intros Hd Hk Hpos. pose proof (idNumber_nonneg s Hd) as Hn.
  destruct (Z.eq_dec (idNumber s) 0) as [E|]; [|lia].
  unfold idRow in Hk. rewrite E in Hk. vm_compute in Hk.
  injection Hk as <-. lia.
Qed.

Lemma idRow_safe s :
  Str.matchesDigits s = true -> Str.digitsValue s <= Double.maxSafe ->
  idRow s = Some (Str.digitsValue s)
  /\ idNumber s = Str.digitsValue s.
Proof.
  intros Hd Hs.
  assert (Hn : 0 <= Str.digitsValue s).
  { unfold Str.matchesDigits in Hd. apply andb_prop in Hd as [_ Hd].
    now apply digitsAcc_nonneg. }
  assert (E : idNumber s = Str.digitsValue s)
    by (apply DoubleFacts.round_safe; lia).
  split; [|exact E]. unfold idRow. rewrite E.
  apply DoubleFacts.key_safe. lia.
Qed.

Lemma idNumber_gt0 s : (0 <? idNumber s) = (0 <? Str.digitsValue s).
Proof. apply DoubleFacts.round_gt0. Qed.

Lemma idNumber_safe s :
  Str.digitsValue s <= Double.maxSafe -> 0 < Str.digitsValue s ->
  idNumber s = Str.digitsValue s.
Proof. intros Hs Hpos. apply DoubleFacts.round_safe. lia. Qed.

(** [parseInt] on a positive number below 10^21. *)
Lemma parseInt_below x :
  0 < x -> x < Double.exponential -> parseInt (VNum x) = VNum x.
Proof.
  intros Hpos Hx. cbn [parseInt]. rewrite DoubleFacts.key_below; [reflexivity|].
  lia.
Qed.

(** The id schema on the parameters of a route: the outcome for a string
    [s] under the key [id]. *)
Lemma idParamSchema_string (ps : obj) (s : string) :
  get "id" ps = VStr s ->
  Zod.safeParse idParamSchema (VObj ps)
  = if Str.matchesDigits s && (0 <? idNumber s)
    then inr (VObj [("id", VNum (idNumber s))])
    else inl (snd (Zod.parse idParamSchema [] (VObj ps))).
Proof.
  intros Hid. unfold Zod.safeParse, idParamSchema.
  rewrite parse_Object.
  cbn [fieldResults map fst snd app Zod.extraKeys strictIssues concat].
  rewrite Hid. cbn [Zod.parse Zod.runChecks].
  destruct (Str.matchesDigits s) eqn:Ed; cbn [andb orb app].
  - assert (Hnum : Number_ (VStr s) = VNum (idNumber s)).
    { unfold Number_. now rewrite Ed. }
    rewrite Hnum. unfold gtZero. cbn [Number_].
    destruct (0 <? idNumber s); reflexivity.
  - destruct (gtZero (VStr s)); reflexivity.
Qed.

Lemma idInvalid_positive n : 0 < n -> idInvalid (VNum n) = false.
Proof.
  intros Hn. unfold idInvalid, isNaN, leZero. cbn.
  destruct (Z.eqb_spec n 0); [lia|]. destruct (Z.leb_spec n 0); [lia|].
  reflexivity.
Qed.

Lemma validate_id_rejects req ps s :
  params req = VObj ps -> get "id" ps = VStr s ->
  Str.matchesDigits s = false \/ idNumber s <= 0 ->
  exists found,
    validate idParamSchema SParams req
    = inl (Errors.ValidationError (Some "Dados de entrada inválidos")
             (Some (map detailOf found))).
Proof.
  intros Hp Hid Hbad. unfold validate. cbn [readSource]. rewrite Hp.
  rewrite (idParamSchema_string ps s Hid).
  assert (Str.matchesDigits s && (0 <? idNumber s) = false) as ->.
  { destruct Hbad as [-> | Hle]; [reflexivity|].
    destruct (Z.ltb_spec 0 (idNumber s)); [lia|].
    apply andb_false_r. }
  eauto.
Qed.

Lemma validate_id_accepts req ps s :
  params req = VObj ps -> get "id" ps = VStr s ->
  Str.matchesDigits s = true -> 0 < idNumber s ->
  validate idParamSchema SParams req
  = inr (writeSource SParams (VObj [("id", VNum (idNumber s))]) req).
Proof.
  intros Hp Hid Hd Hpos. unfold validate. cbn [readSource]. rewrite Hp.
  rewrite (idParamSchema_string ps s Hid), Hd.
  destruct (Z.ltb_spec 0 (idNumber s)); [reflexivity|lia].
Qed.

Lemma errorHandler_operational e req :
  instanceofAppError e = true -> isOperational e = true ->
  errorHandler e req
  = {| status := statusCode e;
       json := envelope (codeValue (code e)) (message e)
                 [("details", VArr (details e))] req |}.
Proof. intros Ha Ho. unfold errorHandler. now rewrite Ha, Ho. Qed.

(** C7, amended. For the id parameter of the routes get, update and
    delete: a string that is not one or more digits, or that [Number]
    reads as a number that is not positive, ends in 400 VALIDATION_ERROR,
    never in 404. A string of digits that [Number] reads as a positive
    number below 10^21 without a row ends in 404 NOT_FOUND with the
    resource name "User" on get and delete, and on update when the body
    passes its validation; an update whose body fails its validation ends
    in 400 VALIDATION_ERROR, whether the row exists or not. The database is
    left as it was. *)
Theorem id_parameter_400_or_404 (req : Request) (db : DB) (ps : obj)
    (s : string) :
  params req = VObj ps ->
  get "id" ps = VStr s ->
  (Str.matchesDigits s = false \/ idNumber s <= 0 ->
   forall handler,
     In handler [getUser; putUser; deleteUser_] ->
     exists res,
       handler req db = (db, res)
       /\ status res = 400
       /\ errorCode res = VStr "VALIDATION_ERROR"
       /\ status res <> 404)
  /\ (Str.matchesDigits s = true ->
      0 < idNumber s ->
      (idNumber s < Double.exponential ->
       users db !! idNumber s = None ->
       forall handler,
         handler = getUser \/ handler = deleteUser_
         \/ (handler = putUser
             /\ exists data,
                  Zod.safeParse updateUserSchema (body req) = inr data) ->
         exists res,
           handler req db = (db, res)
           /\ status res = 404
           /\ errorCode res = VStr "NOT_FOUND"
           /\ errorDetails res = VArr [VObj [("resource", VStr "User")]])
      /\ (forall found,
             Zod.safeParse updateUserSchema (body req) = inl found ->
             exists res,
               putUser req db = (db, res)
               /\ status res = 400
               /\ errorCode res = VStr "VALIDATION_ERROR"
               /\ errorDetails res
                  = VArr (map (fun i =>
                                 VObj [ ("field",
                                         VStr (Str.join "." (Zod.path i)));
                                        ("message", VStr (Zod.message i));
                                        ("code", VStr (Zod.code i)) ])
                            found))).
Proof.
  intros Hp Hid. split.
  - intros Hbad handler Hin.
    destruct (validate_id_rejects req ps s Hp Hid Hbad) as (found & Hv).
    destruct Hin as [<- | [<- | [<- | []]]].
    all: unfold getUser, putUser, deleteUser_; cbn [route]; rewrite Hv.
    all: eexists; split; [reflexivity|].
    all: repeat split; discriminate.
  - intros Hd Hpos.
    pose proof (validate_id_accepts req ps s Hp Hid Hd Hpos) as Hv.
    pose proof (idInvalid_positive _ Hpos) as Hinv.
    split.
    + intros Hlt Hnone handler Hh.
      pose proof (parseInt_below _ Hpos Hlt) as Hint.
      destruct Hh as [-> | [-> | (-> & data & Hdata)]].
      * unfold getUser. cbn [route]. rewrite Hv.
        unfold getById, bind. cbn [writeSource params prop get String.eqb
                                    Ascii.eqb Bool.eqb].
        unfold getUserById, bind, throw. rewrite Hinv, Hint.
        cbn [Prisma.findUniqueById]. rewrite Hnone. cbn [truthy negb].
        eexists. split; [reflexivity|]. repeat split; reflexivity.
      * unfold deleteUser_. cbn [route]. rewrite Hv.
        unfold remove, bind. cbn [writeSource params prop get String.eqb
                                   Ascii.eqb Bool.eqb].
        unfold deleteUser, bind, throw. rewrite Hinv, Hint.
        cbn [Prisma.findUniqueById]. rewrite Hnone. cbn [truthy negb].
        eexists. split; [reflexivity|]. repeat split; reflexivity.
      * unfold putUser. cbn [route]. rewrite Hv.
        unfold validate at 1. cbn [readSource writeSource body].
        rewrite Hdata.
        unfold update, bind. cbn [writeSource params prop get String.eqb
                                   Ascii.eqb Bool.eqb body].
        unfold updateUser, bind, throw. rewrite Hinv, Hint.
        cbn [Prisma.findUniqueById]. rewrite Hnone. cbn [truthy negb].
        eexists. split; [reflexivity|]. repeat split; reflexivity.
    + intros found Hfound.
      unfold putUser. cbn [route]. rewrite Hv.
      unfold validate at 1. cbn [readSource writeSource body].
      rewrite Hfound.
      eexists. split; [reflexivity|]. repeat split; reflexivity.
Qed.

End IdFacts.

(** ** The update schema *)

Section UpdateFacts.
Context `{Runtime}.

Lemma hasKey_In k (o : obj) : hasKey k o = true -> In k (map fst o).
Proof.
  induction o as [|[k' v] o IH]; cbn; [discriminate|].
  destruct (String.eqb_spec k k') as [->|]; cbn; auto.
Qed.

Lemma extraKeys_In k keys (o : obj) :
  hasKey k o = true -> ~ In k keys -> In k (Zod.extraKeys keys o).
Proof.
  intros Hk Hn. unfold Zod.extraKeys. apply filter_In.
  split; [now apply hasKey_In|].
  apply negb_true_iff, not_true_is_false. intros (x & Hx & He)%existsb_exists.
  apply String.eqb_eq in He as ->. contradiction.
Qed.

Lemma mergeObject_dirty pairs acc v :
  Zod.mergeObject true pairs acc <> Zod.OK v.
Proof.
  rewrite mergeObject_spec.
  destruct (existsb (fun pr => isINVALID (snd pr)) pairs); discriminate.
Qed.

Lemma parse_Refine inner check msg p v :
  Zod.parse (Zod.Refine inner check msg) p v
  = match Zod.parse inner p v with
    | (Zod.INVALID, found) => (Zod.INVALID, found)
    | (Zod.DIRTY out, found) =>
        (Zod.DIRTY out,
         if check out then found else found ++ [Zod.Issue "custom" p msg])
    | (Zod.OK out, found) =>
        if check out then (Zod.OK out, found)
        else (Zod.DIRTY out, found ++ [Zod.Issue "custom" p msg])
    end.
Proof. reflexivity. Qed.

(** A refinement never turns an outcome that is not valid into a valid
    one. *)
Lemma parse_Refine_not_OK inner check msg p v :
  isOK (fst (Zod.parse inner p v)) = false ->
  isOK (fst (Zod.parse (Zod.Refine inner check msg) p v)) = false.
Proof.
  rewrite parse_Refine. destruct (Zod.parse inner p v) as [[|out|out] found];
    cbn; try discriminate; auto.
Qed.

Lemma safeParse_inl schema v :
  isOK (fst (Zod.parse schema [] v)) = false ->
  Zod.safeParse schema v = inl (snd (Zod.parse schema [] v)).
Proof.
  unfold Zod.safeParse. destruct (Zod.parse schema [] v) as [[|out|out] found];
    cbn; try discriminate; auto.
Qed.

Lemma update_unknown_key o k :
  hasKey k o = true ->
  ~ In k ["nome"; "email"; "senha"; "papel"; "foto"] ->
  isOK (fst (Zod.parse updateUserSchema [] (VObj o))) = false.
Proof.
  intros Hk Hn. unfold updateUserSchema. apply parse_Refine_not_OK.
  rewrite parse_Object. cbn [fst].
  pose proof (extraKeys_In k _ o Hk Hn) as Hin.
  cbn [map fst] in *. unfold strictIssues.
  destruct (Zod.extraKeys _ o) as [|x xs]; [destruct Hin|].
  pose proof (mergeObject_dirty
                (map fst (fieldResults [] o
                   (match refined updateUserSchema with
                    | Zod.Object shape _ => shape
                    | _ => []
                    end))) []) as Hm.
  cbn [refined updateUserSchema] in Hm.
  destruct (Zod.mergeObject true _ []) eqn:E; try reflexivity.
  now destruct (Hm v).
Qed.

Lemma validate_inl schema src req :
  isOK (fst (Zod.parse schema [] (readSource src req))) = false ->
  validate schema src req
  = inl (Errors.ValidationError (Some "Dados de entrada inválidos")
           (Some (map detailOf
                    (snd (Zod.parse schema [] (readSource src req)))))).
Proof. intros Hbad. unfold validate. now rewrite safeParse_inl. Qed.

(** The rule of the refinement fires on every normalized object without a
    defined field. *)
Lemma update_refinement_fires v normalized found :
  Zod.parse (refined updateUserSchema) [] v = (Zod.OK normalized, found)
  \/ Zod.parse (refined updateUserSchema) [] v
     = (Zod.DIRTY normalized, found) ->
  someDefined normalized = false ->
  isOK (fst (Zod.parse updateUserSchema [] v)) = false
  /\ snd (Zod.parse updateUserSchema [] v)
     = found ++ [Zod.Issue "custom" []
                   "Pelo menos um campo deve ser fornecido para atualização"].
Proof.
  intros Hp Hnone. unfold updateUserSchema. rewrite parse_Refine.
  cbn [refined updateUserSchema] in Hp.
  destruct Hp as [-> | ->]; rewrite Hnone; split; reflexivity.
Qed.

(** A body none of whose declared fields is given, the photo at most as
    [null], normalizes to an object without a defined field. *)
Lemma update_nothing_given o :
  get "nome" o = VUndef -> get "email" o = VUndef ->
  get "senha" o = VUndef -> get "papel" o = VUndef ->
  get "foto" o = VUndef \/ get "foto" o = VNull ->
  exists normalized found,
    (Zod.parse (refined updateUserSchema) [] (VObj o)
     = (Zod.OK normalized, found)
     \/ Zod.parse (refined updateUserSchema) [] (VObj o)
        = (Zod.DIRTY normalized, found))
    /\ someDefined normalized = false.
Proof.
  intros Hn He Hs Hp Hf. cbn [refined updateUserSchema].
  rewrite parse_Object, mergeObject_spec.
  cbn [fieldResults map fst snd app]. rewrite Hn, He, Hs, Hp.
  assert (Hfoto : forall sch f,
             Zod.parse (Zod.Transform (Zod.Nullable (Zod.Optional sch)) f)
               ["foto"] (get "foto" o)
             = (Zod.OK (f (get "foto" o)), [])).
  { intros sch f. destruct Hf as [-> | ->]; reflexivity. }
  rewrite Hfoto. cbn [Zod.parse map fst snd existsb forallb isINVALID isOK
                       orb andb negb concat kept app].
  eexists _, _. split.
  - destruct (match strictIssues _ _ _ with [] => false | _ => true end);
      cbn [orb]; [right|left]; reflexivity.
  - destruct Hf as [-> | ->], (hasKey "nome" o), (hasKey "email" o),
      (hasKey "senha" o), (hasKey "papel" o); reflexivity.
Qed.

(** C8. The update schema is strict: a body with a property that the
    schema does not declare is refused with a validation error (400,
    VALIDATION_ERROR); and a body whose normalized object has no defined
    field, as is every body that gives none of the declared fields and the
    photo at most as [null], is refused with a validation error that
    carries the rule asking for at least one field, which is the only
    detail for the empty body. *)
Theorem update_body_is_strict (req : Request) (o : obj) :
  body req = VObj o ->
  (forall k,
      hasKey k o = true ->
      ~ In k ["nome"; "email"; "senha"; "papel"; "foto"] ->
      exists e,
        validate updateUserSchema SBody req = inl e
        /\ statusCode e = 400
        /\ code e = Some "VALIDATION_ERROR")
  /\ (forall normalized found,
         Zod.parse (refined updateUserSchema) [] (VObj o)
         = (Zod.OK normalized, found)
         \/ Zod.parse (refined updateUserSchema) [] (VObj o)
            = (Zod.DIRTY normalized, found) ->
         someDefined normalized = false ->
         exists e,
           validate updateUserSchema SBody req = inl e
           /\ statusCode e = 400
           /\ code e = Some "VALIDATION_ERROR"
           /\ In atLeastOneField (details e))
  /\ (get "nome" o = VUndef -> get "email" o = VUndef ->
      get "senha" o = VUndef -> get "papel" o = VUndef ->
      get "foto" o = VUndef \/ get "foto" o = VNull ->
      exists e,
        validate updateUserSchema SBody req = inl e
        /\ statusCode e = 400
        /\ code e = Some "VALIDATION_ERROR"
        /\ In atLeastOneField (details e))
  /\ (o = [] ->
      validate updateUserSchema SBody req
      = inl (Errors.ValidationError (Some "Dados de entrada inválidos")
               (Some [atLeastOneField]))).
Proof.
  intros Hb.
  assert (Hrule : forall normalized found,
             Zod.parse (refined updateUserSchema) [] (VObj o)
             = (Zod.OK normalized, found)
             \/ Zod.parse (refined updateUserSchema) [] (VObj o)
                = (Zod.DIRTY normalized, found) ->
             someDefined normalized = false ->
             exists e,
               validate updateUserSchema SBody req = inl e
               /\ statusCode e = 400
               /\ code e = Some "VALIDATION_ERROR"
               /\ In atLeastOneField (details e)).
  { intros normalized found Hp Hnone.
    destruct (update_refinement_fires _ _ _ Hp Hnone) as (Hbad & Hissues).
    eexists. split.
    { apply validate_inl. cbn [readSource]. now rewrite Hb. }
    split; [reflexivity|]. split; [reflexivity|].
    cbn [readSource Errors.ValidationError Errors.AppError details].
    rewrite Hb, Hissues. cbn [default from_option Datatypes.id].
    rewrite map_app. apply in_or_app. right. left. reflexivity. }
  split; [|split; [exact Hrule|split]].
  - intros k Hk Hn. eexists. split.
    { apply validate_inl. cbn [readSource]. rewrite Hb.
      now apply (update_unknown_key o k). }
    split; reflexivity.
  - intros Hn He Hs Hp Hf.
    destruct (update_nothing_given o Hn He Hs Hp Hf)
      as (normalized & found & Hparse & Hnone).
    exact (Hrule normalized found Hparse Hnone).
  - intros ->. unfold validate. cbn [readSource]. rewrite Hb. reflexivity.
Qed.

End UpdateFacts.

(** ** The error handler *)

Section HandlerFacts.
Context `{Runtime}.

Lemma prefix_P (a : ascii) (r : string) :
  String.prefix "P" (String a r) = true <-> a = "P"%char.
Proof.
  change (String.prefix "P" (String a r))
    with (if ascii_dec "P" a then String.prefix "" r else false).
  destruct (ascii_dec "P" a) as [<-|Hne].
  - destruct r; tauto.
  - split; [discriminate|congruence].
Qed.

Lemma hasPrismaCode_P e rest :
  code e = Some ("P" +:+ rest) -> hasPrismaCode e = true.
Proof.
  intros Hc. unfold hasPrismaCode, Str.startsWith. rewrite Hc.
  change ("P" +:+ rest) with (String "P"%char rest).
  cbn [String.eqb negb andb]. now apply prefix_P.
Qed.

Lemma hasPrismaCode_other e :
  (forall rest, code e <> Some ("P" +:+ rest)) -> hasPrismaCode e = false.
Proof.
  intros Hno. unfold hasPrismaCode, Str.startsWith.
  destruct (code e) as [[|a r]|] eqn:Hc; [reflexivity| |reflexivity].
  cbn [String.eqb negb andb].
  destruct (String.prefix "P" (String a r)) eqn:Hp; [|reflexivity].
  apply prefix_P in Hp as ->. now destruct (Hno r).
Qed.

(** C9. The error handler classifies by the first match: a taxonomy error
    answers with its own status, code, message and details; otherwise an
    error whose code begins with the letter P, as the codes of the driver
    do, answers 409 CONFLICT for P2002, 404 NOT_FOUND for P2025, 400
    INVALID_REFERENCE for P2003 and 500 DATABASE_ERROR for any other such
    code; otherwise a native error of the validation library answers 400
    VALIDATION_ERROR with its issues reshaped into field and message;
    otherwise the answer is 500 INTERNAL_ERROR. *)
Theorem errorHandler_first_match_wins (e : JsError) (req : Request) :
  (taxonomy e = true ->
   status (errorHandler e req) = statusCode e
   /\ errorCode (errorHandler e req) = codeValue (code e)
   /\ errorMessage (errorHandler e req) = VStr (message e)
   /\ errorDetails (errorHandler e req) = VArr (details e))
  /\ (taxonomy e = false ->
      forall rest : string,
        code e = Some ("P" +:+ rest) ->
        (rest = "2002" ->
         status (errorHandler e req) = 409
         /\ errorCode (errorHandler e req) = VStr "CONFLICT")
        /\ (rest = "2025" ->
            status (errorHandler e req) = 404
            /\ errorCode (errorHandler e req) = VStr "NOT_FOUND")
        /\ (rest = "2003" ->
            status (errorHandler e req) = 400
            /\ errorCode (errorHandler e req) = VStr "INVALID_REFERENCE")
        /\ (rest <> "2002" -> rest <> "2025" -> rest <> "2003" ->
            status (errorHandler e req) = 500
            /\ errorCode (errorHandler e req) = VStr "DATABASE_ERROR"))
  /\ (taxonomy e = false ->
      (forall rest, code e <> Some ("P" +:+ rest)) ->
      name e = "ZodError" ->
      status (errorHandler e req) = 400
      /\ errorCode (errorHandler e req) = VStr "VALIDATION_ERROR"
      /\ errorDetails (errorHandler e req)
         = VArr (map (fun i =>
                        VObj [ ("field",
                                VStr (Str.join "." (Zod.path i)));
                               ("message", VStr (Zod.message i)) ])
                     (errors e)))
  /\ (taxonomy e = false ->
      (forall rest, code e <> Some ("P" +:+ rest)) ->
      name e <> "ZodError" ->
      status (errorHandler e req) = 500
      /\ errorCode (errorHandler e req) = VStr "INTERNAL_ERROR").
Proof.
  split; [|split; [|split]].
  - unfold taxonomy, errorHandler, errorCode, errorMessage, errorDetails.
    intros ->. cbn [status json].
    split; [reflexivity|]. destruct (code e); repeat split; reflexivity.
  - intros Htax rest Hc. pose proof (hasPrismaCode_P e rest Hc) as Hp.
    unfold taxonomy in Htax.
    unfold errorHandler, errorCode. rewrite Htax, Hp.
    unfold handlePrismaError, prismaErrorMap.
    rewrite Hc. cbn [default from_option Datatypes.id].
    split; [|split; [|split]].
    + intros ->. split; reflexivity.
    + intros ->. split; reflexivity.
    + intros ->. split; reflexivity.
    + intros N1 N2 N3.
      destruct (String.eqb_spec ("P" +:+ rest) "P2002") as [[= E]|];
        [contradiction|].
      destruct (String.eqb_spec ("P" +:+ rest) "P2025") as [[= E]|];
        [contradiction|].
      destruct (String.eqb_spec ("P" +:+ rest) "P2003") as [[= E]|];
        [contradiction|].
      split; reflexivity.
  - intros Htax Hno Hn. pose proof (hasPrismaCode_other e Hno) as Hp.
    unfold taxonomy in Htax.
    unfold errorHandler, errorCode, errorDetails. rewrite Htax, Hp, Hn.
    repeat split; reflexivity.
  - intros Htax Hno Hn. pose proof (hasPrismaCode_other e Hno) as Hp.
    unfold taxonomy in Htax. apply String.eqb_neq in Hn.
    unfold errorHandler, errorCode. rewrite Htax, Hp, Hn.
    split; reflexivity.
Qed.

(** C10, amended. Every error response has [success] false, a code and a
    message under [error], the timestamp and the path. The property
    [details] is present for every taxonomy error, holding the list of the
    error even when it is empty, and for every native error of the
    validation library; for a driver error it is present only in
    development mode and when the error has a [meta]; it is absent
    otherwise. *)
Theorem error_envelope_shape (e : JsError) (req : Request) :
  (instanceofAppError e = true -> code e <> None) ->
  prop "success" (json (errorHandler e req)) = VBool false
  /\ (exists c, errorCode (errorHandler e req) = VStr c)
  /\ (exists m, errorMessage (errorHandler e req) = VStr m)
  /\ prop "timestamp" (json (errorHandler e req)) = VStr (now req)
  /\ prop "path" (json (errorHandler e req)) = VStr (path req)
  /\ hasDetails (errorHandler e req)
     = (taxonomy e
        || (if hasPrismaCode e
            then development && negb (isUndefined (meta e))
            else String.eqb (name e) "ZodError"))
  /\ (taxonomy e = true ->
      errorDetails (errorHandler e req) = VArr (details e))
  /\ (taxonomy e = false -> hasPrismaCode e = false ->
      name e = "ZodError" ->
      errorDetails (errorHandler e req) = VArr (reshaped e)).
Proof.
  intros Hcode.
  unfold taxonomy, errorHandler, errorCode, errorMessage, errorDetails,
    hasDetails.
  destruct (instanceofAppError e) eqn:Ea; cbn [andb].
  1: destruct (isOperational e) eqn:Eo.
  1: { destruct (code e) as [c|] eqn:Ec; [|now destruct Hcode].
       repeat split; eauto; discriminate. }
  all: destruct (hasPrismaCode e) eqn:Ep.
  all: try (pose proof Ep as Ec; unfold hasPrismaCode in Ec;
            destruct (code e) as [c0|] eqn:Ec0; [|discriminate];
            unfold handlePrismaError; rewrite Ec0;
            destruct (prismaErrorMap _) as [[st c] msg];
            destruct development, (meta e);
            repeat split; eauto; discriminate).
  all: destruct (String.eqb_spec (name e) "ZodError");
    try (repeat split; eauto; try discriminate; try contradiction;
         destruct development; eauto; fail).
Qed.

End HandlerFacts.

(** ** The update route *)

Section PatchFacts.
Context `{Runtime}.

Lemma get_app_miss k (a b : obj) :
  hasKey k a = false -> get k (a ++ b) = get k b.
Proof.
  induction a as [|[k' v] a IH]; cbn; [reflexivity|].
  destruct (String.eqb k k'); cbn; [discriminate|auto].
Qed.

Lemma get_absent k (o : obj) : hasKey k o = false -> get k o = VUndef.
Proof.
  induction o as [|[k' v] o IH]; cbn [hasKey get]; [reflexivity|].
  destruct (String.eqb k k'); cbn [orb]; [discriminate|exact IH].
Qed.

Lemma hasKey_kept k k' a r : k <> k' -> hasKey k (kept (k', a, r)) = false.
Proof.
  intros Hne. apply String.eqb_neq in Hne.
  destruct r as [|v|v]; cbn; try reflexivity.
  all: destruct v; try destruct a; cbn; rewrite ?Hne; reflexivity.
Qed.

(** The data the update schema hands downstream always carry the property
    [foto]: the photo of the body, or [null] when the body has none. *)
Lemma updateUserSchema_foto o data :
  Zod.safeParse updateUserSchema (VObj o) = inr data ->
  prop "foto" data = jsOr (get "foto" o) VNull.
Proof.
  unfold Zod.safeParse, updateUserSchema. rewrite parse_Refine, parse_Object.
  rewrite mergeObject_spec.
  cbn [fieldResults map fst snd app].
  destruct (Zod.parse _ ["nome"] (get "nome" o)) as [r1 f1].
  destruct (Zod.parse _ ["email"] (get "email" o)) as [r2 f2].
  destruct (Zod.parse _ ["senha"] (get "senha" o)) as [r3 f3].
  destruct (Zod.parse _ ["papel"] (get "papel" o)) as [r4 f4].
  destruct (Zod.parse _ ["foto"] (get "foto" o)) as [r5 f5] eqn:E5.
  cbn [map fst snd existsb forallb concat].
  destruct (_ || _); [discriminate|].
  destruct (_ || _) eqn:Ed; [discriminate|].
  apply orb_false_elim in Ed as [_ Ed]. apply negb_false_iff in Ed.
  apply andb_prop in Ed as [_ Ed]. apply andb_prop in Ed as [_ Ed].
  apply andb_prop in Ed as [_ Ed]. apply andb_prop in Ed as [_ Ed].
  apply andb_prop in Ed as [O5 _].
  destruct r5 as [| |out]; try discriminate.
  assert (Hout : out = jsOr (get "foto" o) VNull).
  { cbn [Zod.parse] in E5.
    destruct (get "foto" o) as [| |b|n| |url|l|l]; cbn in E5;
      try discriminate; try (now injection E5 as <- _).
    destruct (urlParses url); [now injection E5 as <- _|discriminate]. }
  match goal with |- context [if ?c then _ else _] => destruct c end;
    intros [= <-]; cbn [prop app].
  rewrite !get_app_miss by (apply hasKey_kept; discriminate).
  rewrite app_nil_r. subst out.
  pose proof (jsOr_null_defined (get "foto" o)).
  destruct (jsOr (get "foto" o) VNull); try reflexivity; congruence.
Qed.

Lemma dadosAtualizacao_get userData :
  get "nome" (dadosAtualizacao userData)
  = (if truthy (prop "nome" userData) then prop "nome" userData else VUndef)
  /\ get "email" (dadosAtualizacao userData)
     = (if truthy (prop "email" userData) then prop "email" userData
        else VUndef)
  /\ get "senha" (dadosAtualizacao userData)
     = (if truthy (prop "senha" userData) then prop "senha" userData
        else VUndef)
  /\ get "papel" (dadosAtualizacao userData)
     = (if truthy (prop "papel" userData) then prop "papel" userData
        else VUndef)
  /\ get "foto" (dadosAtualizacao userData) = prop "foto" userData.
Proof.
  unfold dadosAtualizacao, assignIf.
  destruct (truthy (prop "nome" userData)),
           (truthy (prop "email" userData)),
           (truthy (prop "senha" userData)),
           (truthy (prop "papel" userData)),
           (prop "foto" userData); cbn; repeat split; reflexivity.
Qed.

(** The service alone patches only what its argument carries: a property
    that is [undefined] in [userData] leaves its column as it was, and an
    explicit [null] photo clears the photo. *)
Lemma updateUser_patches_only_given_fields userId userData db db' v :
  updateUser userId userData db = (db', inr v) ->
  exists n old u,
    parseInt userId = VNum n
    /\ users db !! n = Some old
    /\ users db' = <[n := u]> (users db)
    /\ id u = id old /\ createdAt u = createdAt old
    /\ (prop "nome" userData = VUndef -> nome u = nome old)
    /\ (prop "email" userData = VUndef -> email u = email old)
    /\ (prop "senha" userData = VUndef -> senha u = senha old)
    /\ (prop "papel" userData = VUndef -> papel u = papel old)
    /\ (prop "foto" userData = VUndef -> foto u = foto old)
    /\ (prop "foto" userData = VNull -> foto u = None)
    /\ (forall k, k <> n -> users db' !! k = users db !! k).
Proof.
  intros (n & old & Hid & Hold & Hu)%updateUser_Some.
  apply update_Some in Hu as (old' & u & Hold' & _ & -> & ->).
  assert (old' = old) as -> by congruence.
  destruct (dadosAtualizacao_get userData) as (Gn & Ge & Gs & Gp & Gf).
  rewrite Gn, Ge, Gs, Gp, Gf.
  exists n, old. eexists. split; [exact Hid|]. split; [exact Hold|].
  split; [reflexivity|]. cbn [id createdAt nome email senha papel foto users].
  repeat split; try (intros ->; reflexivity).
  intros k Hk. now apply lookup_insert_ne.
Qed.

Lemma errorHandler_not_success e req :
  prop "success" (json (errorHandler e req)) = VBool false.
Proof.
  unfold errorHandler, handlePrismaError, handleZodError.
  destruct (instanceofAppError e && isOperational e); [reflexivity|].
  destruct (hasPrismaCode e).
  { destruct (prismaErrorMap _) as [[st c] msg]. reflexivity. }
  destruct (String.eqb (name e) "ZodError"); reflexivity.
Qed.

(** C1, on the update route. The claim has the photo patched only when
    the body carries it. The route does otherwise: whenever a body without
    the property [foto] is accepted and the update succeeds, the stored
    user ends without photo, whatever the photo was. The schema turns the
    missing photo into [null] and the service writes every photo that is
    not [undefined]. The user is the one of the row that the service reads
    in the id, the row of the id itself for an id up to 2^53. *)
Theorem update_without_foto_clears_photo (req : Request) (db db' : DB)
    (res : Response) (ps o : obj) (s : string) :
  params req = VObj ps ->
  get "id" ps = VStr s ->
  body req = VObj o ->
  hasKey "foto" o = false ->
  putUser req db = (db', res) ->
  prop "success" (json res) = VBool true ->
  exists k u,
    idRow s = Some k /\ users db' !! k = Some u /\ foto u = None
    /\ (Str.digitsValue s <= Double.maxSafe -> k = Str.digitsValue s).
Proof.
  intros Hp Hid Hb Hno Hput Hok.
  pose proof (get_absent _ _ Hno) as Hfoto.
  unfold putUser in Hput. cbn [route] in Hput.
  unfold validate at 1 in Hput. cbn [readSource] in Hput.
  rewrite Hp, (idParamSchema_string ps s Hid) in Hput.
  destruct (Str.matchesDigits s && (0 <? idNumber s)) eqn:Ev;
    cbv beta iota in Hput.
  2: { injection Hput as <- <-. now rewrite errorHandler_not_success in Hok. }
  unfold validate at 1 in Hput. cbn [readSource writeSource body] in Hput.
  rewrite Hb in Hput.
  destruct (Zod.safeParse updateUserSchema (VObj o)) as [found|data] eqn:Ed;
    cbv beta iota in Hput.
  { injection Hput as <- <-. now rewrite errorHandler_not_success in Hok. }
  pose proof (updateUserSchema_foto o data Ed) as Hdata.
  rewrite Hfoto in Hdata. cbn in Hdata.
  unfold update, bind in Hput.
  cbn [writeSource params body prop get String.eqb Ascii.eqb Bool.eqb]
    in Hput.
  destruct (updateUser _ _ db) as [db1 [e|v]] eqn:Eu.
  { injection Hput as <- <-. now rewrite errorHandler_not_success in Hok. }
  injection Hput as <- <-.
  apply updateUser_patches_only_given_fields in Eu
    as (n & old & u & Hn & _ & Hdb & _ & _ & _ & _ & _ & _ & _ & Hnull & _).
  cbn [parseInt] in Hn. apply andb_prop in Ev as [Hd _].
  destruct (Double.key (idNumber s)) as [k|] eqn:Ek; [|discriminate Hn].
  injection Hn as <-.
  exists k, u. split; [exact Ek|].
  split; [rewrite Hdb; apply lookup_insert_eq|].
  split; [exact (Hnull Hdata)|].
  intros Hsafe. destruct (idRow_safe s Hd Hsafe) as [Hrow _].
  unfold idRow in Hrow. congruence.
Qed.

(** C3, on the create route. The claim has a body whose [foto] is the
    empty string accepted and the user created without photo. The route
    refuses it: the URL check runs before the transform that would turn
    the empty string into [null], so, the empty string not being a URL,
    the answer is 400 VALIDATION_ERROR with the rule of the photo among
    the details, and the database is left as it was. *)
Theorem create_rejects_empty_foto (req : Request) (db : DB) (o : obj) :
  urlParses "" = false ->
  body req = VObj o ->
  get "foto" o = VStr "" ->
  exists res found,
    postUsers req db = (db, res)
    /\ status res = 400
    /\ errorCode res = VStr "VALIDATION_ERROR"
    /\ errorDetails res = VArr (map detailOf found)
    /\ In ("foto", "URL da foto inválida") (map shown found).
Proof.
  intros Hurl Hb Hfoto.
  assert (Hin : In ("foto", "URL da foto inválida") (createViolations o)).
  { unfold createViolations. rewrite Hfoto. cbn [fotoRule]. rewrite Hurl.
    rewrite !in_app_iff. do 4 right. left. reflexivity. }
  destruct (createUserSchema_reports req o Hb) as (found & Hv & Hs).
  { intros Hnil. now rewrite Hnil in Hin. }
  unfold postUsers. cbn [route]. rewrite Hv.
  eexists _, found. split; [reflexivity|]. rewrite Hs.
  repeat split; auto.
Qed.

End PatchFacts.

(** ** The scenarios evaluated *)

Section Concrete.
Import Scenario.
#[local] Existing Instance Node.runtime.

Lemma create_checks_run_before_transforms_witness :
  validate createUserSchema SBody (request "POST" "/users" (VObj []) paddedName)
  = inr (request "POST" "/users" (VObj []) paddedNameNormalized)
  /\ exists (o : obj) (n e : string),
      paddedName = VObj o
      /\ get "nome" o = VStr n
      /\ (3 <= String.length n <= 100)%nat
      /\ prop "nome" paddedNameNormalized = VStr (Str.trim n)
      /\ (String.length (Str.trim n) <= 100)%nat
      /\ get "email" o = VStr e
      /\ emailPattern e = true
      /\ prop "email" paddedNameNormalized
         = VStr (Str.trim (Str.toLowerCase e)).
Proof.
  assert (Hv : validate createUserSchema SBody
                 (request "POST" "/users" (VObj []) paddedName)
               = inr (request "POST" "/users" (VObj []) paddedNameNormalized))
    by (vm_compute; reflexivity).
  split; [exact Hv|].
  exact (create_checks_run_before_transforms _ _ Hv).
Defined.

Lemma create_accepts_name_shorter_than_three :
  ~ (forall req req' : Request,
        validate createUserSchema SBody req = inr req' ->
        exists n, prop "nome" (body req') = VStr n
                  /\ (3 <= String.length n <= 100)%nat).
Proof.
  intros Hall.
  destruct (Hall (request "POST" "/users" (VObj []) paddedName)
                 (request "POST" "/users" (VObj []) paddedNameNormalized))
    as (n & Hn & Hlen).
  - vm_compute. reflexivity.
  - vm_compute in Hn. injection Hn as <-. cbn in Hlen. lia.
Qed.

Lemma create_rejects_empty_foto_witness :
  urlParses "" = false
  /\ get "foto" emptyFoto = VStr ""
  /\ exists res found,
      postUsers (request "POST" "/users" (VObj []) (VObj emptyFoto)) emptyDB
      = (emptyDB, res)
      /\ status res = 400
      /\ errorCode res = VStr "VALIDATION_ERROR"
      /\ errorDetails res = VArr (map detailOf found)
      /\ In ("foto", "URL da foto inválida") (map shown found).
Proof.
  split; [reflexivity|]. split; [reflexivity|].
  apply (create_rejects_empty_foto
           (request "POST" "/users" (VObj []) (VObj emptyFoto)) emptyDB
           emptyFoto); reflexivity.
Defined.

Lemma createUser_contract_witness :
  Zod.safeParse createUserSchema paddedName = inr paddedNameNormalized
  /\ Prisma.byEmail "ana@escola.com" emptyDB = None
  /\ Prisma.byEmail "ana@escola.com" oneUser <> None
  /\ exists e : string,
      prop "email" paddedNameNormalized = VStr e
      /\ (exists u db',
             createUser paddedNameNormalized emptyDB
             = (db', inr (VObj [ ("id", VNum (id u));
                                 ("nome", VStr (nome u));
                                 ("email", VStr (email u));
                                 ("papel", VStr (roleName (papel u)));
                                 ("foto", match foto u with
                                          | Some url => VStr url
                                          | None => VNull
                                          end);
                                 ("createdAt", VNum (createdAt u)) ]))
             /\ users db' !! 1 = Some u
             /\ id u = 1 /\ nome u = "a" /\ email u = "ana@escola.com"
             /\ papel u = PROFESSOR /\ foto u = None)
      /\ (exists err,
             createUser paddedNameNormalized oneUser = (oneUser, inl err)
             /\ statusCode err = 409 /\ code err = Some "CONFLICT").
Proof.
  assert (Hp : Zod.safeParse createUserSchema paddedName
               = inr paddedNameNormalized) by (vm_compute; reflexivity).
  assert (Hfree : Prisma.byEmail "ana@escola.com" emptyDB = None)
    by (vm_compute; reflexivity).
  assert (Htaken : Prisma.byEmail "ana@escola.com" oneUser <> None)
    by (vm_compute; discriminate).
  split; [exact Hp|]. split; [exact Hfree|]. split; [exact Htaken|].
  destruct (createUser_contract paddedName paddedNameNormalized emptyDB Hp)
    as (e & He & _ & Hnew).
  destruct (createUser_contract paddedName paddedNameNormalized oneUser Hp)
    as (e' & He' & Hold & _).
  assert (e = "ana@escola.com") as -> by (vm_compute in He; congruence).
  assert (e' = "ana@escola.com") as -> by (vm_compute in He'; congruence).
  exists "ana@escola.com". split; [exact He|]. split.
  - destruct (Hnew Hfree)
      as (u & db' & Hc & _ & _ & Hrow & Hid & _ & Hnome & Hmail & _ & Hrole
          & Hfoto & _).
    exists u, db'. split; [exact Hc|]. split; [exact Hrow|].
    split; [exact Hid|].
    split; [cbn in Hnome; congruence|]. split; [exact Hmail|].
    split; [apply Hrole|apply Hfoto]; reflexivity.
  - destruct (Hold Htaken) as (err & Hc & _ & Hs & Hcode & _).
    exists err. auto.
Defined.

Lemma create_answer_lacks_update_time :
  ~ (forall (body data : value) (db db' : DB) (v : value),
        Zod.safeParse createUserSchema body = inr data ->
        createUser data db = (db', inr v) ->
        exists u, users db' !! nextId db = Some u
                  /\ v = without ["senha"] u).
Proof.
  intros Hall.
  destruct (createUser paddedNameNormalized emptyDB) as [db' [e|v]] eqn:Ec;
    [vm_compute in Ec; discriminate Ec|].
  destruct (Hall paddedName paddedNameNormalized emptyDB db' v)
    as (u & _ & Hv); [vm_compute; reflexivity | exact Ec |].
  assert (Hno : prop "updatedAt" v = VUndef).
  { vm_compute in Ec. injection Ec as _ <-. reflexivity. }
  rewrite Hv in Hno. discriminate Hno.
Qed.

Lemma validate_collects_every_violation_witness :
  emailPattern "invalido" = false
  /\ exists e,
      validate createUserSchema SBody
        (request "POST" "/users" (VObj []) threeViolations) = inl e
      /\ List.length (details e) = 3%nat
      /\ details e
         = [ VObj [ ("field", VStr "nome");
                    ("message",
                     VStr "Nome deve ter pelo menos 3 caracteres");
                    ("code", VStr "too_small") ];
             VObj [ ("field", VStr "email");
                    ("message", VStr "Email inválido");
                    ("code", VStr "invalid_string") ];
             VObj [ ("field", VStr "senha");
                    ("message",
                     VStr "Senha deve ter pelo menos 6 caracteres");
                    ("code", VStr "too_small") ] ]
      /\ status (snd (postUsers
                        (request "POST" "/users" (VObj []) threeViolations)
                        emptyDB)) = 400.
Proof.
  split; [reflexivity|].
  destruct validate_collects_every_violation as (_ & _ & Hthree).
  destruct (Hthree eq_refl
              (request "POST" "/users" (VObj []) threeViolations) emptyDB
              eq_refl) as (e & Hv & Hd & Hpost).
  exists e. split; [exact Hv|]. split; [now rewrite Hd|].
  split; [exact Hd|]. now rewrite Hpost.
Defined.

Lemma id_parameter_400_or_404_witness :
  (Str.matchesDigits "abc" = false
   /\ exists res,
       getUser (request "GET" "/users/abc" (VObj [("id", VStr "abc")]) VUndef)
         emptyDB = (emptyDB, res)
       /\ status res = 400
       /\ errorCode res = VStr "VALIDATION_ERROR"
       /\ status res <> 404)
  /\ (Str.matchesDigits "99999" = true
      /\ 0 < idNumber "99999"
      /\ idNumber "99999" < Double.exponential
      /\ users emptyDB !! idNumber "99999" = None
      /\ exists res,
          getUser (request "GET" "/users/99999" (VObj [("id", VStr "99999")])
                     VUndef)
            emptyDB = (emptyDB, res)
          /\ status res = 404
          /\ errorCode res = VStr "NOT_FOUND"
          /\ errorDetails res = VArr [VObj [("resource", VStr "User")]])
  /\ (idNumber "9007199254740993" = 9007199254740992
      /\ exists res,
          deleteUser_ (request "DELETE" "/users/9007199254740993"
                         (VObj [("id", VStr "9007199254740993")]) VUndef)
            oneUser = (oneUser, res)
          /\ status res = 404
          /\ errorCode res = VStr "NOT_FOUND"
          /\ errorDetails res = VArr [VObj [("resource", VStr "User")]])
  /\ (Zod.safeParse updateUserSchema (VObj [("nome", VStr "Jo")])
      = inl [ {| Zod.code := "too_small"; Zod.path := ["nome"];
                 Zod.message := "Nome deve ter pelo menos 3 caracteres" |} ]
      /\ exists res,
          putUser (request "PUT" "/users/99999" (VObj [("id", VStr "99999")])
                     (VObj [("nome", VStr "Jo")]))
            emptyDB = (emptyDB, res)
          /\ status res = 400
          /\ errorCode res = VStr "VALIDATION_ERROR"
          /\ errorDetails res
             = VArr [ VObj [ ("field", VStr "nome");
                             ("message",
                              VStr "Nome deve ter pelo menos 3 caracteres");
                             ("code", VStr "too_small") ] ]).
Proof.
  split; [|split; [|split]].
  - split; [reflexivity|].
    destruct (id_parameter_400_or_404
                (request "GET" "/users/abc" (VObj [("id", VStr "abc")]) VUndef)
                emptyDB [("id", VStr "abc")] "abc" eq_refl eq_refl)
      as (Hbad & _).
    apply (Hbad (or_introl eq_refl) getUser). left. reflexivity.
  - split; [reflexivity|]. split; [reflexivity|]. split; [reflexivity|].
    split; [reflexivity|].
    destruct (id_parameter_400_or_404
                (request "GET" "/users/99999" (VObj [("id", VStr "99999")])
                   VUndef)
                emptyDB [("id", VStr "99999")] "99999" eq_refl eq_refl)
      as (_ & Hgood).
    destruct (Hgood eq_refl eq_refl) as (Hmissing & _).
    apply (Hmissing eq_refl eq_refl getUser). left. reflexivity.
  - split; [vm_compute; reflexivity|].
    destruct (id_parameter_400_or_404
                (request "DELETE" "/users/9007199254740993"
                   (VObj [("id", VStr "9007199254740993")]) VUndef)
                oneUser [("id", VStr "9007199254740993")]
                "9007199254740993" eq_refl eq_refl)
      as (_ & Hgood).
    destruct (Hgood eq_refl eq_refl) as (Hmissing & _).
    apply (Hmissing eq_refl eq_refl deleteUser_). right. left. reflexivity.
  - assert (Hbody : Zod.safeParse updateUserSchema (VObj [("nome", VStr "Jo")])
                    = inl [ {| Zod.code := "too_small"; Zod.path := ["nome"];
                               Zod.message :=
                                 "Nome deve ter pelo menos 3 caracteres" |} ])
      by (vm_compute; reflexivity).
    split; [exact Hbody|].
    destruct (id_parameter_400_or_404
                (request "PUT" "/users/99999" (VObj [("id", VStr "99999")])
                   (VObj [("nome", VStr "Jo")]))
                emptyDB [("id", VStr "99999")] "99999" eq_refl eq_refl)
      as (_ & Hgood).
    destruct (Hgood eq_refl eq_refl) as (_ & Hbad).
    exact (Hbad _ Hbody).
Defined.

Lemma update_with_invalid_body_is_400_not_404 :
  ~ (forall (req : Request) (db : DB) (ps : obj) (s : string)
            (handler : Request -> DB -> DB * Response),
        params req = VObj ps -> get "id" ps = VStr s ->
        Str.matchesDigits s = true -> 0 < idNumber s ->
        users db !! idNumber s = None ->
        In handler [getUser; putUser; deleteUser_] ->
        status (snd (handler req db)) = 404
        /\ errorCode (snd (handler req db)) = VStr "NOT_FOUND").
Proof.
  intros Hall.
  destruct (Hall (request "PUT" "/users/99999" (VObj [("id", VStr "99999")])
                    (VObj [("nome", VStr "Jo")]))
                 emptyDB [("id", VStr "99999")] "99999" putUser
                 eq_refl eq_refl eq_refl eq_refl eq_refl
                 (or_intror (or_introl eq_refl))) as [H404 _].
  vm_compute in H404. discriminate.
Qed.

Lemma update_body_is_strict_witness :
  (exists e,
      validate updateUserSchema SBody
        (request "PUT" "/users/1" (VObj [("id", VStr "1")])
           (VObj [("apelido", VStr "x")])) = inl e
      /\ statusCode e = 400
      /\ code e = Some "VALIDATION_ERROR")
  /\ (get "foto" [("foto", VNull)] = VNull
      /\ exists e,
          validate updateUserSchema SBody
            (request "PUT" "/users/1" (VObj [("id", VStr "1")])
               (VObj [("foto", VNull)])) = inl e
          /\ statusCode e = 400
          /\ code e = Some "VALIDATION_ERROR"
          /\ In atLeastOneField (details e))
  /\ validate updateUserSchema SBody
       (request "PUT" "/users/1" (VObj [("id", VStr "1")]) (VObj []))
     = inl (Errors.ValidationError (Some "Dados de entrada inválidos")
              (Some [atLeastOneField])).
Proof.
  split; [|split].
  - destruct (update_body_is_strict
                (request "PUT" "/users/1" (VObj [("id", VStr "1")])
                   (VObj [("apelido", VStr "x")]))
                [("apelido", VStr "x")] eq_refl) as (Hextra & _).
    apply (Hextra "apelido" eq_refl).
    cbn. intros [?|[?|[?|[?|[?|[]]]]]]; discriminate.
  - split; [reflexivity|].
    destruct (update_body_is_strict
                (request "PUT" "/users/1" (VObj [("id", VStr "1")])
                   (VObj [("foto", VNull)]))
                [("foto", VNull)] eq_refl) as (_ & _ & Hnothing & _).
    apply Hnothing; auto.
  - destruct (update_body_is_strict
                (request "PUT" "/users/1" (VObj [("id", VStr "1")]) (VObj []))
                [] eq_refl) as (_ & _ & _ & Hempty).
    exact (Hempty eq_refl).
Defined.

Lemma errorHandler_first_match_wins_witness :
  taxonomy (Prisma.KnownRequestError "P2002" VUndef) = false
  /\ hasPrismaCode (Prisma.KnownRequestError "P2002" VUndef) = true
  /\ status (errorHandler (Prisma.KnownRequestError "P2002" VUndef)
               (request "POST" "/users" (VObj []) VUndef)) = 409
  /\ errorCode (errorHandler (Prisma.KnownRequestError "P2002" VUndef)
                  (request "POST" "/users" (VObj []) VUndef))
     = VStr "CONFLICT".
Proof.
  split; [reflexivity|]. split; [reflexivity|].
  destruct (errorHandler_first_match_wins
              (Prisma.KnownRequestError "P2002" VUndef)
              (request "POST" "/users" (VObj []) VUndef))
    as (_ & Hdriver & _).
  destruct (Hdriver eq_refl "2002" eq_refl) as (H2002 & _).
  exact (H2002 eq_refl).
Defined.

Lemma error_envelope_shape_witness :
  (instanceofAppError (Errors.UnauthorizedError None) = true ->
   code (Errors.UnauthorizedError None) <> None)
  /\ hasDetails (errorHandler (Errors.UnauthorizedError None)
                   (request "GET" "/users" (VObj []) VUndef)) = true
  /\ errorDetails (errorHandler (Errors.UnauthorizedError None)
                     (request "GET" "/users" (VObj []) VUndef)) = VArr [].
Proof.
  assert (Hcode : instanceofAppError (Errors.UnauthorizedError None) = true ->
                  code (Errors.UnauthorizedError None) <> None)
    by (intros _; discriminate).
  split; [exact Hcode|].
  destruct (error_envelope_shape (Errors.UnauthorizedError None)
              (request "GET" "/users" (VObj []) VUndef) Hcode)
    as (_ & _ & _ & _ & _ & Hhas & Hdet & _).
  split; [exact Hhas|exact (Hdet eq_refl)].
Defined.

Lemma details_present_though_none_supplied :
  ~ (forall (e : JsError) (req : Request),
        details e = [] -> errors e = [] ->
        hasDetails (errorHandler e req) = false).
Proof.
  intros Hall.
  specialize (Hall (Errors.UnauthorizedError None)
                (request "GET" "/users" (VObj []) VUndef) eq_refl eq_refl).
  vm_compute in Hall. discriminate.
Qed.

Lemma update_without_foto_clears_photo_witness :
  foto ana = Some "https://example.com/foto.jpg"
  /\ users oneUser !! 1 = Some ana
  /\ hasKey "foto" rename = false
  /\ prop "success"
       (json (snd (putUser (request "PUT" "/users/1"
                              (VObj [("id", VStr "1")]) (VObj rename))
                     oneUser))) = VBool true
  /\ exists k u,
      idRow "1" = Some k
      /\ users (fst (putUser (request "PUT" "/users/1"
                                (VObj [("id", VStr "1")]) (VObj rename))
                       oneUser)) !! k = Some u
      /\ foto u = None
      /\ (Str.digitsValue "1" <= Double.maxSafe -> k = Str.digitsValue "1").
Proof.
  split; [reflexivity|]. split; [vm_compute; reflexivity|].
  split; [reflexivity|].
  assert (Hok : prop "success"
                  (json (snd (putUser (request "PUT" "/users/1"
                                         (VObj [("id", VStr "1")])
                                         (VObj rename)) oneUser)))
                = VBool true) by (vm_compute; reflexivity).
  split; [exact Hok|].
  exact (update_without_foto_clears_photo
           (request "PUT" "/users/1" (VObj [("id", VStr "1")]) (VObj rename))
           oneUser _ _ [("id", VStr "1")] rename "1"
           eq_refl eq_refl eq_refl eq_refl (surjective_pairing _) Hok).
Defined.

End Concrete.

(** * Further properties *)

Section ListQueryFacts.
Context `{Runtime}.

(** A numeric parameter of the query: valid exactly when it stands for a
    number that satisfies the bound of its refinement. *)
Lemma query_number_field (dflt : Z) (ok : value -> bool) (msg : string)
    (p : list string) (v : value) :
  Zod.parse
    (Zod.Refine
       (Zod.Transform (Zod.Optional (Zod.String_ None None []))
          (fun val => if truthy val then parseInt10 val else VNum dflt))
       ok msg) p v
  = match v with
    | VUndef | VStr _ =>
        match queryNumber dflt v with
        | Some n =>
            if ok (VNum n) then (Zod.OK (VNum n), [])
            else (Zod.DIRTY (VNum n), [Zod.Issue "custom" p msg])
        | None =>
            if ok VNaN then (Zod.OK VNaN, [])
            else (Zod.DIRTY VNaN, [Zod.Issue "custom" p msg])
        end
    | _ => (Zod.INVALID,
            [Zod.Issue "invalid_type" p (Zod.invalidTypeDefault "string" v)])
    end.
Proof.
  destruct v as [| |b|n| |s|l|l]; try reflexivity.
  cbn [Zod.parse Zod.runChecks queryNumber truthy].
  destruct (String.eqb s ""); cbn [negb]; [reflexivity|].
  unfold parseInt10. destruct (ParseInt.radix10 s); reflexivity.
Qed.

Lemma page_field v r f :
  Zod.parse (field "page" (underOptional listUsersQuerySchema)) ["page"] v
  = (r, f) ->
  forall out, r = Zod.OK out <->
              exists n, queryNumber 1 v = Some n /\ 0 < n /\ out = VNum n.
Proof.
  cbn [field underOptional listUsersQuerySchema List.find String.eqb
       Ascii.eqb Bool.eqb fst snd].
  rewrite query_number_field. intros Hp out.
  destruct v as [| |b|k| |s|l|l];
    try (injection Hp as <- _; split; [discriminate|];
         intros (? & [=] & _)).
  all: destruct (queryNumber 1 _) as [n|];
    [unfold gtZero in Hp; cbn [Number_] in Hp;
     destruct (Z.ltb_spec 0 n); injection Hp as <- _
    |cbn in Hp; injection Hp as <- _].
  all: split; [intros [= <-]; eauto | intros (n' & [= <-] & Hn & ->)];
    try reflexivity; try lia.
  all: try (intros (? & [=] & _)).
Qed.

Lemma limit_field v r f :
  Zod.parse (field "limit" (underOptional listUsersQuerySchema)) ["limit"] v
  = (r, f) ->
  forall out, r = Zod.OK out <->
              exists n, queryNumber 10 v = Some n /\ 0 < n <= 100
                        /\ out = VNum n.
Proof.
  cbn [field underOptional listUsersQuerySchema List.find String.eqb
       Ascii.eqb Bool.eqb fst snd].
  rewrite query_number_field. intros Hp out.
  destruct v as [| |b|k| |s|l|l];
    try (injection Hp as <- _; split; [discriminate|];
         intros (? & [=] & _)).
  all: destruct (queryNumber 10 _) as [n|];
    [unfold gtZero, leNum in Hp; cbn [Number_] in Hp;
     destruct (Z.ltb_spec 0 n), (Z.leb_spec n 100); cbn [andb] in Hp;
     injection Hp as <- _
    |cbn in Hp; injection Hp as <- _].
  all: split; [intros [= <-]; eauto | intros (n' & [= <-] & Hn & ->)];
    try reflexivity; try lia.
  all: try (intros (? & [=] & _)).
Qed.

Lemma query_papel_field v r f :
  Zod.parse (field "papel" (underOptional listUsersQuerySchema)) ["papel"] v
  = (r, f) ->
  forall out, r = Zod.OK out <->
              out = v /\ (v = VUndef \/ v = VStr "PROFESSOR"
                          \/ v = VStr "ADMIN").
Proof.
  cbn [field underOptional listUsersQuerySchema List.find String.eqb
       Ascii.eqb Bool.eqb fst snd].
  intros Hp out.
  destruct v as [| |b|k| |s|l|l]; cbn [Zod.parse existsb] in Hp;
    try (injection Hp as <- _; split;
         [discriminate | intros (_ & [[=]|[[=]|[=]]])]).
  - injection Hp as <- _. split; [intros [= <-]; auto|intros [-> _]; auto].
  - destruct (String.eqb_spec s "PROFESSOR") as [->|N1];
      [|destruct (String.eqb_spec s "ADMIN") as [->|N2]];
      cbn [orb] in Hp; injection Hp as <- _.
    + split; [intros [= <-]; auto|intros [-> _]; auto].
    + split; [intros [= <-]; auto|intros [-> _]; auto].
    + split; [discriminate|]. intros (_ & [[=]|[[=]|[=]]]); congruence.
Qed.

(** X2. The query schema of the listing accepts a missing query, and the
    objects whose [page] stands for a positive number (1 when missing or
    empty), whose [limit] stands for a number from 1 to 100 (10 when
    missing or empty) and whose [papel], when given, is PROFESSOR or ADMIN;
    the accepted query is handed on with both numbers and without
    undeclared keys. A number is read as [parseInt(s, 10)] reads it: the
    double nearest to the integer that the leading digits denote, so that
    the page 9007199254740993 is handed on as 9007199254740992 and a page
    of 2^1024 or more as Infinity. *)
Theorem listUsersQuerySchema_accepts (q out : value) :
  (Zod.safeParse listUsersQuerySchema q = inr out <->
   (q = VUndef /\ out = VUndef)
   \/ exists (o : obj) (p l : Z),
        q = VObj o
        /\ queryNumber 1 (get "page" o) = Some p /\ 0 < p
        /\ queryNumber 10 (get "limit" o) = Some l /\ 0 < l <= 100
        /\ (get "papel" o = VUndef \/ get "papel" o = VStr "PROFESSOR"
            \/ get "papel" o = VStr "ADMIN")
        /\ out = VObj ([("page", VNum p); ("limit", VNum l)]
                       ++ match get "papel" o with
                          | VUndef => if hasKey "papel" o
                                      then [("papel", VUndef)] else []
                          | v => [("papel", v)]
                          end))
  /\ (forall (dflt : Z) (s : string) (n : Z),
        s <> "" -> ParseInt.radix10 s = Some n ->
        queryNumber dflt (VStr s) = Some (Double.round n)
        /\ (Double.infinity <= n ->
            queryNumber dflt (VStr s) = Some Double.infinity))
  /\ Zod.safeParse listUsersQuerySchema
       (VObj [("page", VStr "9007199254740993")])
     = inr (VObj [("page", VNum 9007199254740992); ("limit", VNum 10)]).
Proof.
  split; [|split].
  2: { intros dflt s n Hs Hn. cbn [queryNumber].
       destruct (String.eqb_spec s ""); [contradiction|].
       rewrite Hn. cbn [option_map]. split; [reflexivity|].
       intros Hinf. now rewrite DoubleFacts.round_infinity. }
  2: { vm_compute. reflexivity. }
  unfold Zod.safeParse.
  destruct q as [| |b|k| |s|l|o];
    try (cbn; split; [discriminate|];
         intros [[[=] _]|(? & ? & ? & [=] & _)]; fail).
  { cbn. split; [intros [= <-]; auto|intros [[_ ->]|(? & ? & ? & [=] & _)]].
    reflexivity. }
  change (Zod.parse listUsersQuerySchema [] (VObj o))
    with (Zod.parse (underOptional listUsersQuerySchema) [] (VObj o)).
  cbn [underOptional listUsersQuerySchema].
  rewrite parse_Object, mergeObject_spec.
  cbn [fieldResults map fst snd app strictIssues].
  destruct (Zod.parse _ ["page"] (get "page" o)) as [r1 f1] eqn:E1.
  destruct (Zod.parse _ ["limit"] (get "limit" o)) as [r2 f2] eqn:E2.
  destruct (Zod.parse _ ["papel"] (get "papel" o)) as [r3 f3] eqn:E3.
  pose proof (page_field _ _ _ E1) as K1.
  pose proof (limit_field _ _ _ E2) as K2.
  pose proof (query_papel_field _ _ _ E3) as K3.
  cbn [map fst snd existsb forallb concat orb].
  split.
  - destruct r1 as [|v1|v1], r2 as [|v2|v2], r3 as [|v3|v3];
      cbn [isINVALID isOK orb andb negb]; try discriminate.
    destruct (proj1 (K1 v1) eq_refl) as (p & Hp & Hpos & ->).
    destruct (proj1 (K2 v2) eq_refl) as (l & Hl & Hle & ->).
    destruct (proj1 (K3 v3) eq_refl) as (-> & Hrole).
    intros [= <-]. right. exists o, p, l.
    repeat split; auto; try lia.
    rewrite app_nil_r. destruct (get "papel" o); reflexivity.
  - intros [[[=] _]|(o' & p & l & [= <-] & Hp & Hpos & Hl & Hle & Hrole & ->)].
    rewrite (proj2 (K1 (VNum p))) by eauto.
    rewrite (proj2 (K2 (VNum l))) by eauto.
    rewrite (proj2 (K3 (get "papel" o))) by auto.
    cbn [isINVALID isOK orb andb negb map concat kept app].
    rewrite app_nil_r. destruct (get "papel" o); reflexivity.
Qed.

End ListQueryFacts.

Section Atomicity.
Context `{Runtime}.

Lemma emailExists_keeps_db v db db' r :
  emailExists v db = (db', r) -> db' = db.
Proof.
  unfold emailExists, bind, Prisma.findUniqueByEmail, ret.
  destruct v; intros [= <- _]; reflexivity.
Qed.

Lemma getAllUsers_total db :
  exists v, getAllUsers db = (db, inr v).
Proof. unfold getAllUsers, bind, Prisma.findMany, ret. eauto. Qed.

Lemma getUserById_keeps_db userId db db' r :
  getUserById userId db = (db', r) -> db' = db.
Proof.
  unfold getUserById, bind, throw, ret, Prisma.findUniqueById.
  destruct (idInvalid userId); [now intros [= <- _]|].
  destruct (parseInt userId); try (now intros [= <- _]).
  destruct (users db !! n); cbn; now intros [= <- _].
Qed.

Lemma createUser_error_keeps_db userData db db' e :
  createUser userData db = (db', inl e) -> db' = db.
Proof.
  unfold createUser, bind, throw, ret.
  destruct (emailExists (prop "email" userData) db) as [db1 [e1|b]] eqn:Ee;
    apply emailExists_keeps_db in Ee as ->; [now intros [= <- _]|].
  destruct b; [now intros [= <- _]|].
  unfold Prisma.create.
  repeat match goal with
         | |- context [match ?a with Prisma.Skip => _ | _ => _ end] =>
             destruct a
         | |- context [match Prisma.byEmail ?x ?d with _ => _ end] =>
             destruct (Prisma.byEmail x d)
         end; intros [= <-]; reflexivity.
Qed.

Lemma update_error_keeps_db idv data keys db db' e :
  Prisma.update idv data keys db = (db', inl e) -> db' = db.
Proof.
  unfold Prisma.update. destruct idv; try (now intros [= <- _]).
  destruct (_ || _); [now intros [= <- _]|].
  destruct (users db !! n); [|now intros [= <- _]].
  match goal with |- context [if ?c then _ else _] => destruct c end;
    [now intros [= <- _]|discriminate].
Qed.

Lemma updateUser_error_keeps_db userId userData db db' e :
  updateUser userId userData db = (db', inl e) -> db' = db.
Proof.
  unfold updateUser, bind, throw, ret.
  destruct (idInvalid userId); [now intros [= <- _]|].
  unfold Prisma.findUniqueById at 1.
  destruct (parseInt userId); try (now intros [= <- _]).
  destruct (users db !! n) as [old|]; cbn [truthy negb Prisma.project];
    [|now intros [= <- _]].
  destruct (truthy (prop "email" userData) && _).
  - destruct (emailExists (prop "email" userData) db) as [db1 [e1|b]] eqn:Ee;
      apply emailExists_keeps_db in Ee as ->; [now intros [= <- _]|].
    destruct b; [now intros [= <- _]|].
    destruct (Prisma.update _ _ _ db) as [db2 [e2|w]] eqn:Eu; [|discriminate].
    apply update_error_keeps_db in Eu as ->. now intros [= <- _].
  - destruct (Prisma.update _ _ _ db) as [db2 [e2|w]] eqn:Eu; [|discriminate].
    apply update_error_keeps_db in Eu as ->. now intros [= <- _].
Qed.

Lemma deleteUser_error_keeps_db userId db db' e :
  deleteUser userId db = (db', inl e) -> db' = db.
Proof.
  unfold deleteUser, bind, throw, ret.
  destruct (idInvalid userId); [now intros [= <- _]|].
  unfold Prisma.findUniqueById, Prisma.delete_.
  destruct (parseInt userId); try (now intros [= <- _]).
  destruct (users db !! n) as [u|] eqn:E; cbn [truthy negb Prisma.project];
    [|now intros [= <- _]].
  rewrite E. discriminate.
Qed.

Lemma controller_error_keeps_db controller req db db' e :
  In controller [getAll; getById; create; update; remove] ->
  controller req db = (db', inl e) -> db' = db.
Proof.
  intros [<- | [<- | [<- | [<- | [<- | []]]]]];
    unfold getAll, getById, create, update, remove, bind, ret.
  - destruct (getAllUsers_total db) as (v & ->). discriminate.
  - destruct (getUserById _ db) as [db1 [e1|v]] eqn:E; [|discriminate].
    apply getUserById_keeps_db in E as ->. now intros [= <- _].
  - destruct (createUser _ db) as [db1 [e1|v]] eqn:E; [|discriminate].
    apply createUser_error_keeps_db in E as ->. now intros [= <- _].
  - destruct (updateUser _ _ db) as [db1 [e1|v]] eqn:E; [|discriminate].
    apply updateUser_error_keeps_db in E as ->. now intros [= <- _].
  - destruct (deleteUser _ db) as [db1 [e1|v]] eqn:E; [|discriminate].
    apply deleteUser_error_keeps_db in E as ->. now intros [= <- _].
Qed.

Lemma controller_success controller req db db' res :
  In controller [getAll; getById; create; update; remove] ->
  controller req db = (db', inr res) ->
  prop "success" (json res) = VBool true.
Proof.
  intros [<- | [<- | [<- | [<- | [<- | []]]]]];
    unfold getAll, getById, create, update, remove, bind, ret.
  - destruct (getAllUsers db) as [db1 [e1|v]]; [discriminate|].
    intros [= _ <-]. reflexivity.
  - destruct (getUserById _ db) as [db1 [e1|v]]; [discriminate|].
    intros [= _ <-]. reflexivity.
  - destruct (createUser _ db) as [db1 [e1|v]]; [discriminate|].
    intros [= _ <-]. reflexivity.
  - destruct (updateUser _ _ db) as [db1 [e1|v]]; [discriminate|].
    intros [= _ <-]. reflexivity.
  - destruct (deleteUser _ db) as [db1 [e1|v]]; [discriminate|].
    intros [= _ <-]. reflexivity.
Qed.

(** The five routes with their controllers. *)
Lemma handler_is_route handler :
  In handler [getUsers; getUser; postUsers; putUser; deleteUser_] ->
  exists mws controller,
    handler = route mws controller
    /\ In controller [getAll; getById; create; update; remove].
Proof.
  intros [<- | [<- | [<- | [<- | [<- | []]]]]];
    unfold getUsers, getUser, postUsers, putUser, deleteUser_;
    eexists _, _; (split; [reflexivity|]); cbn; auto 6.
Qed.

(** X6. A request that is not answered with success leaves the database as
    it was, and the two reading routes leave it so in every case. *)
Theorem failed_requests_change_nothing (req : Request) (db : DB) :
  (forall handler db' res,
      In handler [getUsers; getUser; postUsers; putUser; deleteUser_] ->
      handler req db = (db', res) ->
      prop "success" (json res) <> VBool true ->
      db' = db)
  /\ fst (getUsers req db) = db
  /\ fst (getUser req db) = db.
Proof.
  split; [|split].
  - intros handler db' res Hin Hrun Hfail.
    destruct (handler_is_route handler Hin) as (mws & c & -> & Hc).
    destruct (route_outcome mws c req db)
      as [(e & req' & Hr) | [(req' & db1 & e & Hctl & Hr)
                            | (req' & db1 & r & Hctl & Hr)]];
      rewrite Hr in Hrun; injection Hrun as <- <-.
    + reflexivity.
    + exact (controller_error_keeps_db c req' db db1 e Hc Hctl).
    + now destruct (Hfail (controller_success c req' db db1 r Hc Hctl)).
  - unfold getUsers.
    destruct (route_outcome [] getAll req db)
      as [(e & req' & ->) | [(req' & db1 & e & Hctl & ->)
                            | (req' & db1 & r & Hctl & ->)]];
      [reflexivity| |].
    + eapply controller_error_keeps_db; [|exact Hctl]. cbn; auto.
    + unfold getAll, bind, ret in Hctl.
      destruct (getAllUsers_total db) as (v & Hv). rewrite Hv in Hctl.
      now injection Hctl as <- _.
  - unfold getUser.
    destruct (route_outcome [validate idParamSchema SParams] getById req db)
      as [(e & req' & ->) | [(req' & db1 & e & Hctl & ->)
                            | (req' & db1 & r & Hctl & ->)]];
      [reflexivity| |].
    + eapply controller_error_keeps_db; [|exact Hctl]. cbn; auto.
    + unfold getById, bind, ret in Hctl.
      destruct (getUserById _ db) as [db2 [e2|v]] eqn:E; [discriminate|].
      apply getUserById_keeps_db in E as ->. now injection Hctl as <- _.
Qed.

End Atomicity.

Section Accepted.
Context `{Runtime}.

(** The id schema accepts exactly the parameters whose [id] is a string of
    digits that denotes a positive number, and hands on what [Number] reads
    in it. *)
Lemma idParamSchema_accepts (v out : value) :
  Zod.safeParse idParamSchema v = inr out <->
  exists (ps : obj) (s : string),
    v = VObj ps /\ get "id" ps = VStr s
    /\ Str.matchesDigits s = true /\ 0 < Str.digitsValue s
    /\ out = VObj [("id", VNum (idNumber s))].
Proof.
  split.
  - destruct v as [| |b|k| |s|l|ps]; try (cbn; discriminate).
    destruct (get "id" ps) as [| |b|k| |s|l|l] eqn:E.
    6: { rewrite (idParamSchema_string ps s E), idNumber_gt0.
         destruct (Str.matchesDigits s) eqn:Ed; [|discriminate].
         destruct (Z.ltb_spec 0 (Str.digitsValue s)); [|discriminate].
         intros [= <-]. exists ps, s. auto. }
    all: unfold Zod.safeParse, idParamSchema; rewrite parse_Object;
      cbn [fieldResults map fst snd app]; rewrite E;
      cbn [Zod.parse Zod.mergeObject fst]; discriminate.
  - intros (ps & s & -> & E & Hd & Hpos & ->).
    rewrite (idParamSchema_string ps s E), idNumber_gt0, Hd.
    destruct (Z.ltb_spec 0 (Str.digitsValue s)); [reflexivity|lia].
Qed.

Lemma get_kept_same k a v (l : obj) :
  hasKey k l = false -> get k (kept (k, a, Zod.OK v) ++ l) = v.
Proof.
  intros Hl. pose proof (get_absent k l Hl) as Hg.
  destruct v; try destruct a; cbn [kept app get];
    rewrite ?String.eqb_refl; auto.
Qed.

End Accepted.

Section UpdateAccepted.
Context `{Runtime}.

Lemma parse_Optional inner p v :
  Zod.parse (Zod.Optional inner) p v
  = match v with
    | VUndef => (Zod.OK VUndef, [])
    | _ => Zod.parse inner p v
    end.
Proof. destruct v; reflexivity. Qed.

Lemma lengthRule_nil_iff lo hi a b s :
  lengthRule lo hi a b s = [] <-> (lo <= String.length s <= hi)%nat.
Proof.
  split; [apply lengthRule_nil|]. unfold lengthRule. intros [Hlo Hhi].
  destruct (Nat.ltb_spec (String.length s) lo); [lia|].
  destruct (Nat.ltb_spec hi (String.length s)); [lia|]. reflexivity.
Qed.

Lemma update_nome v r f :
  Zod.parse (field "nome" updateUserSchema) ["nome"] v = (r, f) ->
  forall out, r = Zod.OK out <->
              optionalRule nomeRule v = [] /\ out = mapStr Str.trim v.
Proof.
  cbn [field updateUserSchema List.find String.eqb Ascii.eqb Bool.eqb
       fst snd].
  rewrite parse_Optional. intros Hp out.
  destruct v as [| |b|k| |s|l|l];
    try (cbn [Zod.parse] in Hp; injection Hp as <- _;
         split; [discriminate|intros [[=] _]]).
  - injection Hp as <- _. split; [intros [= <-]|intros [_ ->]]; auto.
  - rewrite parse_min_max_trim in Hp. injection Hp as <- _.
    cbn [optionalRule nomeRule mapStr]. rewrite lengthRule_nil_iff.
    destruct (Nat.ltb_spec (String.length s) 3),
             (Nat.ltb_spec 100 (String.length s)); cbn [orb];
      (split; [intros [= <-]|intros [Hl ->]]); auto; try lia;
      try discriminate.
    all: try (split; [lia|reflexivity]).
Qed.

Lemma update_email v r f :
  Zod.parse (field "email" updateUserSchema) ["email"] v = (r, f) ->
  forall out, r = Zod.OK out <->
              optionalRule emailRule v = []
              /\ out = mapStr (fun s => Str.trim (Str.toLowerCase s)) v.
Proof.
  cbn [field updateUserSchema List.find String.eqb Ascii.eqb Bool.eqb
       fst snd].
  rewrite parse_Optional. intros Hp out.
  destruct v as [| |b|k| |s|l|l];
    try (cbn [Zod.parse] in Hp; injection Hp as <- _;
         split; [discriminate|intros [[=] _]]).
  - injection Hp as <- _. split; [intros [= <-]|intros [_ ->]]; auto.
  - rewrite parse_email_lower_trim in Hp.
    cbn [optionalRule emailRule mapStr]. cbn zeta in Hp.
    destruct (emailPattern s); injection Hp as <- _;
      (split; [intros [= <-]|intros [Hl ->]]); auto; discriminate.
Qed.

Lemma update_senha v r f :
  Zod.parse (field "senha" updateUserSchema) ["senha"] v = (r, f) ->
  forall out, r = Zod.OK out <->
              optionalRule senhaRule v = [] /\ out = v.
Proof.
  cbn [field updateUserSchema List.find String.eqb Ascii.eqb Bool.eqb
       fst snd].
  rewrite parse_Optional. intros Hp out.
  destruct v as [| |b|k| |s|l|l];
    try (cbn [Zod.parse] in Hp; injection Hp as <- _;
         split; [discriminate|intros [[=] _]]).
  - injection Hp as <- _. split; [intros [= <-]|intros [_ ->]]; auto.
  - rewrite parse_min_max in Hp. injection Hp as <- _.
    cbn [optionalRule senhaRule]. rewrite lengthRule_nil_iff.
    destruct (Nat.ltb_spec (String.length s) 6),
             (Nat.ltb_spec 100 (String.length s)); cbn [orb];
      (split; [intros [= <-]|intros [Hl ->]]); auto; try lia;
      try discriminate.
    all: try (split; [lia|reflexivity]).
Qed.

Lemma update_papel v r f :
  Zod.parse (field "papel" updateUserSchema) ["papel"] v = (r, f) ->
  forall out, r = Zod.OK out <-> papelRule v = [] /\ out = v.
Proof.
  cbn [field updateUserSchema List.find String.eqb Ascii.eqb Bool.eqb
       fst snd].
  rewrite parse_Optional. intros Hp out.
  destruct v as [| |b|k| |s|l|l];
    try (cbn [Zod.parse] in Hp; injection Hp as <- _;
         split; [discriminate|intros [[=] _]]).
  - injection Hp as <- _. split; [intros [= <-]|intros [_ ->]]; auto.
  - cbn [Zod.parse existsb] in Hp. cbn [papelRule]. unfold isRole.
    destruct (String.eqb s "PROFESSOR" || (String.eqb s "ADMIN" || false))
      eqn:E; rewrite orb_false_r in E; rewrite E; injection Hp as <- _;
      (split; [intros [= <-]|intros [Hl ->]]); auto; discriminate.
Qed.

Lemma update_foto v r f :
  Zod.parse (field "foto" updateUserSchema) ["foto"] v = (r, f) ->
  forall out, r = Zod.OK out <-> fotoRule v = [] /\ out = jsOr v VNull.
Proof.
  cbn [field updateUserSchema List.find String.eqb Ascii.eqb Bool.eqb
       fst snd].
  intros Hp out.
  destruct v as [| |b|k| |s|l|l];
    try (cbn [Zod.parse] in Hp; injection Hp as <- _;
         split; [discriminate|intros [[=] _]]).
  - cbn in Hp. injection Hp as <- _.
    split; [intros [= <-]|intros [_ ->]]; auto.
  - cbn in Hp. injection Hp as <- _.
    split; [intros [= <-]|intros [_ ->]]; auto.
  - cbn [Zod.parse] in Hp.
    pose proof (parse_url "URL da foto inválida" ["foto"] s) as Hu.
    cbn [Zod.parse] in Hu. rewrite Hu in Hp. cbn [fotoRule].
    destruct (urlParses s); injection Hp as <- _;
      (split; [intros [= <-]|intros [Hl ->]]); auto; discriminate.
Qed.

Lemma hasKey_iff_In k (o : obj) : hasKey k o = true <-> In k (map fst o).
Proof.
  split; [apply hasKey_In|].
  induction o as [|[k' v] o IH]; cbn; [tauto|].
  intros [->|Hin]; [now rewrite String.eqb_refl|].
  rewrite (IH Hin). apply orb_true_r.
Qed.

Lemma extraKeys_nil keys (o : obj) :
  Zod.extraKeys keys o = [] <->
  forall k, hasKey k o = true -> In k keys.
Proof.
  unfold Zod.extraKeys. split.
  - intros Hnil k Hk. apply hasKey_iff_In in Hk.
    destruct (existsb (String.eqb k) keys) eqn:E.
    + apply existsb_exists in E as (x & Hx & ->%String.eqb_eq). exact Hx.
    + assert (Hin : In k (List.filter
                            (fun k => negb (existsb (String.eqb k) keys))
                            (map fst o)))
        by (apply filter_In; split; [exact Hk|now rewrite E]).
      rewrite Hnil in Hin. destruct Hin.
  - intros Hall.
    destruct (List.filter _ (map fst o)) as [|k rest] eqn:E; [reflexivity|].
    assert (Hin : In k (k :: rest)) by (left; reflexivity).
    rewrite <- E in Hin. apply filter_In in Hin as [Hk Hneg].
    apply hasKey_iff_In, Hall in Hk. apply negb_true_iff in Hneg.
    assert (existsb (String.eqb k) keys = true).
    { apply existsb_exists. exists k. split; [exact Hk|].
      apply String.eqb_refl. }
    congruence.
Qed.

Lemma updateFieldViolations_nil o :
  updateFieldViolations o = [] <->
  optionalRule nomeRule (get "nome" o) = []
  /\ optionalRule emailRule (get "email" o) = []
  /\ optionalRule senhaRule (get "senha" o) = []
  /\ papelRule (get "papel" o) = []
  /\ fotoRule (get "foto" o) = [].
Proof.
  unfold updateFieldViolations. split.
  - intros Hnil.
    repeat (apply app_eq_nil in Hnil as [?%map_pair_nil Hnil]).
    apply map_pair_nil in Hnil. auto.
  - intros (-> & -> & -> & -> & ->). reflexivity.
Qed.

Lemma someDefined_app (a b : obj) :
  someDefined (VObj (a ++ b)) = someDefined (VObj a) || someDefined (VObj b).
Proof. cbn [someDefined]. apply existsb_app. Qed.

Lemma someDefined_kept k a v :
  someDefined (VObj (kept (k, a, Zod.OK v))) = defined v.
Proof. destruct v; try destruct a; reflexivity. Qed.

Lemma defined_mapStr f v : defined (mapStr f v) = defined v.
Proof. destruct v; reflexivity. Qed.

Lemma defined_jsOr_null v : defined (jsOr v VNull) = truthy v.
Proof.
  unfold jsOr. destruct (truthy v) eqn:E; [|reflexivity].
  destruct v; try reflexivity; discriminate.
Qed.

(** The normalized data of an update have a defined field exactly when the
    body gives one of the four other fields or a photo that is not the
    empty string. *)
Lemma someDefined_updateNormalized o :
  someDefined (VObj (updateNormalized o))
  = defined (get "nome" o) || defined (get "email" o)
    || defined (get "senha" o) || defined (get "papel" o)
    || truthy (get "foto" o).
Proof.
  unfold updateNormalized.
  rewrite !someDefined_app, !someDefined_kept, !defined_mapStr,
    defined_jsOr_null, !orb_assoc.
  reflexivity.
Qed.

Lemma updateNormalized_get o :
  get "nome" (updateNormalized o) = mapStr Str.trim (get "nome" o)
  /\ get "email" (updateNormalized o)
     = mapStr (fun s => Str.trim (Str.toLowerCase s)) (get "email" o)
  /\ get "senha" (updateNormalized o) = get "senha" o
  /\ get "papel" (updateNormalized o) = get "papel" o
  /\ get "foto" (updateNormalized o) = jsOr (get "foto" o) VNull.
Proof.
  unfold updateNormalized.
  assert (Hmiss : forall k k' a v (l : obj),
             k <> k' -> get k (kept (k', a, Zod.OK v) ++ l) = get k l).
  { intros. apply get_app_miss, hasKey_kept. assumption. }
  assert (Hlast : forall k a v, get k (kept (k, a, Zod.OK v)) = v).
  { intros k a v. rewrite <- (app_nil_r (kept _)).
    now apply get_kept_same. }
  assert (Hno : forall k k' a v (l : obj),
             k <> k' -> hasKey k l = false ->
             hasKey k (kept (k', a, Zod.OK v) ++ l) = false).
  { intros k k' a v l Hne Hl.
    pose proof (hasKey_kept k k' a (Zod.OK v) Hne) as Hk.
    induction (kept (k', a, Zod.OK v)) as [|[k0 v0] rest IH];
      cbn in *; [exact Hl|].
    destruct (String.eqb k k0); cbn in *; [discriminate|auto]. }
  repeat split.
  - apply get_kept_same. repeat (apply Hno; [discriminate|]).
    apply hasKey_kept. discriminate.
  - rewrite Hmiss by discriminate. apply get_kept_same.
    repeat (apply Hno; [discriminate|]). apply hasKey_kept. discriminate.
  - rewrite !Hmiss by discriminate. apply get_kept_same.
    repeat (apply Hno; [discriminate|]). apply hasKey_kept. discriminate.
  - rewrite !Hmiss by discriminate. apply get_kept_same.
    apply hasKey_kept. discriminate.
  - rewrite !Hmiss by discriminate. apply Hlast.
Qed.

(** The update schema accepts exactly the objects without an undeclared
    property, without a violated rule of a field, and with a defined field
    once normalized; it hands the normalized data downstream. *)
Lemma updateUserSchema_accepts (body data : value) :
  Zod.safeParse updateUserSchema body = inr data <->
  exists o : obj,
    body = VObj o
    /\ (forall k, hasKey k o = true ->
                  In k ["nome"; "email"; "senha"; "papel"; "foto"])
    /\ updateFieldViolations o = []
    /\ defined (get "nome" o) || defined (get "email" o)
       || defined (get "senha" o) || defined (get "papel" o)
       || truthy (get "foto" o) = true
    /\ data = VObj (updateNormalized o).
Proof.
  setoid_rewrite <- someDefined_updateNormalized.
  unfold Zod.safeParse, updateUserSchema. rewrite parse_Refine.
  destruct body as [| |b|k| |s|l|o];
    try (cbn; split; [discriminate|intros (? & [=] & _)]).
  rewrite parse_Object, mergeObject_spec.
  cbn [fieldResults map fst snd app].
  destruct (Zod.parse _ ["nome"] (get "nome" o)) as [r1 f1] eqn:E1.
  destruct (Zod.parse _ ["email"] (get "email" o)) as [r2 f2] eqn:E2.
  destruct (Zod.parse _ ["senha"] (get "senha" o)) as [r3 f3] eqn:E3.
  destruct (Zod.parse _ ["papel"] (get "papel" o)) as [r4 f4] eqn:E4.
  destruct (Zod.parse _ ["foto"] (get "foto" o)) as [r5 f5] eqn:E5.
  pose proof (update_nome _ _ _ E1) as K1.
  pose proof (update_email _ _ _ E2) as K2.
  pose proof (update_senha _ _ _ E3) as K3.
  pose proof (update_papel _ _ _ E4) as K4.
  pose proof (update_foto _ _ _ E5) as K5.
  cbn [map fst snd existsb forallb concat].
  unfold strictIssues.
  split.
  - destruct (Zod.extraKeys _ o) as [|x xs] eqn:Ex.
    2: { destruct (_ || _); [discriminate|].
         cbn [orb]. destruct (someDefined _); discriminate. }
    destruct r1 as [|v1|v1], r2 as [|v2|v2], r3 as [|v3|v3],
             r4 as [|v4|v4], r5 as [|v5|v5];
      cbn [isINVALID isOK orb andb negb]; try discriminate;
      try (destruct (someDefined _); discriminate).
    destruct (proj1 (K1 v1) eq_refl) as (R1 & ->).
    destruct (proj1 (K2 v2) eq_refl) as (R2 & ->).
    destruct (proj1 (K3 v3) eq_refl) as (R3 & ->).
    destruct (proj1 (K4 v4) eq_refl) as (R4 & ->).
    destruct (proj1 (K5 v5) eq_refl) as (R5 & ->).
    cbn [app]. rewrite app_nil_r.
    fold (updateNormalized o).
    destruct (someDefined (VObj (updateNormalized o))) eqn:Es;
      [|discriminate].
    intros [= <-]. exists o. split; [reflexivity|].
    split; [now apply extraKeys_nil|].
    split; [apply updateFieldViolations_nil; auto|]. auto.
  - intros (o' & [= <-] & Hkeys%extraKeys_nil
            & (R1 & R2 & R3 & R4 & R5)%updateFieldViolations_nil & Hs & ->).
    cbn [map fst] in Hkeys. rewrite Hkeys.
    rewrite (proj2 (K1 _) (conj R1 eq_refl)).
    rewrite (proj2 (K2 _) (conj R2 eq_refl)).
    rewrite (proj2 (K3 _) (conj R3 eq_refl)).
    rewrite (proj2 (K4 _) (conj R4 eq_refl)).
    rewrite (proj2 (K5 _) (conj R5 eq_refl)).
    cbn [isINVALID isOK orb andb negb app]. rewrite app_nil_r.
    fold (updateNormalized o). rewrite Hs. reflexivity.
Qed.

End UpdateAccepted.

Section Invariants.
Context `{Runtime}.

(** What a successful [create] of the client has done. *)
Lemma create_Some data keys db db' v :
  Prisma.create data keys db = (db', inr v) ->
  exists u,
    v = Prisma.project keys u
    /\ db' = {| users := <[nextId db := u]> (users db);
                nextId := nextId db + 1;
                clock := clock db + 1 |}
    /\ id u = nextId db
    /\ Prisma.byEmail (email u) db = None
    /\ Prisma.strArg (get "nome" data) = Prisma.Given (nome u)
    /\ Prisma.strArg (get "email" data) = Prisma.Given (email u)
    /\ Prisma.strArg (get "senha" data) = Prisma.Given (senha u)
    /\ papel u = Prisma.patch (Prisma.roleArg (get "papel" data)) PROFESSOR
    /\ foto u = Prisma.patch (Prisma.fotoArg (get "foto" data)) None
    /\ createdAt u = clock db /\ updatedAt u = clock db.
Proof.
  unfold Prisma.create.
  destruct (Prisma.strArg (get "nome" data)) as [|n|]; try discriminate.
  destruct (Prisma.strArg (get "email" data)) as [|e|]; try discriminate.
  destruct (Prisma.strArg (get "senha" data)) as [|s|]; try discriminate.
  destruct (Prisma.roleArg (get "papel" data)) as [|r|],
           (Prisma.fotoArg (get "foto" data)) as [|f|]; try discriminate.
  all: destruct (Prisma.byEmail e db) eqn:Ee; try discriminate.
  all: intros [= <- <-]; eexists; repeat split; cbn; auto.
Qed.

Lemma createUser_Some_create userData db db' v :
  createUser userData db = (db', inr v) ->
  exists data, Prisma.create data (Some userSelect) db = (db', inr v)
               /\ get "email" data = prop "email" userData
               /\ get "nome" data = prop "nome" userData
               /\ get "senha" data = prop "senha" userData.
Proof.
  unfold createUser, bind, throw, ret.
  destruct (emailExists (prop "email" userData) db) as [db1 [e|b]] eqn:Ee;
    apply emailExists_keeps_db in Ee as ->; [discriminate|].
  destruct b; [discriminate|].
  destruct (Prisma.create _ _ db) as [db2 [e|w]] eqn:Ec; [discriminate|].
  intros [= <- <-]. eexists. split; [exact Ec|]. repeat split.
Qed.

(** What a successful [update] of the client has done, with the state of
    the email it wrote. *)
Lemma update_Some_email n data keys db db' v :
  Prisma.update (VNum n) data keys db = (db', inr v) ->
  exists old u,
    users db !! n = Some old
    /\ db' = {| users := <[n := u]> (users db);
                nextId := nextId db;
                clock := clock db + 1 |}
    /\ id u = id old
    /\ (email u = email old
        \/ Prisma.byEmail (email u) db = None
        \/ exists other, Prisma.byEmail (email u) db = Some other
                         /\ id other = n).
Proof.
  intros Hu. pose proof Hu as Hu'.
  apply update_Some in Hu' as (old & u & Hold & _ & -> & ->).
  exists old. eexists. split; [exact Hold|]. split; [reflexivity|].
  split; [reflexivity|]. cbn [email].
  unfold Prisma.update in Hu. rewrite Hold in Hu.
  destruct (_ || _); [discriminate|].
  destruct (Prisma.strArg (get "email" data)) as [|e|]; cbn [Prisma.patch];
    auto.
  destruct (Prisma.byEmail e db) as [other|]; auto.
  destruct (Z.eqb_spec (id other) n); cbn [negb] in Hu; [|discriminate].
  right. right. eauto.
Qed.

Lemma insert_fresh_keeps_ok db u :
  dbOk db -> id u = nextId db -> Prisma.byEmail (email u) db = None ->
  dbOk {| users := <[nextId db := u]> (users db);
          nextId := nextId db + 1;
          clock := clock db + 1 |}.
Proof.
  intros [[Hpos Hrows] Huniq] Hid Hfree.
  rewrite byEmail_None in Hfree.
  split; [split|]; cbn [users nextId].
  - lia.
  - intros k x Hk. cbn [users] in Hk.
    destruct (decide (k = nextId db)) as [->|Hne].
    + rewrite lookup_insert_eq in Hk. injection Hk as <-. lia.
    + rewrite lookup_insert_ne in Hk by congruence.
      apply Hrows in Hk. lia.
  - intros k1 k2 u1 u2 H1 H2 He. cbn [users] in H1, H2.
    destruct (decide (k1 = nextId db)) as [->|N1],
             (decide (k2 = nextId db)) as [->|N2]; auto.
    + rewrite lookup_insert_eq in H1. injection H1 as <-.
      rewrite lookup_insert_ne in H2 by congruence.
      now destruct (Hfree k2 u2 H2).
    + rewrite lookup_insert_eq in H2. injection H2 as <-.
      rewrite lookup_insert_ne in H1 by congruence.
      now destruct (Hfree k1 u1 H1).
    + rewrite lookup_insert_ne in H1, H2 by congruence. eauto.
Qed.

Lemma replace_row_keeps_ok db n old u c :
  dbOk db -> users db !! n = Some old -> id u = id old ->
  (email u = email old
   \/ Prisma.byEmail (email u) db = None
   \/ exists other, Prisma.byEmail (email u) db = Some other
                    /\ id other = n) ->
  dbOk {| users := <[n := u]> (users db); nextId := nextId db; clock := c |}.
Proof.
  intros [[Hpos Hrows] Huniq] Hold Hid Hemail.
  assert (Hsame : forall k x, users db !! k = Some x ->
                              email x = email u -> k = n).
  { intros k x Hk He. destruct Hemail as [Ho | [Hnone | (other & Ho & Hi)]].
    - apply (Huniq k n x old Hk Hold). congruence.
    - rewrite byEmail_None in Hnone. now destruct (Hnone k x Hk).
    - apply byEmail_Some in Ho as (Heo & ko & Hko).
      pose proof (Hrows ko other Hko) as [Hido _].
      assert (ko = n) as -> by congruence.
      apply (Huniq k n x other Hk Hko). congruence. }
  split; [split|]; cbn [users nextId].
  - exact Hpos.
  - intros k x Hk. cbn [users] in Hk.
    destruct (decide (k = n)) as [->|Hne].
    + rewrite lookup_insert_eq in Hk. injection Hk as <-.
      destruct (Hrows n old Hold). split; [congruence|lia].
    + rewrite lookup_insert_ne in Hk by congruence. eauto.
  - intros k1 k2 u1 u2 H1 H2 He. cbn [users] in H1, H2.
    destruct (decide (k1 = n)) as [->|N1], (decide (k2 = n)) as [->|N2];
      auto.
    + rewrite lookup_insert_eq in H1. injection H1 as <-.
      rewrite lookup_insert_ne in H2 by congruence.
      symmetry. eapply Hsame; eauto.
    + rewrite lookup_insert_eq in H2. injection H2 as <-.
      rewrite lookup_insert_ne in H1 by congruence.
      eapply Hsame; eauto.
    + rewrite lookup_insert_ne in H1, H2 by congruence. eauto.
Qed.

Lemma delete_row_keeps_ok db n c :
  dbOk db ->
  dbOk {| users := delete n (users db); nextId := nextId db; clock := c |}.
Proof.
  intros [[Hpos Hrows] Huniq].
  split; [split|]; cbn [users nextId]; [exact Hpos| |].
  - intros k x Hk. cbn [users] in Hk.
    apply lookup_delete_Some in Hk as [_ Hk]. eauto.
  - intros k1 k2 u1 u2 H1 H2 He. cbn [users] in H1, H2.
    apply lookup_delete_Some in H1 as [_ H1].
    apply lookup_delete_Some in H2 as [_ H2]. eauto.
Qed.

Lemma controller_keeps_ok controller req db db' r :
  In controller [getAll; getById; create; update; remove] ->
  dbOk db -> controller req db = (db', r) -> dbOk db'.
Proof.
  intros Hin Hok Hrun. destruct r as [e|res].
  { now rewrite (controller_error_keeps_db _ _ _ _ _ Hin Hrun). }
  destruct Hin as [<- | [<- | [<- | [<- | [<- | []]]]]];
    unfold getAll, getById, create, update, remove, bind, ret in Hrun.
  - destruct (getAllUsers_total db) as (v & Hv). rewrite Hv in Hrun.
    now injection Hrun as <- _.
  - destruct (getUserById _ db) as [db1 [e|v]] eqn:E; [discriminate|].
    apply getUserById_keeps_db in E as ->. now injection Hrun as <- _.
  - destruct (createUser _ db) as [db1 [e|v]] eqn:E; [discriminate|].
    injection Hrun as <- _.
    apply createUser_Some_create in E as (data & Hc & _).
    apply create_Some in Hc as (u & _ & -> & Hid & Hfree & _).
    now apply insert_fresh_keeps_ok.
  - destruct (updateUser _ _ db) as [db1 [e|v]] eqn:E; [discriminate|].
    injection Hrun as <- _.
    apply updateUser_Some in E as (n & old & _ & _ & Hu).
    apply update_Some_email in Hu as (old' & u & Hold & -> & Hid & Hemail).
    now apply (replace_row_keeps_ok db n old' u).
  - destruct (deleteUser _ db) as [db1 [e|v]] eqn:E; [discriminate|].
    injection Hrun as <- _.
    apply deleteUser_Some in E as (n & u & _ & _ & _ & ->).
    now apply delete_row_keeps_ok.
Qed.

(** X7. Every route keeps the table well formed: identifiers below the
    sequence, rows under their own identifier, no email twice. *)
Theorem routes_keep_table_invariants (handler : Request -> DB -> DB * Response)
    (req : Request) (db db' : DB) (res : Response) :
  In handler [getUsers; getUser; postUsers; putUser; deleteUser_] ->
  dbOk db ->
  handler req db = (db', res) ->
  dbOk db'.
Proof.
  intros Hin Hok Hrun.
  destruct (handler_is_route handler Hin) as (mws & c & -> & Hc).
  destruct (route_outcome mws c req db)
    as [(e & req' & Hr) | [(req' & db1 & e & Hctl & Hr)
                          | (req' & db1 & r & Hctl & Hr)]];
    rewrite Hr in Hrun; injection Hrun as <- <-.
  - exact Hok.
  - exact (controller_keeps_ok c req' db db1 _ Hc Hok Hctl).
  - exact (controller_keeps_ok c req' db db1 _ Hc Hok Hctl).
Qed.

End Invariants.

Section Outcomes.
Context `{Runtime}.

(** [createUser] on data the create schema accepts: the conflict error when
    the email is taken, one new row otherwise. *)
Lemma createUser_accepted (o : obj) (db : DB) :
  createViolations o = [] ->
  exists e : string,
    get "email" (createNormalized o) = VStr e
    /\ match Prisma.byEmail e db with
       | Some _ =>
           createUser (VObj (createNormalized o)) db
           = (db, inl (Errors.ConflictError
                         (Some "Email já cadastrado no sistema")
                         (Some "email")))
       | None =>
           exists u,
             createUser (VObj (createNormalized o)) db
             = ({| users := <[nextId db := u]> (users db);
                   nextId := nextId db + 1;
                   clock := clock db + 1 |},
                inr (Prisma.project (Some userSelect) u))
             /\ id u = nextId db /\ email u = e
             /\ get "nome" (createNormalized o) = VStr (nome u)
       end.
Proof.
  intros Hnil.
  pose proof (createNormalized_get o Hnil) as (Gn & Ge & Gs & Gp & Gf).
  pose proof (createViolations_nil o Hnil) as (Rn & Re & Rs & Rp & Rf).
  apply nomeRule_nil in Rn as (n & Hn & _).
  apply emailRule_nil in Re as (e & He & _).
  apply senhaRule_nil in Rs as (s & Hs & _).
  rewrite Hn in Gn. rewrite He in Ge. rewrite Hs in Gs. cbn [mapStr] in *.
  exists (Str.trim (Str.toLowerCase e)). split; [exact Ge|].
  unfold createUser, bind. cbn [prop]. rewrite Ge, Gn, Gs, Gp, Gf.
  rewrite emailExists_string.
  destruct (Prisma.byEmail _ db) eqn:Eb; [reflexivity|].
  unfold Prisma.create, ret.
  cbn [get String.eqb Ascii.eqb Bool.eqb Prisma.strArg]. rewrite Eb.
  assert (Hrole : exists r,
             Prisma.roleArg (jsOr (get "papel" o) (VStr "PROFESSOR"))
             = Prisma.Given r).
  { apply papelRule_nil in Rp as [-> | [-> | ->]]; cbn; eauto. }
  destruct Hrole as (r & ->).
  assert (Hfoto : exists f,
             Prisma.fotoArg (jsOr (jsOr (get "foto" o) VNull) VNull)
             = Prisma.Given f).
  { rewrite jsOr_idem.
    apply fotoRule_nil in Rf as [-> | [-> | (url & -> & _)]];
      [cbn; eauto | cbn; eauto |].
    unfold jsOr. cbn [truthy]. destruct (String.eqb url ""); cbn; eauto. }
  destruct Hfoto as (f & ->).
  eexists. split; [reflexivity|]. cbn [id email nome].
  split; [reflexivity|]. split; reflexivity.
Qed.

Lemma dadosAtualizacao_accepted (o : obj) :
  updateFieldViolations o = [] ->
  Prisma.refused (Prisma.strArg
                    (get "nome" (dadosAtualizacao (VObj (updateNormalized o)))))
  || Prisma.refused (Prisma.strArg
                    (get "email" (dadosAtualizacao (VObj (updateNormalized o)))))
  || Prisma.refused (Prisma.strArg
                    (get "senha" (dadosAtualizacao (VObj (updateNormalized o)))))
  || Prisma.refused (Prisma.roleArg
                    (get "papel" (dadosAtualizacao (VObj (updateNormalized o)))))
  || Prisma.refused (Prisma.fotoArg
                    (get "foto" (dadosAtualizacao (VObj (updateNormalized o)))))
  = false.
Proof.
  intros (R1 & R2 & R3 & R4 & R5)%updateFieldViolations_nil.
  destruct (dadosAtualizacao_get (VObj (updateNormalized o)))
    as (-> & -> & -> & -> & ->).
  cbn [prop].
  destruct (updateNormalized_get o) as (-> & -> & -> & -> & ->).
  assert (H1 : forall rule f v,
             optionalRule rule v = [] ->
             (forall w, rule w = [] -> exists s, w = VStr s) ->
             Prisma.refused
               (Prisma.strArg (if truthy (mapStr f v) then mapStr f v
                               else VUndef)) = false).
  { intros rule f v Hr Hs. destruct v; try reflexivity;
      try (cbn in Hr; destruct (Hs _ Hr) as (? & [=]); fail).
    cbn. now destruct (negb _). }
  rewrite (H1 nomeRule _ _ R1), (H1 emailRule _ _ R2).
  2: { intros w Hw. apply emailRule_nil in Hw as (s & -> & _). eauto. }
  2: { intros w Hw. apply nomeRule_nil in Hw as (s & -> & _). eauto. }
  assert (H3 : Prisma.refused
                 (Prisma.strArg (if truthy (get "senha" o)
                                 then get "senha" o else VUndef)) = false).
  { destruct (get "senha" o) as [| |b|k| |s|l|l]; try reflexivity;
      try (cbn in R3; discriminate R3).
    cbn. now destruct (negb _). }
  rewrite H3.
  apply papelRule_nil in R4 as [-> | [-> | ->]];
    apply fotoRule_nil in R5 as [-> | [-> | (url & -> & _)]];
    try reflexivity.
  all: unfold jsOr; cbn [truthy]; destruct (negb (String.eqb url ""));
    reflexivity.
Qed.

End Outcomes.

Section Answers.
Context `{Runtime}.

Lemma bind_run {A B : Type} (m : M A) (k : A -> M B) db db1 r1 :
  m db = (db1, r1) ->
  bind m k db
  = match r1 with
    | inl e => (db1, inl e)
    | inr a => k a db1
    end.
Proof. intros Em. unfold bind. now rewrite Em. Qed.

Lemma getUserById_positive n db :
  0 < n ->
  getUserById (VNum n) db
  = (db, match Double.key n with
         | Some k =>
             match users db !! k with
             | Some u => inr (Prisma.project (Some userSelect) u)
             | None => inl (notFound (VNum n))
             end
         | None => inl Prisma.ValidationError
         end).
Proof.
  intros Hn. unfold getUserById. rewrite (idInvalid_positive n Hn).
  unfold bind, Prisma.findUniqueById. cbn [parseInt].
  destruct (Double.key n) as [k|]; [|reflexivity].
  destruct (users db !! k); reflexivity.
Qed.

Lemma deleteUser_positive n db :
  0 < n ->
  deleteUser (VNum n) db
  = match Double.key n with
    | Some k =>
        match users db !! k with
        | Some u =>
            ({| users := delete k (users db);
                nextId := nextId db;
                clock := clock db |},
             inr (Prisma.project (Some ["id"; "nome"; "email"]) u))
        | None => (db, inl (notFound (VNum n)))
        end
    | None => (db, inl Prisma.ValidationError)
    end.
Proof.
  intros Hn. unfold deleteUser. rewrite (idInvalid_positive n Hn).
  unfold bind, Prisma.findUniqueById, Prisma.delete_. cbn [parseInt].
  destruct (Double.key n) as [k|]; [|reflexivity].
  destruct (users db !! k) eqn:E; [|reflexivity].
  cbn [Prisma.project truthy negb]. rewrite E. reflexivity.
Qed.

(** [updateUser] with a positive identifier and data the update schema
    accepts: when [parseInt] finds no integer in the identifier, the error
    of the client; otherwise success, not found, or a conflict (its own or
    the one of the unique constraint). *)
Lemma updateUser_accepted n o db db' r :
  0 < n ->
  updateFieldViolations o = [] ->
  updateUser (VNum n) (VObj (updateNormalized o)) db = (db', r) ->
  match r with
  | inr _ => Double.key n <> None
  | inl e =>
      (Double.key n = None /\ e = Prisma.ValidationError)
      \/ (Double.key n <> None
          /\ (e = notFound (VNum n)
              \/ e = Errors.ConflictError
                       (Some "Email já está em uso por outro usuário")
                       (Some "email")
              \/ e = Prisma.KnownRequestError "P2002"
                       (VObj [("target", VArr [VStr "email"])])))
  end.
Proof.
  intros Hn Hnil. pose proof (dadosAtualizacao_accepted o Hnil) as Hok.
  unfold updateUser. rewrite (idInvalid_positive n Hn).
  unfold bind at 1. unfold Prisma.findUniqueById at 1. cbn [parseInt].
  destruct (Double.key n) as [k|] eqn:Ek.
  2: { intros [= <- <-]. auto. }
  assert (Hk : Some k <> None) by discriminate.
  destruct (users db !! k) as [old|] eqn:E.
  2: { cbn. intros [= <- <-]. auto. }
  cbn [Prisma.project truthy negb].
  assert (Hmail : exists db1 r1,
            (if truthy (prop "email" (VObj (updateNormalized o)))
                && strictNeq (prop "email" (VObj (updateNormalized o)))
                     (prop "email" (VObj (Prisma.record old)))
             then
               await emailJaExiste <-
                 emailExists (prop "email" (VObj (updateNormalized o))) in
               if emailJaExiste
               then throw (Errors.ConflictError
                             (Some "Email já está em uso por outro usuário")
                             (Some "email"))
               else ret tt
             else ret tt) db = (db1, r1)
            /\ db1 = db
            /\ (r1 = inr tt
                \/ r1 = inl (Errors.ConflictError
                               (Some "Email já está em uso por outro usuário")
                               (Some "email")))).
  { cbn [prop].
    destruct (updateNormalized_get o) as (_ & -> & _).
    apply updateFieldViolations_nil in Hnil as (_ & R2 & _).
    destruct (get "email" o) as [| |b|z| |s|l|l];
      try (cbn in R2; discriminate R2);
      [cbn; eexists _, _; split; [reflexivity|auto]|].
    cbn [mapStr].
    destruct (_ && _);
      [|eexists _, _; split; [reflexivity|auto]].
    unfold bind. rewrite emailExists_string.
    destruct (Prisma.byEmail _ db);
      eexists _, _; (split; [reflexivity|auto]). }
  destruct Hmail as (db1 & r1 & Em & -> & Hr1).
  rewrite (bind_run _ _ _ _ _ Em).
  destruct Hr1 as [-> | ->]; [|intros [= <- <-]; auto].
  unfold bind, Prisma.update. rewrite Hok, E.
  match goal with |- context [if ?c then _ else _] => destruct c end;
    unfold ret; intros [= <- <-]; auto 6.
Qed.

Lemma validate_id_string req :
  (exists d,
      validate idParamSchema SParams req
      = inl (Errors.ValidationError (Some "Dados de entrada inválidos")
               (Some d)))
  \/ (exists ps s,
         params req = VObj ps /\ get "id" ps = VStr s
         /\ Str.matchesDigits s = true /\ 0 < idNumber s
         /\ validate idParamSchema SParams req
            = inr (writeSource SParams (VObj [("id", VNum (idNumber s))])
                     req)).
Proof.
  unfold validate.
  destruct (Zod.safeParse idParamSchema _) as [found|out] eqn:E; [eauto|].
  apply idParamSchema_accepts in E as (ps & s & Hp & Hs & Hd & Hpos & ->).
  right. exists ps, s. cbn [readSource] in Hp.
  repeat split; auto. unfold idNumber. now apply DoubleFacts.round_pos.
Qed.

Lemma validate_id_outcome req :
  (exists d,
      validate idParamSchema SParams req
      = inl (Errors.ValidationError (Some "Dados de entrada inválidos")
               (Some d)))
  \/ (exists n,
         0 < n
         /\ validate idParamSchema SParams req
            = inr (writeSource SParams (VObj [("id", VNum n)]) req)).
Proof.
  destruct (validate_id_string req)
    as [(d & Hv) | (ps & s & _ & _ & _ & Hpos & Hv)]; eauto.
Qed.

Lemma answer_validation m d req :
  answer (errorHandler (Errors.ValidationError m d) req)
  = (400, VStr "VALIDATION_ERROR").
Proof. reflexivity. Qed.

Lemma answer_notFound v req :
  answer (errorHandler (notFound v) req) = (404, VStr "NOT_FOUND").
Proof. reflexivity. Qed.

Lemma answer_conflict m f req :
  answer (errorHandler (Errors.ConflictError m f) req)
  = (409, VStr "CONFLICT").
Proof. reflexivity. Qed.

Lemma answer_P2002 m req :
  answer (errorHandler (Prisma.KnownRequestError "P2002" m) req)
  = (409, VStr "CONFLICT").
Proof.
  unfold errorHandler, handlePrismaError. cbn.
  destruct development; reflexivity.
Qed.

Lemma status_validation m d req :
  status (errorHandler (Errors.ValidationError m d) req) = 400.
Proof. reflexivity. Qed.

Lemma status_notFound v req :
  status (errorHandler (notFound v) req) = 404.
Proof. reflexivity. Qed.

Lemma answer_clientError req :
  answer (errorHandler Prisma.ValidationError req)
  = (500, VStr "INTERNAL_ERROR").
Proof.
  unfold errorHandler. cbn. destruct development; reflexivity.
Qed.

(** X4. The answers of the five routes: for every request and every database
    the status and the error code of the response are one of the pairs
    listed for the route. The answer is 500 in one case only: the id is a
    string of digits so long that [Number] reads it as Infinity, which
    passes the schema and the guard of the service, and in which
    [parseInt] then finds no integer; GET and DELETE then always answer
    500. *)
Theorem routes_answer_table (req : Request) (db : DB) :
  answer (snd (getUsers req db)) = (200, VUndef)
  /\ In (answer (snd (getUser req db)))
        [ (200, VUndef); (400, VStr "VALIDATION_ERROR");
          (404, VStr "NOT_FOUND"); (500, VStr "INTERNAL_ERROR") ]
  /\ In (answer (snd (postUsers req db)))
        [ (201, VUndef); (400, VStr "VALIDATION_ERROR");
          (409, VStr "CONFLICT") ]
  /\ In (answer (snd (putUser req db)))
        [ (200, VUndef); (400, VStr "VALIDATION_ERROR");
          (404, VStr "NOT_FOUND"); (409, VStr "CONFLICT");
          (500, VStr "INTERNAL_ERROR") ]
  /\ In (answer (snd (deleteUser_ req db)))
        [ (200, VUndef); (400, VStr "VALIDATION_ERROR");
          (404, VStr "NOT_FOUND"); (500, VStr "INTERNAL_ERROR") ]
  /\ (forall handler,
         In handler [getUser; putUser; deleteUser_] ->
         status (snd (handler req db)) = 500 ->
         exists ps s,
           params req = VObj ps /\ get "id" ps = VStr s
           /\ Str.matchesDigits s = true
           /\ Double.infinity <= idNumber s)
  /\ (forall ps s,
         params req = VObj ps -> get "id" ps = VStr s ->
         Str.matchesDigits s = true ->
         Double.infinity <= idNumber s ->
         answer (snd (getUser req db)) = (500, VStr "INTERNAL_ERROR")
         /\ answer (snd (deleteUser_ req db)) = (500, VStr "INTERNAL_ERROR")
         /\ fst (getUser req db) = db /\ fst (deleteUser_ req db) = db).
Proof.
  assert (Hkey : forall s, 0 < idNumber s ->
                   (Double.key (idNumber s) = None
                    <-> Double.infinity <= idNumber s)).
  { intros s Hpos. rewrite DoubleFacts.key_None.
    rewrite Z.abs_eq by lia. reflexivity. }
  assert (Hget :
            In (answer (snd (getUser req db)))
               [ (200, VUndef); (400, VStr "VALIDATION_ERROR");
                 (404, VStr "NOT_FOUND"); (500, VStr "INTERNAL_ERROR") ]
            /\ (status (snd (getUser req db)) = 500 ->
                exists ps s,
                  params req = VObj ps /\ get "id" ps = VStr s
                  /\ Str.matchesDigits s = true
                  /\ Double.infinity <= idNumber s)).
  { unfold getUser. cbn [route].
    destruct (validate_id_string req)
      as [(d & ->) | (ps & s & Hp & Hs & Hd & Hn & ->)].
    { cbn [snd]. split; [rewrite answer_validation; cbn; auto|].
      rewrite status_validation. discriminate. }
    unfold getById, bind. cbn [params writeSource prop get String.eqb
                               Ascii.eqb Bool.eqb].
    rewrite (getUserById_positive _ db Hn).
    destruct (Double.key (idNumber s)) as [k|] eqn:Ek.
    - destruct (users db !! k); cbn [snd].
      + split; [cbn; auto|discriminate].
      + split; [rewrite answer_notFound; cbn; auto|discriminate].
    - cbn [snd]. split; [rewrite answer_clientError; cbn; auto|].
      intros _. exists ps, s. repeat split; auto. now apply Hkey. }
  assert (Hdel :
            In (answer (snd (deleteUser_ req db)))
               [ (200, VUndef); (400, VStr "VALIDATION_ERROR");
                 (404, VStr "NOT_FOUND"); (500, VStr "INTERNAL_ERROR") ]
            /\ (status (snd (deleteUser_ req db)) = 500 ->
                exists ps s,
                  params req = VObj ps /\ get "id" ps = VStr s
                  /\ Str.matchesDigits s = true
                  /\ Double.infinity <= idNumber s)).
  { unfold deleteUser_. cbn [route].
    destruct (validate_id_string req)
      as [(d & ->) | (ps & s & Hp & Hs & Hd & Hn & ->)].
    { cbn [snd]. split; [rewrite answer_validation; cbn; auto|].
      rewrite status_validation. discriminate. }
    unfold remove, bind. cbn [params writeSource prop get String.eqb
                              Ascii.eqb Bool.eqb].
    rewrite (deleteUser_positive _ db Hn).
    destruct (Double.key (idNumber s)) as [k|] eqn:Ek.
    - destruct (users db !! k); cbn [snd].
      + split; [cbn; auto|discriminate].
      + split; [rewrite answer_notFound; cbn; auto|discriminate].
    - cbn [snd]. split; [rewrite answer_clientError; cbn; auto|].
      intros _. exists ps, s. repeat split; auto. now apply Hkey. }
  assert (Hput :
            In (answer (snd (putUser req db)))
               [ (200, VUndef); (400, VStr "VALIDATION_ERROR");
                 (404, VStr "NOT_FOUND"); (409, VStr "CONFLICT");
                 (500, VStr "INTERNAL_ERROR") ]
            /\ (status (snd (putUser req db)) = 500 ->
                exists ps s,
                  params req = VObj ps /\ get "id" ps = VStr s
                  /\ Str.matchesDigits s = true
                  /\ Double.infinity <= idNumber s)).
  { unfold putUser. cbn [route].
    destruct (validate_id_string req)
      as [(d & ->) | (ps & s & Hp & Hs & Hd & Hn & ->)].
    { cbn [snd]. split; [rewrite answer_validation; cbn; auto|].
      rewrite status_validation. discriminate. }
    unfold validate. cbn [readSource body writeSource].
    destruct (Zod.safeParse updateUserSchema (body req))
      as [found|data] eqn:E.
    { cbn [snd]. split; [rewrite answer_validation; cbn; auto|].
      rewrite status_validation. discriminate. }
    apply updateUserSchema_accepts in E as (o & _ & _ & Hnil & _ & ->).
    unfold update, bind. cbn [params body prop get String.eqb
                              Ascii.eqb Bool.eqb].
    destruct (updateUser (VNum (idNumber s)) (VObj (updateNormalized o)) db)
      as [db' [e|v]] eqn:Eu.
    2: { cbn [snd]. split; [left; destruct v; reflexivity|discriminate]. }
    apply (updateUser_accepted _ o db db' _ Hn Hnil) in Eu.
    cbn [snd].
    destruct Eu as [[Ek ->] | [_ [-> | [-> | ->]]]].
    - split; [rewrite answer_clientError; cbn; auto 6|].
      intros _. exists ps, s. repeat split; auto. now apply Hkey.
    - split; [rewrite answer_notFound; cbn; auto|discriminate].
    - split; [rewrite answer_conflict; cbn; auto|discriminate].
    - split; [rewrite answer_P2002; cbn; auto 6|].
      intros H500.
      assert (Hs' : fst (answer (errorHandler
                                   (Prisma.KnownRequestError "P2002"
                                      (VObj [("target", VArr [VStr "email"])]))
                                   {| method := method req;
                                      path := path req;
                                      params := VObj [("id", VNum (idNumber s))];
                                      query := query req;
                                      body := VObj (updateNormalized o);
                                      now := now req |})) = 500)
        by exact H500.
      rewrite answer_P2002 in Hs'. discriminate Hs'. }
  split; [reflexivity|]. split; [exact (proj1 Hget)|]. split.
  { unfold postUsers. cbn [route]. unfold validate. cbn [readSource].
    destruct (Zod.safeParse createUserSchema (body req)) as [found|data] eqn:E;
      [cbn [snd]; rewrite answer_validation; cbn; auto|].
    apply createUserSchema_accepts in E as (o & _ & Hnil & ->).
    unfold create, bind. cbn [body writeSource].
    destruct (createUser_accepted o db Hnil) as (e & _ & Hc).
    destruct (Prisma.byEmail e db).
    + rewrite Hc. cbn [snd]. rewrite answer_conflict. cbn; auto.
    + destruct Hc as (u & -> & _). cbn; auto. }
  split; [exact (proj1 Hput)|]. split; [exact (proj1 Hdel)|]. split.
  { intros handler [<- | [<- | [<- | []]]];
      [exact (proj2 Hget) | exact (proj2 Hput) | exact (proj2 Hdel)]. }
  intros ps s Hp Hs Hd Hinf.
  assert (Hpos : 0 < idNumber s).
  { pose proof DoubleFacts.exponential_infinity.
    unfold Double.exponential in *. lia. }
  pose proof (validate_id_accepts req ps s Hp Hs Hd Hpos) as Hv.
  apply Hkey in Hinf; [|exact Hpos].
  unfold getUser, deleteUser_. cbn [route]. rewrite Hv.
  unfold getById, remove, bind.
  cbn [params writeSource prop get String.eqb Ascii.eqb Bool.eqb].
  rewrite (getUserById_positive _ db Hpos),
    (deleteUser_positive _ db Hpos), Hinf.
  cbn [fst snd]. rewrite answer_clientError. auto.
Qed.

End Answers.

Section Listing.
Context `{Runtime}.

Lemma insertDesc_Permutation u l :
  Permutation (Prisma.insertDesc u l) (u :: l).
Proof.
  induction l as [|x l IH]; cbn [Prisma.insertDesc]; [reflexivity|].
  destruct (createdAt x <=? createdAt u); [reflexivity|].
  rewrite IH. apply perm_swap.
Qed.

Lemma insertDesc_newestFirst u l :
  newestFirst l -> newestFirst (Prisma.insertDesc u l).
Proof.
  unfold newestFirst. induction 1 as [|x l Hl IH Hx]; cbn [Prisma.insertDesc].
  { repeat constructor. }
  destruct (Z.leb_spec (createdAt x) (createdAt u)) as [Hle|Hgt].
  - constructor; [constructor; assumption|].
    constructor; [exact Hle|].
    rewrite List.Forall_forall in Hx |- *. intros y Hy.
    specialize (Hx y Hy). lia.
  - constructor; [exact IH|].
    rewrite List.Forall_forall in Hx |- *. intros y Hy.
    apply (Permutation_in _ (insertDesc_Permutation u l)) in Hy.
    destruct Hy as [<- | Hy]; [lia|auto].
Qed.

Lemma sorted_rows l :
  Permutation (foldr Prisma.insertDesc [] l) l
  /\ newestFirst (foldr Prisma.insertDesc [] l).
Proof.
  induction l as [|u l [IHp IHs]]; cbn [foldr].
  { split; [reflexivity|constructor]. }
  split; [|now apply insertDesc_newestFirst].
  rewrite insertDesc_Permutation. now constructor.
Qed.

(** X9. GET /users answers 200 with every stored user once, from the newest to
    the oldest, and with their number as [total]; the database is left as
    it was. *)
Theorem getUsers_lists_every_user (req : Request) (db : DB) :
  exists l : list User,
    getUsers req db
    = (db, {| status := 200;
              json := VObj [ ("success", VBool true);
                             ("data",
                              VArr (map (Prisma.project (Some userSelect))
                                        l));
                             ("total",
                              VNum (Z.of_nat (size (users db)))) ] |})
    /\ Permutation l (map snd (map_to_list (users db)))
    /\ newestFirst l.
Proof.
  exists (foldr Prisma.insertDesc [] (Prisma.rows db)).
  destruct (sorted_rows (Prisma.rows db)) as [Hp Hs].
  split; [|split; [exact Hp|exact Hs]].
  unfold getUsers. cbn [route]. unfold getAll, getAllUsers, bind,
    Prisma.findMany, ret. cbn [arrayLength jsonObj List.filter snd].
  rewrite length_map, (Permutation_length Hp). unfold Prisma.rows.
  rewrite length_map, length_map_to_list. reflexivity.
Qed.

End Listing.

Section RoundTrips.
Context `{Runtime}.

(** The error handler reads the path and the time of the request only. *)
Lemma errorHandler_writeSource e src data req :
  errorHandler e (writeSource src data req) = errorHandler e req.
Proof. destruct src; reflexivity. Qed.

Lemma postUsers_rejected req db found :
  Zod.safeParse createUserSchema (body req) = inl found ->
  postUsers req db
  = (db, errorHandler
           (Errors.ValidationError (Some "Dados de entrada inválidos")
              (Some (map detailOf found))) req).
Proof.
  intros E. unfold postUsers. cbn [route]. unfold validate.
  cbn [readSource]. now rewrite E.
Qed.

Lemma postUsers_accepted req db o :
  body req = VObj o -> createViolations o = [] ->
  exists e : string,
    get "email" (createNormalized o) = VStr e
    /\ match Prisma.byEmail e db with
       | Some _ =>
           postUsers req db
           = (db, errorHandler
                    (Errors.ConflictError
                       (Some "Email já cadastrado no sistema")
                       (Some "email")) req)
       | None =>
           exists u,
             postUsers req db
             = ({| users := <[nextId db := u]> (users db);
                   nextId := nextId db + 1;
                   clock := clock db + 1 |},
                {| status := 201;
                   json := VObj [ ("success", VBool true);
                                  ("message",
                                   VStr "Usuário criado com sucesso");
                                  ("data",
                                   Prisma.project (Some userSelect) u) ] |})
             /\ id u = nextId db /\ email u = e
             /\ get "nome" (createNormalized o) = VStr (nome u)
       end.
Proof.
  intros Hb Hnil.
  assert (E : Zod.safeParse createUserSchema (body req)
              = inr (VObj (createNormalized o))).
  { apply createUserSchema_accepts. exists o. auto. }
  destruct (createUser_accepted o db Hnil) as (e & He & Hc).
  exists e. split; [exact He|].
  unfold postUsers. cbn [route]. unfold validate. cbn [readSource].
  rewrite E. unfold create, bind. cbn [body writeSource].
  destruct (Prisma.byEmail e db).
  - rewrite Hc. reflexivity.
  - destruct Hc as (u & -> & Hid & Hm & Hnome). exists u. auto.
Qed.

Lemma getUser_digits req db ps s :
  params req = VObj ps -> get "id" ps = VStr s ->
  Str.matchesDigits s = true -> 0 < idNumber s ->
  getUser req db
  = (db, match idRow s with
         | Some k =>
             match users db !! k with
             | Some u =>
                 {| status := 200;
                    json := VObj [ ("success", VBool true);
                                   ("data",
                                    Prisma.project (Some userSelect) u) ] |}
             | None => errorHandler (notFound (VNum (idNumber s))) req
             end
         | None => errorHandler Prisma.ValidationError req
         end).
Proof.
  intros Hp Hid Hd Hpos. unfold getUser. cbn [route].
  rewrite (validate_id_accepts req ps s Hp Hid Hd Hpos).
  unfold getById, bind. cbn [params writeSource prop get String.eqb
                             Ascii.eqb Bool.eqb].
  rewrite (getUserById_positive _ db Hpos). unfold idRow.
  destruct (Double.key (idNumber s)) as [k|]; [|reflexivity].
  destruct (users db !! k); reflexivity.
Qed.

(** X10. A user created through POST /users can be read back: in a well-formed
    database, after an answer 201 the data of the answer carry the new
    identifier, and GET /users/:id answers 200 with the same data for every
    string of digits in which the service reads that identifier, as it
    does in the decimal digits of an identifier up to 2^53. *)
Theorem created_user_can_be_read (req : Request) (db db' : DB)
    (res : Response) :
  storeOk db ->
  postUsers req db = (db', res) ->
  status res = 201 ->
  exists n : Z,
    prop "id" (prop "data" (json res)) = VNum n
    /\ (forall req2 ps s,
           params req2 = VObj ps -> get "id" ps = VStr s ->
           Str.matchesDigits s = true -> idRow s = Some n ->
           getUser req2 db'
           = (db', {| status := 200;
                      json := VObj [ ("success", VBool true);
                                     ("data", prop "data" (json res)) ] |}))
    /\ (n <= Double.maxSafe ->
        forall s, Str.matchesDigits s = true -> Str.digitsValue s = n ->
                  idRow s = Some n).
Proof.
  intros [Hpos _] Hpost H201.
  destruct (Zod.safeParse createUserSchema (body req)) as [found|data] eqn:E.
  { rewrite (postUsers_rejected req db found E) in Hpost.
    injection Hpost as <- <-. discriminate H201. }
  apply createUserSchema_accepts in E as (o & Hb & Hnil & _).
  destruct (postUsers_accepted req db o Hb Hnil) as (e & _ & Hc).
  destruct (Prisma.byEmail e db).
  { rewrite Hc in Hpost. injection Hpost as <- <-. discriminate H201. }
  destruct Hc as (u & Hc & Hid & _). rewrite Hc in Hpost.
  injection Hpost as <- <-. exists (nextId db).
  split; [cbn; now rewrite Hid|]. split.
  - intros req2 ps s Hp Hs Hd Hrow.
    rewrite (getUser_digits req2 _ ps s Hp Hs Hd)
      by (apply (idRow_positive s (nextId db)); auto).
    rewrite Hrow. cbn [users]. rewrite lookup_insert_eq. reflexivity.
  - intros Hsafe s Hd Hv. rewrite <- Hv in *.
    now apply idRow_safe.
Qed.

End RoundTrips.

Section RoundTrips2.
Context `{Runtime}.

Lemma getUser_validated req db n :
  0 < n ->
  validate idParamSchema SParams req
  = inr (writeSource SParams (VObj [("id", VNum n)]) req) ->
  getUser req db
  = (db, match Double.key n with
         | Some k =>
             match users db !! k with
             | Some u =>
                 {| status := 200;
                    json := VObj [ ("success", VBool true);
                                   ("data",
                                    Prisma.project (Some userSelect) u) ] |}
             | None => errorHandler (notFound (VNum n)) req
             end
         | None => errorHandler Prisma.ValidationError req
         end).
Proof.
  intros Hn Hv. unfold getUser. cbn [route]. rewrite Hv.
  unfold getById, bind. cbn [params writeSource prop get String.eqb
                             Ascii.eqb Bool.eqb].
  rewrite (getUserById_positive n db Hn).
  destruct (Double.key n) as [k|]; [|reflexivity].
  destruct (users db !! k); reflexivity.
Qed.

Lemma deleteUser__validated req db n :
  0 < n ->
  validate idParamSchema SParams req
  = inr (writeSource SParams (VObj [("id", VNum n)]) req) ->
  deleteUser_ req db
  = match Double.key n with
    | Some k =>
        match users db !! k with
        | Some u =>
            ({| users := delete k (users db);
                nextId := nextId db;
                clock := clock db |},
             {| status := 200;
                json := VObj [ ("success", VBool true);
                               ("message",
                                VStr "Usuário removido com sucesso");
                               ("data",
                                VObj [ ("id", VNum (id u));
                                       ("nome", VStr (nome u));
                                       ("email", VStr (email u)) ]) ] |})
        | None => (db, errorHandler (notFound (VNum n)) req)
        end
    | None => (db, errorHandler Prisma.ValidationError req)
    end.
Proof.
  intros Hn Hv. unfold deleteUser_. cbn [route]. rewrite Hv.
  unfold remove, bind. cbn [params writeSource prop get String.eqb
                            Ascii.eqb Bool.eqb].
  rewrite (deleteUser_positive n db Hn).
  destruct (Double.key n) as [k|]; [|reflexivity].
  destruct (users db !! k); reflexivity.
Qed.

Lemma status_clientError req :
  status (errorHandler Prisma.ValidationError req) = 500.
Proof. unfold errorHandler. cbn. reflexivity. Qed.

(** X12. A user removed through DELETE /users/:id is gone: after an answer 200
    the row that the service read in the id is deleted and every other row
    is as it was, the answer carries the identifier, the name and the email
    of the removed row, and the same request sent again, as a GET or as a
    DELETE, is answered 404 NOT_FOUND and changes nothing. *)
Theorem deleted_user_is_gone (req : Request) (db db' : DB) (res : Response) :
  deleteUser_ req db = (db', res) ->
  status res = 200 ->
  exists (x k : Z) (old : User),
    Double.key x = Some k
    /\ users db !! k = Some old
    /\ users db' !! k = None
    /\ (forall j, j <> k -> users db' !! j = users db !! j)
    /\ prop "data" (json res)
       = VObj [ ("id", VNum (id old)); ("nome", VStr (nome old));
                ("email", VStr (email old)) ]
    /\ getUser req db' = (db', errorHandler (notFound (VNum x)) req)
    /\ deleteUser_ req db' = (db', errorHandler (notFound (VNum x)) req)
    /\ answer (errorHandler (notFound (VNum x)) req)
       = (404, VStr "NOT_FOUND").
Proof.
  intros Hdel H200.
  destruct (validate_id_outcome req) as [(d & Hv) | (n & Hn & Hv)].
  { unfold deleteUser_ in Hdel. cbn [route] in Hdel. rewrite Hv in Hdel.
    injection Hdel as <- <-. discriminate H200. }
  rewrite (deleteUser__validated req db n Hn Hv) in Hdel.
  destruct (Double.key n) as [k|] eqn:Ek.
  2: { injection Hdel as <- <-. rewrite status_clientError in H200.
       discriminate H200. }
  destruct (users db !! k) as [old|] eqn:E.
  2: { injection Hdel as <- <-. discriminate H200. }
  injection Hdel as <- <-. exists n, k, old.
  split; [exact Ek|]. split; [exact E|]. cbn [users].
  split; [apply lookup_delete_eq|].
  split; [intros j Hj; now apply lookup_delete_ne|].
  split; [reflexivity|].
  rewrite (getUser_validated req _ n Hn Hv),
    (deleteUser__validated req _ n Hn Hv), Ek.
  cbn [users]. rewrite lookup_delete_eq. auto.
Qed.

End RoundTrips2.

Section UpdateEmail.
Context `{Runtime}.

(** The email that accepted update data carry: none, or a string. *)
Lemma updateNormalized_email o :
  updateFieldViolations o = [] ->
  get "email" (updateNormalized o) = VUndef
  \/ exists e, get "email" (updateNormalized o) = VStr e.
Proof.
  intros (_ & R2 & _)%updateFieldViolations_nil.
  destruct (updateNormalized_get o) as (_ & -> & _).
  destruct (get "email" o); try (cbn in R2; discriminate R2); cbn; eauto.
Qed.

(** [updateUser] on an existing user and accepted data: the conflict error
    when the data carry a non-empty email that is not the one of the user
    and that a stored user has, the update of the client otherwise. *)
Lemma updateUser_existing n o db old :
  0 < n -> n < Double.exponential -> users db !! n = Some old ->
  updateFieldViolations o = [] ->
  updateUser (VNum n) (VObj (updateNormalized o)) db
  = match get "email" (updateNormalized o) with
    | VStr e =>
        if negb (String.eqb e "") && negb (String.eqb e (email old))
        then match Prisma.byEmail e db with
             | Some _ =>
                 (db, inl (Errors.ConflictError
                             (Some "Email já está em uso por outro usuário")
                             (Some "email")))
             | None =>
                 Prisma.update (VNum n)
                   (dadosAtualizacao (VObj (updateNormalized o)))
                   (Some (userSelect ++ ["updatedAt"])) db
             end
        else Prisma.update (VNum n)
               (dadosAtualizacao (VObj (updateNormalized o)))
               (Some (userSelect ++ ["updatedAt"])) db
    | _ => Prisma.update (VNum n)
             (dadosAtualizacao (VObj (updateNormalized o)))
             (Some (userSelect ++ ["updatedAt"])) db
    end.
Proof.
  intros Hn Hlt E Hnil. unfold updateUser.
  rewrite (idInvalid_positive n Hn), (parseInt_below n Hn Hlt).
  assert (Hfind : Prisma.findUniqueById (VNum n) None db
                  = (db, inr (VObj (Prisma.record old)))).
  { unfold Prisma.findUniqueById. now rewrite E. }
  rewrite (bind_run _ _ _ _ _ Hfind). cbn [truthy negb prop].
  set (upd := Prisma.update _ _ _).
  assert (Hupd : forall m : M unit,
             m db = (db, inr tt) ->
             (await _ <- m in await usuarioAtualizado <- upd in
              ret usuarioAtualizado) db = upd db).
  { intros m Hm. rewrite (bind_run _ _ _ _ _ Hm). unfold bind, ret.
    destruct (upd db) as [db1 [e1|v1]]; reflexivity. }
  destruct (updateNormalized_email o Hnil) as [-> | (e & ->)].
  { apply Hupd. reflexivity. }
  cbn [truthy strictNeq get Prisma.record String.eqb Ascii.eqb Bool.eqb].
  destruct (negb (String.eqb e "") && negb (String.eqb e (email old)));
    [|apply Hupd; reflexivity].
  destruct (Prisma.byEmail e db) eqn:Eb.
  - unfold bind at 1. unfold bind at 1. rewrite emailExists_string, Eb.
    reflexivity.
  - apply Hupd. unfold bind. now rewrite emailExists_string, Eb.
Qed.

(** The update of the client on an existing row and accepted data
    succeeds when the email it is given is free or the one of a row with
    the identifier. *)
Lemma update_accepted_succeeds n o db old :
  users db !! n = Some old ->
  updateFieldViolations o = [] ->
  (forall e other,
      get "email" (dadosAtualizacao (VObj (updateNormalized o))) = VStr e ->
      Prisma.byEmail e db = Some other -> id other = n) ->
  exists u,
    Prisma.update (VNum n) (dadosAtualizacao (VObj (updateNormalized o)))
      (Some (userSelect ++ ["updatedAt"])) db
    = ({| users := <[n := u]> (users db);
          nextId := nextId db;
          clock := clock db + 1 |},
       inr (Prisma.project (Some (userSelect ++ ["updatedAt"])) u))
    /\ id u = id old.
Proof.
  intros E Hnil Hfree. unfold Prisma.update.
  rewrite (dadosAtualizacao_accepted o Hnil), E.
  destruct (Prisma.strArg (get "email" _)) as [|e|] eqn:Ea.
  1, 3: eexists; split; reflexivity.
  destruct (Prisma.byEmail e db) as [other|] eqn:Eb;
    [|eexists; split; reflexivity].
  assert (id other = n) as ->.
  { apply (Hfree e other); [|exact Eb].
    destruct (get "email" _); try discriminate. now injection Ea as ->. }
  rewrite Z.eqb_refl. eexists; split; reflexivity.
Qed.

(** X13. The email rule of [updateUser], for an existing user, with an
    identifier below 10^21, and data the update schema accepts, in a
    well-formed database with unique emails:
    a non-empty email that differs from the one of the user and belongs to
    a stored user is refused with the conflict error (409, CONFLICT) and
    nothing is written; in every other case, the own email of the user
    included, the update succeeds. *)
Theorem updateUser_email_must_be_free (body data : value) (n : Z)
    (old : User) (db : DB) :
  dbOk db -> users db !! n = Some old -> n < Double.exponential ->
  Zod.safeParse updateUserSchema body = inr data ->
  (forall e, prop "email" data = VStr e -> e <> "" -> e <> email old ->
             Prisma.byEmail e db <> None ->
             updateUser (VNum n) data db
             = (db, inl (Errors.ConflictError
                           (Some "Email já está em uso por outro usuário")
                           (Some "email"))))
  /\ ((forall e, prop "email" data = VStr e ->
                 e = "" \/ e = email old \/ Prisma.byEmail e db = None) ->
      exists u,
        updateUser (VNum n) data db
        = ({| users := <[n := u]> (users db);
              nextId := nextId db;
              clock := clock db + 1 |},
           inr (Prisma.project (Some (userSelect ++ ["updatedAt"])) u))
        /\ id u = n).
Proof.
  intros [[Hpos Hrows] Huniq] E Hlt
    (o & _ & _ & Hnil & _ & ->)%updateUserSchema_accepts.
  destruct (Hrows n old E) as [Hid Hn].
  assert (Hn' : 0 < n) by lia.
  rewrite (updateUser_existing n o db old Hn' Hlt E Hnil). cbn [prop].
  assert (Hdados : get "email" (dadosAtualizacao (VObj (updateNormalized o)))
                   = if truthy (get "email" (updateNormalized o))
                     then get "email" (updateNormalized o) else VUndef).
  { now destruct (dadosAtualizacao_get (VObj (updateNormalized o)))
      as (_ & -> & _). }
  split.
  - intros e -> He Hold Hsome.
    destruct (String.eqb_spec e ""); [contradiction|].
    destruct (String.eqb_spec e (email old)); [contradiction|].
    cbn [negb andb]. destruct (Prisma.byEmail e db); [reflexivity|].
    contradiction.
  - intros Hfree.
    assert (Hgo : exists u,
               Prisma.update (VNum n)
                 (dadosAtualizacao (VObj (updateNormalized o)))
                 (Some (userSelect ++ ["updatedAt"])) db
               = ({| users := <[n := u]> (users db);
                     nextId := nextId db;
                     clock := clock db + 1 |},
                  inr (Prisma.project (Some (userSelect ++ ["updatedAt"])) u))
               /\ id u = n).
    { destruct (update_accepted_succeeds n o db old E Hnil)
        as (u & Hu & Hidu); [|exists u; split; [exact Hu|congruence]].
      intros e other He Hother. rewrite Hdados in He.
      destruct (get "email" (updateNormalized o)) eqn:Eg;
        try (destruct (truthy _); discriminate He).
      cbn [truthy] in He. destruct (String.eqb_spec s ""); [discriminate|].
      injection He as ->.
      apply byEmail_Some in Hother as [Hm (k & Hk)].
      destruct (Hfree e eq_refl) as [-> | [-> | Hnone]];
        [contradiction | | ].
      - rewrite (Huniq k n other old Hk E Hm) in Hk.
        rewrite E in Hk. injection Hk as <-. exact Hid.
      - exfalso. rewrite byEmail_None in Hnone. exact (Hnone k other Hk Hm). }
    destruct (get "email" (updateNormalized o)) as [| |b|z| |e|l|l] eqn:Eg;
      try exact Hgo.
    destruct (negb (String.eqb e "") && negb (String.eqb e (email old))) eqn:Ec;
      [|exact Hgo].
    destruct (Prisma.byEmail e db) eqn:Eb; [|exact Hgo].
    apply andb_prop in Ec as [E1 E2].
    apply negb_true_iff in E1, E2.
    apply String.eqb_neq in E1, E2.
    destruct (Hfree e eq_refl) as [-> | [-> | Hnone]]; congruence.
Qed.

End UpdateEmail.

Section More.
Context `{Runtime}.

(** X11. What PUT /users/:id answers is what is stored: after an answer 200 the
    data of the answer are the row now stored under the identifier, with
    its update time, and the same request sent as a GET answers 200 with
    that row. *)
Theorem updated_user_can_be_read (req : Request) (db db' : DB)
    (res : Response) :
  putUser req db = (db', res) ->
  status res = 200 ->
  exists (n : Z) (u : User),
    users db' !! n = Some u
    /\ prop "data" (json res)
       = Prisma.project (Some (userSelect ++ ["updatedAt"])) u
    /\ getUser req db'
       = (db', {| status := 200;
                  json := VObj [ ("success", VBool true);
                                 ("data",
                                  Prisma.project (Some userSelect) u) ] |}).
Proof.
  intros Hput H200. unfold putUser in Hput. cbn [route] in Hput.
  destruct (validate_id_outcome req) as [(d & Hv) | (n & Hn & Hv)];
    rewrite Hv in Hput.
  { injection Hput as <- <-. discriminate H200. }
  unfold validate at 1 in Hput. cbn [readSource body writeSource] in Hput.
  destruct (Zod.safeParse updateUserSchema (body req)) as [found|data] eqn:E.
  { injection Hput as <- <-. discriminate H200. }
  apply updateUserSchema_accepts in E as (o & _ & _ & Hnil & _ & ->).
  unfold update, bind in Hput.
  cbn [params body prop get String.eqb Ascii.eqb Bool.eqb] in Hput.
  destruct (updateUser (VNum n) (VObj (updateNormalized o)) db)
    as [db1 [e|v]] eqn:Eu.
  { pose proof (updateUser_accepted n o db db1 _ Hn Hnil Eu) as He.
    injection Hput as <- <-. exfalso.
    assert (Hs : fst (answer (errorHandler e
                        {| method := method req; path := path req;
                           params := VObj [("id", VNum n)];
                           query := query req;
                           body := VObj (updateNormalized o);
                           now := now req |})) = 200) by exact H200.
    destruct He as [[_ ->] | [_ [-> | [-> | ->]]]];
      rewrite ?answer_notFound, ?answer_conflict, ?answer_P2002,
        ?answer_clientError in Hs;
      discriminate Hs. }
  apply updateUser_Some in Eu as (k & old & Hk & Hold & Eu).
  apply update_Some in Eu as (_ & u & _ & -> & -> & _).
  injection Hput as <- <-. exists k, u. cbn [users].
  split; [apply lookup_insert_eq|]. split; [reflexivity|].
  rewrite (getUser_validated req _ n Hn Hv). cbn [parseInt] in Hk.
  destruct (Double.key n) as [k'|]; [|discriminate Hk].
  injection Hk as ->. cbn [users].
  now rewrite lookup_insert_eq.
Qed.

(** X15. [emailExists] answers whether some stored user has the email, and
    leaves the database as it was. *)
Theorem emailExists_iff_stored (e : string) (db : DB) :
  exists b : bool,
    emailExists (VStr e) db = (db, inr b)
    /\ (b = true <-> exists k u, users db !! k = Some u /\ email u = e).
Proof.
  rewrite emailExists_string.
  destruct (Prisma.byEmail e db) as [u|] eqn:Eb; eexists;
    (split; [reflexivity|]).
  - split; [intros _|reflexivity].
    apply byEmail_Some in Eb as [Hm (k & Hk)]. eauto.
  - split; [discriminate|]. intros (k & u & Hk & Hm).
    rewrite byEmail_None in Eb. now destruct (Eb k u Hk).
Qed.

(** X17. Outside development mode the answer to an error that is neither a
    taxonomy error nor a native error of the validation library shows
    nothing of the error: the error object has a code and a message only,
    both taken from a fixed table, so that the message, the stack, the
    driver code and the driver meta of the error stay inside. *)
Theorem production_hides_internals (e : JsError) (req : Request) :
  development = false ->
  taxonomy e = false ->
  hasPrismaCode e = true \/ name e <> "ZodError" ->
  exists (st : Z) (c m : string),
    errorHandler e req
    = {| status := st;
         json := VObj [ ("success", VBool false);
                        ("error", VObj [ ("code", VStr c);
                                         ("message", VStr m) ]);
                        ("timestamp", VStr (now req));
                        ("path", VStr (path req)) ] |}
    /\ In (st, c, m)
          [ (409, "CONFLICT",
             "Registro duplicado. Este valor já existe no sistema.");
            (404, "NOT_FOUND", "Registro não encontrado.");
            (400, "INVALID_REFERENCE",
             "Referência inválida a outro registro.");
            (500, "DATABASE_ERROR", "Erro no banco de dados.");
            (500, "INTERNAL_ERROR", "Erro interno do servidor") ].
Proof.
  intros Hdev Htax Hkind. unfold errorHandler. unfold taxonomy in Htax.
  rewrite Htax.
  destruct (hasPrismaCode e) eqn:Ep.
  - unfold handlePrismaError, prismaErrorMap. rewrite Hdev.
    destruct (String.eqb _ "P2002");
      [eexists _, _, _; split; [reflexivity|cbn; auto]|].
    destruct (String.eqb _ "P2025");
      [eexists _, _, _; split; [reflexivity|cbn; auto]|].
    destruct (String.eqb _ "P2003");
      eexists _, _, _; (split; [reflexivity|cbn; auto 6]).
  - destruct Hkind as [|Hname]; [discriminate|].
    apply String.eqb_neq in Hname. rewrite Hname, Hdev.
    eexists _, _, _; split; [reflexivity|cbn; auto 6].
Qed.

End More.

Section Unique.
Context `{Runtime}.

(** X14. Emails are unique up to case and surrounding blanks: once POST /users
    has answered 201 for a body, a later body that violates no rule and
    whose email has the same lower-case trimmed form is answered 409
    CONFLICT, and nothing is written. *)
Theorem emails_unique_up_to_case (req1 req2 : Request) (db db1 : DB)
    (res1 : Response) (o1 o2 : obj) (e1 e2 : string) :
  postUsers req1 db = (db1, res1) ->
  status res1 = 201 ->
  body req1 = VObj o1 -> get "email" o1 = VStr e1 ->
  body req2 = VObj o2 -> get "email" o2 = VStr e2 ->
  createViolations o2 = [] ->
  Str.trim (Str.toLowerCase e1) = Str.trim (Str.toLowerCase e2) ->
  postUsers req2 db1
  = (db1, errorHandler
            (Errors.ConflictError (Some "Email já cadastrado no sistema")
               (Some "email")) req2)
  /\ answer (snd (postUsers req2 db1)) = (409, VStr "CONFLICT").
Proof.
  intros Hpost H201 Hb1 He1 Hb2 He2 Hnil2 Hsame.
  destruct (Zod.safeParse createUserSchema (body req1)) as [found|data] eqn:E.
  { rewrite (postUsers_rejected req1 db found E) in Hpost.
    injection Hpost as <- <-. discriminate H201. }
  apply createUserSchema_accepts in E as (o & Hb & Hnil1 & _).
  rewrite Hb1 in Hb. injection Hb as <-.
  destruct (postUsers_accepted req1 db o1 Hb1 Hnil1) as (e & Hn1 & Hc).
  destruct (createNormalized_get o1 Hnil1) as (_ & Hg1 & _).
  rewrite Hg1, He1 in Hn1. cbn [mapStr] in Hn1. injection Hn1 as <-.
  destruct (Prisma.byEmail _ db).
  { rewrite Hc in Hpost. injection Hpost as <- <-. discriminate H201. }
  destruct Hc as (u & Hc & _ & Hm & _). rewrite Hc in Hpost.
  injection Hpost as <- _.
  destruct (postUsers_accepted req2
              {| users := <[nextId db := u]> (users db);
                 nextId := nextId db + 1; clock := clock db + 1 |}
              o2 Hb2 Hnil2) as (e & Hn2 & Hc2).
  destruct (createNormalized_get o2 Hnil2) as (_ & Hg2 & _).
  rewrite Hg2, He2 in Hn2. cbn [mapStr] in Hn2. injection Hn2 as <-.
  destruct (Prisma.byEmail (Str.trim (Str.toLowerCase e2)) _) eqn:Eb.
  - rewrite Hc2. split; [reflexivity|]. cbn [snd]. apply answer_conflict.
  - exfalso. revert Eb.
    apply byEmail_stored with (k := nextId db) (u := u);
      [cbn [users]; apply lookup_insert_eq | congruence].
Qed.

End Unique.

Section Guards.
Context `{Runtime}.

Lemma emailExists_error v db db' e :
  emailExists v db = (db', inl e) -> instanceofAppError e = false.
Proof.
  unfold emailExists, bind, Prisma.findUniqueByEmail, ret.
  destruct v; intros [= _ <-]; reflexivity.
Qed.

Lemma update_error idv data keys db db' e :
  Prisma.update idv data keys db = (db', inl e) ->
  instanceofAppError e = false.
Proof.
  unfold Prisma.update. destruct idv; try (intros [= _ <-]; reflexivity).
  destruct (_ || _); [intros [= _ <-]; reflexivity|].
  destruct (users db !! n); [|intros [= _ <-]; reflexivity].
  match goal with |- context [if ?c then _ else _] => destruct c end;
    [intros [= _ <-]; reflexivity|discriminate].
Qed.

(** The errors of [updateUser] once the identifier has passed its guard. *)
Lemma updateUser_positive_error n userData db db' e :
  0 < n ->
  updateUser (VNum n) userData db = (db', inl e) ->
  instanceofAppError e = false \/ statusCode e = 404 \/ statusCode e = 409.
Proof.
  intros Hn. unfold updateUser. rewrite (idInvalid_positive n Hn).
  unfold bind at 1. unfold Prisma.findUniqueById at 1. cbn [parseInt].
  destruct (Double.key n) as [k|];
    [|intros [= _ <-]; left; reflexivity].
  destruct (users db !! k) as [old|];
    [|cbn; intros [= _ <-]; right; left; reflexivity].
  cbn [Prisma.project truthy negb]. unfold bind at 1.
  match goal with
  | |- context [let (_, _) := ?m db in _] =>
      destruct (m db) as [db1 [e1|[]]] eqn:Em
  end.
  - intros [= _ <-]. destruct (_ && _); [|discriminate Em].
    unfold bind in Em.
    destruct (emailExists _ db) as [db2 [e2|b]] eqn:Ee.
    + injection Em as _ <-. left. eapply emailExists_error, Ee.
    + destruct b; [|discriminate Em]. injection Em as _ <-.
      right. right. reflexivity.
  - unfold bind.
    destruct (Prisma.update _ _ _ db1) as [db2 [e2|v]] eqn:Eu;
      [|discriminate].
    intros [= _ <-]. left. eapply update_error, Eu.
Qed.

(** X16. The guard of the service on identifiers, which does not rely on the
    validation of the routes: for [undefined], [null], [NaN] and every
    number that is not positive, [getUserById], [updateUser] and
    [deleteUser] raise the validation error "ID inválido. Deve ser um
    número positivo" (400, VALIDATION_ERROR, no details) without reading or
    writing the database; a positive number never raises it. *)
Theorem service_rejects_bad_ids (userId : value) (db : DB) :
  userId = VUndef \/ userId = VNull \/ userId = VNaN
  \/ (exists n, userId = VNum n /\ n <= 0) ->
  let err :=
    Errors.ValidationError (Some "ID inválido. Deve ser um número positivo")
      None in
  getUserById userId db = (db, inl err)
  /\ (forall userData, updateUser userId userData db = (db, inl err))
  /\ deleteUser userId db = (db, inl err)
  /\ (forall req,
         answer (errorHandler err req) = (400, VStr "VALIDATION_ERROR")
         /\ errorDetails (errorHandler err req) = VArr [])
  /\ (forall n db0, 0 < n ->
         getUserById (VNum n) db0 <> (db0, inl err)
         /\ (forall userData,
                updateUser (VNum n) userData db0 <> (db0, inl err))
         /\ deleteUser (VNum n) db0 <> (db0, inl err)).
Proof.
  intros Hbad err.
  assert (Hinv : idInvalid userId = true).
  { destruct Hbad as [-> | [-> | [-> | (n & -> & Hn)]]]; try reflexivity.
    unfold idInvalid, isNaN, leZero. cbn.
    destruct (Z.eqb_spec n 0); [reflexivity|].
    destruct (Z.leb_spec n 0); [reflexivity|lia]. }
  split; [unfold getUserById; now rewrite Hinv|].
  split; [intros userData; unfold updateUser; now rewrite Hinv|].
  split; [unfold deleteUser; now rewrite Hinv|].
  split; [intros req; split; reflexivity|].
  intros n db0 Hn. split; [|split; [intros userData|]].
  - rewrite (getUserById_positive n db0 Hn).
    destruct (Double.key n) as [k|]; [|discriminate].
    destruct (users db0 !! k); [discriminate|].
    intros [=].
  - intros Hu.
    apply (updateUser_positive_error n userData db0 db0 _ Hn) in Hu.
    destruct Hu as [Hu | [Hu | Hu]]; discriminate Hu.
  - rewrite (deleteUser_positive n db0 Hn).
    destruct (Double.key n) as [k|]; [|discriminate].
    destruct (users db0 !! k); [discriminate|].
    intros [=].
Qed.

End Guards.

Section Decisions.
Context `{Runtime}.

(** X3. The validation of the route parameters lets through exactly the
    parameters whose [id] is a string of digits that denotes a positive
    number, and hands on, alone and in place of the parameters, what
    [Number] reads in the string: the number the digits denote up to 2^53,
    the nearest double above (Infinity from 2^1024 - 2^970 on). *)
Theorem validate_id_hands_on_number (req req' : Request) :
  (validate idParamSchema SParams req = inr req' <->
   exists (ps : obj) (s : string),
     params req = VObj ps /\ get "id" ps = VStr s
     /\ Str.matchesDigits s = true /\ 0 < Str.digitsValue s
     /\ req' = {| method := method req; path := path req;
                  params := VObj [("id",
                                   VNum (Double.round (Str.digitsValue s)))];
                  query := query req; body := body req; now := now req |})
  /\ (forall n, 0 <= n <= Double.maxSafe -> Double.round n = n)
  /\ (forall n, 0 < n -> 0 < Double.round n <= Double.infinity)
  /\ (forall n, Double.infinity <= n -> Double.round n = Double.infinity)
  /\ Double.round (2 ^ 53 + 1) = 2 ^ 53
  /\ Double.round (2 ^ 53 + 3) = 2 ^ 53 + 4
  /\ Double.round (10 ^ 21) = 10 ^ 21
  /\ Double.round (2 ^ 1024 - 2 ^ 970 - 1) = 2 ^ 1024 - 2 ^ 971
  /\ Double.round (2 ^ 1024 - 2 ^ 970) = Double.infinity.
Proof.
  split; [|split; [|split; [|split;
    [|repeat split; vm_compute; reflexivity]]]].
  - rewrite validate_inr. cbn [readSource writeSource]. split.
    + intros (data & (ps & s & Hp & Hs & Hd & Hv & ->)%idParamSchema_accepts
              & ->).
      exists ps, s. auto 6.
    + intros (ps & s & Hp & Hs & Hd & Hv & ->). eexists.
      split; [|reflexivity].
      apply idParamSchema_accepts. exists ps, s. auto 6.
  - intros n Hn. apply DoubleFacts.round_safe. lia.
  - intros n Hn. split; [now apply DoubleFacts.round_pos|].
    apply DoubleFacts.round_le_infinity.
  - apply DoubleFacts.round_infinity.
Qed.

(** X5. The answer of POST /users is decided by the body and by the stored
    emails: 400 exactly when the body is not an object or violates a rule
    of the field table, 409 exactly when it violates none and a stored user
    has its normalized email, 201 exactly when it violates none and no
    stored user has that email. *)
Theorem postUsers_decides (req : Request) (db : DB) :
  (status (snd (postUsers req db)) = 400 <->
   forall o, body req = VObj o -> createViolations o <> [])
  /\ (status (snd (postUsers req db)) = 409 <->
      exists o e,
        body req = VObj o /\ createViolations o = []
        /\ get "email" o = VStr e
        /\ Prisma.byEmail (Str.trim (Str.toLowerCase e)) db <> None)
  /\ (status (snd (postUsers req db)) = 201 <->
      exists o e,
        body req = VObj o /\ createViolations o = []
        /\ get "email" o = VStr e
        /\ Prisma.byEmail (Str.trim (Str.toLowerCase e)) db = None).
Proof.
  destruct (Zod.safeParse createUserSchema (body req)) as [found|data] eqn:E.
  - rewrite (postUsers_rejected req db found E). cbn [snd].
    assert (Hno : forall o, body req = VObj o -> createViolations o <> []).
    { intros o Hb Hnil.
      assert (Zod.safeParse createUserSchema (body req)
              = inr (VObj (createNormalized o))) as E'
        by (apply createUserSchema_accepts; eauto).
      congruence. }
    split; [split; [intros _; exact Hno|reflexivity]|].
    split; (split; [discriminate|]);
      intros (o & e & Hb & Hnil & _); now destruct (Hno o Hb).
  - apply createUserSchema_accepts in E as (o & Hb & Hnil & _).
    destruct (postUsers_accepted req db o Hb Hnil) as (e & Hn & Hc).
    destruct (createNormalized_get o Hnil) as (_ & Hg & _).
    pose proof (createViolations_nil o Hnil) as (_ & Re & _).
    apply emailRule_nil in Re as (e0 & He0 & _).
    rewrite Hg, He0 in Hn. cbn [mapStr] in Hn. injection Hn as <-.
    assert (Hsame : forall o' e',
               body req = VObj o' -> get "email" o' = VStr e' ->
               Prisma.byEmail (Str.trim (Str.toLowerCase e')) db
               = Prisma.byEmail (Str.trim (Str.toLowerCase e0)) db).
    { intros o' e' Hb' He'. rewrite Hb in Hb'. injection Hb' as <-.
      rewrite He0 in He'. now injection He' as <-. }
    destruct (Prisma.byEmail (Str.trim (Str.toLowerCase e0)) db) eqn:Eb.
    + rewrite Hc. cbn [snd].
      split; [split; [discriminate|intros Hno; now destruct (Hno o Hb)]|].
      split; split; try discriminate.
      * intros _. exists o, e0. rewrite Eb. auto.
      * reflexivity.
      * intros (o' & e' & Hb' & _ & He' & Hnone).
        rewrite (Hsame o' e' Hb' He') in Hnone. discriminate Hnone.
    + destruct Hc as (u & -> & _). cbn [snd status].
      split; [split; [discriminate|intros Hno; now destruct (Hno o Hb)]|].
      split; split; try discriminate.
      * intros (o' & e' & Hb' & _ & He' & Hsome).
        rewrite (Hsame o' e' Hb' He') in Hsome. now destruct Hsome.
      * intros _. exists o, e0. rewrite Eb. auto.
      * reflexivity.
Qed.

(** X1. The validation of the body of PUT /users/:id lets through exactly the
    objects without an undeclared key, whose given fields violate no rule
    of the field table and of which one field at least is defined (a photo
    counts when it is a non-empty string); it hands on the given fields,
    normalized, and the photo in every case, [null] when none is given. *)
Theorem validate_update_body_accepts (req req' : Request) :
  validate updateUserSchema SBody req = inr req' <->
  exists o : obj,
    body req = VObj o
    /\ (forall k, hasKey k o = true ->
                  In k ["nome"; "email"; "senha"; "papel"; "foto"])
    /\ updateFieldViolations o = []
    /\ defined (get "nome" o) || defined (get "email" o)
       || defined (get "senha" o) || defined (get "papel" o)
       || truthy (get "foto" o) = true
    /\ req' = {| method := method req; path := path req;
                 params := params req; query := query req;
                 body := VObj (updateNormalized o); now := now req |}.
Proof.
  rewrite validate_inr. cbn [readSource writeSource]. split.
  - intros (data & (o & Hb & Hk & Hnil & Hd & ->)%updateUserSchema_accepts
            & ->).
    exists o. auto 6.
  - intros (o & Hb & Hk & Hnil & Hd & ->). eexists. split; [|reflexivity].
    apply updateUserSchema_accepts. exists o. auto 6.
Qed.

(** X18. An answer 400 is decided by the request alone: when a route answers
    400, it gives the same answer on every database and leaves each as it
    is, since the validation of the parameters and of the body comes
    before the first access to the table. *)
Theorem bad_requests_never_reach_database
    (handler : Request -> DB -> DB * Response) (req : Request)
    (db db' : DB) (res : Response) :
  In handler [getUsers; getUser; postUsers; putUser; deleteUser_] ->
  handler req db = (db', res) ->
  status res = 400 ->
  forall db2, handler req db2 = (db2, res).
Proof.
  intros Hin Hrun H400 db2.
  destruct Hin as [<- | [<- | [<- | [<- | [<- | []]]]]].
  - unfold getUsers in Hrun. cbn [route] in Hrun.
    unfold getAll, bind, ret, getAllUsers, Prisma.findMany in Hrun.
    injection Hrun as _ <-. discriminate H400.
  - destruct (validate_id_outcome req) as [(d & Hv) | (n & Hn & Hv)].
    + unfold getUser in *. cbn [route] in *. rewrite Hv in *.
      now injection Hrun as _ <-.
    + rewrite (getUser_validated req db n Hn Hv) in Hrun.
      injection Hrun as _ <-.
      destruct (Double.key n) as [k|];
        [|rewrite status_clientError in H400; discriminate H400].
      destruct (users db !! k); [discriminate H400|].
      rewrite status_notFound in H400. discriminate H400.
  - destruct (Zod.safeParse createUserSchema (body req))
      as [found|data] eqn:E.
    { rewrite (postUsers_rejected req db found E) in Hrun.
      rewrite (postUsers_rejected req db2 found E).
      now injection Hrun as _ <-. }
    apply createUserSchema_accepts in E as (o & Hb & Hnil & _).
    destruct (postUsers_accepted req db o Hb Hnil) as (e & _ & Hc).
    destruct (Prisma.byEmail e db).
    + rewrite Hc in Hrun. injection Hrun as _ <-. discriminate H400.
    + destruct Hc as (u & Hc & _). rewrite Hc in Hrun.
      injection Hrun as _ <-. discriminate H400.
  - unfold putUser in *. cbn [route] in *.
    destruct (validate_id_outcome req) as [(d & Hv) | (n & Hn & Hv)];
      rewrite Hv in *.
    { now injection Hrun as _ <-. }
    unfold validate at 1 in Hrun. unfold validate at 1.
    cbn [readSource body writeSource] in *.
    destruct (Zod.safeParse updateUserSchema (body req))
      as [found|data] eqn:E.
    { now injection Hrun as _ <-. }
    exfalso.
    apply updateUserSchema_accepts in E as (o & _ & _ & Hnil & _ & ->).
    unfold update, bind in Hrun.
    cbn [params body prop get String.eqb Ascii.eqb Bool.eqb] in Hrun.
    destruct (updateUser (VNum n) (VObj (updateNormalized o)) db)
      as [db1 [e|v]] eqn:Eu.
    + pose proof (updateUser_accepted n o db db1 _ Hn Hnil Eu) as He.
      injection Hrun as _ <-.
      assert (Hs : fst (answer (errorHandler e
                          {| method := method req; path := path req;
                             params := VObj [("id", VNum n)];
                             query := query req;
                             body := VObj (updateNormalized o);
                             now := now req |})) = 400) by exact H400.
      destruct He as [[_ ->] | [_ [-> | [-> | ->]]]];
        rewrite ?answer_notFound, ?answer_conflict, ?answer_P2002,
          ?answer_clientError in Hs;
        discriminate Hs.
    + injection Hrun as _ <-. discriminate H400.
  - destruct (validate_id_outcome req) as [(d & Hv) | (n & Hn & Hv)].
    + unfold deleteUser_ in *. cbn [route] in *. rewrite Hv in *.
      now injection Hrun as _ <-.
    + rewrite (deleteUser__validated req db n Hn Hv) in Hrun.
      destruct (Double.key n) as [k|].
      2: { injection Hrun as _ <-. rewrite status_clientError in H400.
           discriminate H400. }
      destruct (users db !! k); injection Hrun as _ <-;
        [discriminate H400|].
      rewrite status_notFound in H400. discriminate H400.
Qed.

End Decisions.

Module StrFacts.
Import Str.

Lemma lowerChar_idem c : lowerChar (lowerChar c) = lowerChar c.
Proof. destruct c as [[] [] [] [] [] [] [] []]; reflexivity. Qed.

Lemma isWhite_lowerChar c : isWhite (lowerChar c) = isWhite c.
Proof. destruct c as [[] [] [] [] [] [] [] []]; reflexivity. Qed.

Lemma toLowerCase_idem s : toLowerCase (toLowerCase s) = toLowerCase s.
Proof.
  induction s as [|c r IH]; cbn; [reflexivity|].
  now rewrite lowerChar_idem, IH.
Qed.

Lemma toLowerCase_empty s :
  String.eqb (toLowerCase s) "" = String.eqb s "".
Proof. destruct s; reflexivity. Qed.

Lemma toLowerCase_trimStart s :
  toLowerCase (trimStart s) = trimStart (toLowerCase s).
Proof.
  induction s as [|c r IH]; cbn [trimStart toLowerCase]; [reflexivity|].
  rewrite isWhite_lowerChar. destruct (isWhite c); [exact IH|reflexivity].
Qed.

Lemma toLowerCase_trimEnd s :
  toLowerCase (trimEnd s) = trimEnd (toLowerCase s).
Proof.
  induction s as [|c r IH]; cbn [trimEnd toLowerCase]; [reflexivity|].
  rewrite isWhite_lowerChar, <- IH, toLowerCase_empty.
  destruct (isWhite c && String.eqb (trimEnd r) ""); cbn [toLowerCase];
    [reflexivity|]. reflexivity.
Qed.

Lemma toLowerCase_trim s : toLowerCase (trim s) = trim (toLowerCase s).
Proof.
  unfold trim. now rewrite toLowerCase_trimEnd, toLowerCase_trimStart.
Qed.

Lemma trimEnd_idem s : trimEnd (trimEnd s) = trimEnd s.
Proof.
  induction s as [|c r IH]; cbn [trimEnd]; [reflexivity|].
  destruct (isWhite c && String.eqb (trimEnd r) "") eqn:E; [reflexivity|].
  cbn [trimEnd]. now rewrite IH, E.
Qed.

Lemma startsBlack_trimStart s : startsBlack (trimStart s) = true.
Proof.
  induction s as [|c r IH]; cbn [trimStart]; [reflexivity|].
  destruct (isWhite c) eqn:E; [exact IH|]. cbn. now rewrite E.
Qed.

Lemma trimStart_startsBlack s : startsBlack s = true -> trimStart s = s.
Proof.
  destruct s as [|c r]; cbn; [reflexivity|].
  now destruct (isWhite c).
Qed.

Lemma startsBlack_trimEnd s :
  startsBlack s = true -> startsBlack (trimEnd s) = true.
Proof.
  destruct s as [|c r]; cbn [trimEnd startsBlack]; [reflexivity|].
  destruct (isWhite c) eqn:E; [discriminate|].
  cbn [andb startsBlack]. now rewrite E.
Qed.

Lemma trim_idem s : trim (trim s) = trim s.
Proof.
  unfold trim.
  rewrite (trimStart_startsBlack (trimEnd (trimStart s)))
    by apply startsBlack_trimEnd, startsBlack_trimStart.
  apply trimEnd_idem.
Qed.

Lemma normal_email s :
  trim (toLowerCase (trim (toLowerCase s))) = trim (toLowerCase s).
Proof. now rewrite toLowerCase_trim, toLowerCase_idem, trim_idem. Qed.

End StrFacts.

Section Normal.
Context `{Runtime}.

Lemma mapStr_VStr f v x :
  mapStr f v = VStr x -> exists s, v = VStr s /\ x = f s.
Proof. destruct v; try discriminate. intros [= <-]. eauto. Qed.

(** A column patched with a normalized field stays in normal form. *)
Lemma patch_normal (f : string -> string) (v : value) (old : string) :
  (forall s, f (f s) = f s) -> f old = old ->
  let x := mapStr f v in
  f (Prisma.patch (Prisma.strArg (if truthy x then x else VUndef)) old)
  = Prisma.patch (Prisma.strArg (if truthy x then x else VUndef)) old.
Proof.
  intros Hf Hold x. subst x.
  destruct v; cbn; auto; try (destruct b; cbn; auto; fail);
    try (destruct (negb _); cbn; auto; fail).
Qed.

Lemma insert_keeps_normalized db n u nid c :
  normalized db ->
  Str.trim (nome u) = nome u ->
  Str.trim (Str.toLowerCase (email u)) = email u ->
  normalized {| users := <[n := u]> (users db); nextId := nid; clock := c |}.
Proof.
  intros Hdb Hn He k x Hk. cbn [users] in Hk.
  destruct (decide (k = n)) as [->|Hne].
  - rewrite lookup_insert_eq in Hk. injection Hk as <-. auto.
  - rewrite lookup_insert_ne in Hk by congruence. eauto.
Qed.

(** X8. Every route keeps the stored names and emails in normal form: what
    POST and PUT write has gone through the trim and lower-case
    transforms of the schemas, and these transforms are idempotent. *)
Theorem routes_store_normalized_data
    (handler : Request -> DB -> DB * Response) (req : Request)
    (db db' : DB) (res : Response) :
  In handler [getUsers; getUser; postUsers; putUser; deleteUser_] ->
  normalized db ->
  handler req db = (db', res) ->
  normalized db'.
Proof.
  intros Hin Hdb Hrun.
  destruct Hin as [<- | [<- | [<- | [<- | [<- | []]]]]].
  - unfold getUsers in Hrun. cbn [route] in Hrun.
    destruct (getAllUsers_total db) as (v & Hv).
    unfold getAll, bind, ret in Hrun. rewrite Hv in Hrun.
    now injection Hrun as <- _.
  - destruct (validate_id_outcome req) as [(d & Hv) | (n & Hn & Hv)].
    + unfold getUser in Hrun. cbn [route] in Hrun. rewrite Hv in Hrun.
      now injection Hrun as <- _.
    + rewrite (getUser_validated req db n Hn Hv) in Hrun.
      destruct (Double.key n); now injection Hrun as <- _.
  - destruct (Zod.safeParse createUserSchema (body req))
      as [found|data] eqn:E.
    { rewrite (postUsers_rejected req db found E) in Hrun.
      now injection Hrun as <- _. }
    apply createUserSchema_accepts in E as (o & Hb & Hnil & _).
    destruct (postUsers_accepted req db o Hb Hnil) as (e & Hm & Hc).
    destruct (createNormalized_get o Hnil) as (Gn & Ge & _).
    destruct (Prisma.byEmail e db).
    { rewrite Hc in Hrun. now injection Hrun as <- _. }
    destruct Hc as (u & Hc & _ & Hu & Hnome). rewrite Hc in Hrun.
    injection Hrun as <- _.
    rewrite Ge in Hm. apply mapStr_VStr in Hm as (e0 & _ & ->).
    rewrite Gn in Hnome. apply mapStr_VStr in Hnome as (n0 & _ & Hn0).
    apply insert_keeps_normalized; [exact Hdb| |].
    + rewrite Hn0. apply StrFacts.trim_idem.
    + rewrite Hu. apply StrFacts.normal_email.
  - unfold putUser in Hrun. cbn [route] in Hrun.
    destruct (validate_id_outcome req) as [(d & Hv) | (n & Hn & Hv)];
      rewrite Hv in Hrun.
    { now injection Hrun as <- _. }
    unfold validate at 1 in Hrun. cbn [readSource body writeSource] in Hrun.
    destruct (Zod.safeParse updateUserSchema (body req))
      as [found|data] eqn:E.
    { now injection Hrun as <- _. }
    apply updateUserSchema_accepts in E as (o & _ & _ & Hnil & _ & ->).
    unfold update, bind in Hrun.
    cbn [params body prop get String.eqb Ascii.eqb Bool.eqb] in Hrun.
    destruct (updateUser (VNum n) (VObj (updateNormalized o)) db)
      as [db1 [e|v]] eqn:Eu.
    { apply updateUser_error_keeps_db in Eu as ->.
      now injection Hrun as <- _. }
    injection Hrun as <- _.
    apply updateUser_Some in Eu as (k & old & _ & Hold & Eu).
    apply update_Some in Eu as (old' & u & Hold' & _ & -> & ->).
    rewrite Hold in Hold'. injection Hold' as <-.
    destruct (Hdb k old Hold) as [Nn Ne].
    destruct (dadosAtualizacao_get (VObj (updateNormalized o)))
      as (Dn & De & _).
    destruct (updateNormalized_get o) as (Gn & Ge & _).
    apply insert_keeps_normalized; [exact Hdb| |]; cbn [nome email].
    + rewrite Dn. cbn [prop]. rewrite Gn.
      apply (patch_normal Str.trim); [apply StrFacts.trim_idem|exact Nn].
    + rewrite De. cbn [prop]. rewrite Ge.
      apply (patch_normal (fun s => Str.trim (Str.toLowerCase s)));
        [apply StrFacts.normal_email|exact Ne].
  - destruct (validate_id_outcome req) as [(d & Hv) | (n & Hn & Hv)].
    + unfold deleteUser_ in Hrun. cbn [route] in Hrun. rewrite Hv in Hrun.
      now injection Hrun as <- _.
    + rewrite (deleteUser__validated req db n Hn Hv) in Hrun.
      destruct (Double.key n) as [row|];
        [|now injection Hrun as <- _].
      destruct (users db !! row); injection Hrun as <- _; [|exact Hdb].
      intros k x Hk. cbn [users] in Hk.
      apply lookup_delete_Some in Hk as [_ Hk]. eauto.
Qed.

End Normal.

(** ** Further scenarios evaluated *)

Section ConcreteCases.
Import Scenario Cases.
#[local] Existing Instance Node.runtime.

Lemma dbOk_emptyDB : dbOk emptyDB.
Proof.
  split; [split; [reflexivity|]|].
  - intros k u Hk. unfold emptyDB in Hk. cbn [users] in Hk.
    now rewrite lookup_empty in Hk.
  - intros k1 k2 u1 u2 Hk. unfold emptyDB in Hk. cbn [users] in Hk.
    now rewrite lookup_empty in Hk.
Qed.

Lemma dbOk_oneUser : dbOk oneUser.
Proof.
  split; [split; [reflexivity|]|]; unfold oneUser; cbn [users nextId].
  - intros k u [<- <-]%lookup_singleton_Some. cbn. lia.
  - intros k1 k2 u1 u2 H1 H2 _. cbn [users] in H1, H2.
    apply lookup_singleton_Some in H1 as [<- _].
    apply lookup_singleton_Some in H2 as [<- _]. reflexivity.
Qed.

Lemma normalized_emptyDB : normalized emptyDB.
Proof.
  intros k u Hk. unfold emptyDB in Hk. cbn [users] in Hk.
  now rewrite lookup_empty in Hk.
Qed.

Lemma routes_keep_table_invariants_witness :
  In postUsers [getUsers; getUser; postUsers; putUser; deleteUser_]
  /\ dbOk emptyDB
  /\ status (snd (postUsers postBia emptyDB)) = 201
  /\ dbOk (fst (postUsers postBia emptyDB)).
Proof.
  assert (Hin : In postUsers
                  [getUsers; getUser; postUsers; putUser; deleteUser_])
    by (right; right; left; reflexivity).
  split; [exact Hin|]. split; [exact dbOk_emptyDB|].
  split; [vm_compute; reflexivity|].
  exact (routes_keep_table_invariants postUsers postBia emptyDB _ _
           Hin dbOk_emptyDB (surjective_pairing _)).
Defined.

Lemma routes_store_normalized_data_witness :
  In postUsers [getUsers; getUser; postUsers; putUser; deleteUser_]
  /\ normalized emptyDB
  /\ status (snd (postUsers postBia emptyDB)) = 201
  /\ normalized (fst (postUsers postBia emptyDB)).
Proof.
  assert (Hin : In postUsers
                  [getUsers; getUser; postUsers; putUser; deleteUser_])
    by (right; right; left; reflexivity).
  split; [exact Hin|]. split; [exact normalized_emptyDB|].
  split; [vm_compute; reflexivity|].
  exact (routes_store_normalized_data postUsers postBia emptyDB _ _
           Hin normalized_emptyDB (surjective_pairing _)).
Defined.

Lemma created_user_can_be_read_witness :
  storeOk emptyDB
  /\ status (snd (postUsers postBia emptyDB)) = 201
  /\ exists n : Z,
      prop "id" (prop "data" (json (snd (postUsers postBia emptyDB))))
      = VNum n
      /\ (forall req2 ps s,
           params req2 = VObj ps -> get "id" ps = VStr s ->
           Str.matchesDigits s = true -> idRow s = Some n ->
           getUser req2 (fst (postUsers postBia emptyDB))
           = (fst (postUsers postBia emptyDB),
              {| status := 200;
                 json := VObj [ ("success", VBool true);
                                ("data",
                                 prop "data"
                                   (json (snd (postUsers postBia
                                                 emptyDB)))) ] |}))
      /\ (n <= Double.maxSafe ->
          forall s, Str.matchesDigits s = true -> Str.digitsValue s = n ->
                    idRow s = Some n).
Proof.
  assert (H201 : status (snd (postUsers postBia emptyDB)) = 201)
    by (vm_compute; reflexivity).
  split; [exact (proj1 dbOk_emptyDB)|]. split; [exact H201|].
  exact (created_user_can_be_read postBia emptyDB _ _
           (proj1 dbOk_emptyDB) (surjective_pairing _) H201).
Defined.

Lemma updated_user_can_be_read_witness :
  status (snd (putUser renameOne oneUser)) = 200
  /\ exists (n : Z) (u : User),
      users (fst (putUser renameOne oneUser)) !! n = Some u
      /\ prop "data" (json (snd (putUser renameOne oneUser)))
         = Prisma.project (Some (userSelect ++ ["updatedAt"])) u
      /\ getUser renameOne (fst (putUser renameOne oneUser))
         = (fst (putUser renameOne oneUser),
            {| status := 200;
               json := VObj [ ("success", VBool true);
                              ("data",
                               Prisma.project (Some userSelect) u) ] |}).
Proof.
  assert (H200 : status (snd (putUser renameOne oneUser)) = 200)
    by (vm_compute; reflexivity).
  split; [exact H200|].
  exact (updated_user_can_be_read renameOne oneUser _ _
           (surjective_pairing _) H200).
Defined.

Lemma deleted_user_is_gone_witness :
  status (snd (deleteUser_ deleteOne oneUser)) = 200
  /\ exists (n k : Z) (old : User),
      Double.key n = Some k
      /\ users oneUser !! k = Some old
      /\ users (fst (deleteUser_ deleteOne oneUser)) !! k = None
      /\ (forall j, j <> k ->
                    users (fst (deleteUser_ deleteOne oneUser)) !! j
                    = users oneUser !! j)
      /\ prop "data" (json (snd (deleteUser_ deleteOne oneUser)))
         = VObj [ ("id", VNum (id old)); ("nome", VStr (nome old));
                  ("email", VStr (email old)) ]
      /\ getUser deleteOne (fst (deleteUser_ deleteOne oneUser))
         = (fst (deleteUser_ deleteOne oneUser),
            errorHandler (notFound (VNum n)) deleteOne)
      /\ deleteUser_ deleteOne (fst (deleteUser_ deleteOne oneUser))
         = (fst (deleteUser_ deleteOne oneUser),
            errorHandler (notFound (VNum n)) deleteOne)
      /\ answer (errorHandler (notFound (VNum n)) deleteOne)
         = (404, VStr "NOT_FOUND").
Proof.
  assert (H200 : status (snd (deleteUser_ deleteOne oneUser)) = 200)
    by (vm_compute; reflexivity).
  split; [exact H200|].
  exact (deleted_user_is_gone deleteOne oneUser _ _
           (surjective_pairing _) H200).
Defined.

Lemma updateUser_email_must_be_free_witness :
  dbOk oneUser
  /\ users oneUser !! 1 = Some ana
  /\ 1 < Double.exponential
  /\ Zod.safeParse updateUserSchema ownEmail = inr ownEmailNormalized
  /\ exists u,
      updateUser (VNum 1) ownEmailNormalized oneUser
      = ({| users := <[1 := u]> (users oneUser);
            nextId := nextId oneUser;
            clock := clock oneUser + 1 |},
         inr (Prisma.project (Some (userSelect ++ ["updatedAt"])) u))
      /\ id u = 1.
Proof.
  assert (Hrow : users oneUser !! 1 = Some ana) by (vm_compute; reflexivity).
  assert (Hp : Zod.safeParse updateUserSchema ownEmail
               = inr ownEmailNormalized) by (vm_compute; reflexivity).
  assert (Hlt : 1 < Double.exponential) by reflexivity.
  split; [exact dbOk_oneUser|]. split; [exact Hrow|]. split; [exact Hlt|].
  split; [exact Hp|].
  apply (proj2 (updateUser_email_must_be_free ownEmail ownEmailNormalized
                  1 ana oneUser dbOk_oneUser Hrow Hlt Hp)).
  intros e He. vm_compute in He. injection He as <-.
  right. left. reflexivity.
Defined.

Lemma emails_unique_up_to_case_witness :
  status (snd (postUsers postBia emptyDB)) = 201
  /\ createViolations beatriz = []
  /\ Str.trim (Str.toLowerCase "Bia@Escola.com")
     = Str.trim (Str.toLowerCase "bia@escola.COM")
  /\ postUsers postBeatriz (fst (postUsers postBia emptyDB))
     = (fst (postUsers postBia emptyDB),
        errorHandler
          (Errors.ConflictError (Some "Email já cadastrado no sistema")
             (Some "email")) postBeatriz)
  /\ answer (snd (postUsers postBeatriz (fst (postUsers postBia emptyDB))))
     = (409, VStr "CONFLICT").
Proof.
  assert (H201 : status (snd (postUsers postBia emptyDB)) = 201)
    by (vm_compute; reflexivity).
  assert (Hnil : createViolations beatriz = [])
    by (vm_compute; reflexivity).
  assert (Hsame : Str.trim (Str.toLowerCase "Bia@Escola.com")
                  = Str.trim (Str.toLowerCase "bia@escola.COM"))
    by (vm_compute; reflexivity).
  split; [exact H201|]. split; [exact Hnil|]. split; [exact Hsame|].
  exact (emails_unique_up_to_case postBia postBeatriz emptyDB _ _
           bia beatriz "Bia@Escola.com" "bia@escola.COM"
           (surjective_pairing _) H201 eq_refl eq_refl eq_refl eq_refl
           Hnil Hsame).
Defined.

Lemma production_hides_internals_witness :
  development = false
  /\ taxonomy typeError = false
  /\ name typeError <> "ZodError"
  /\ exists (st : Z) (c m : string),
      errorHandler typeError getOne
      = {| status := st;
           json := VObj [ ("success", VBool false);
                          ("error", VObj [ ("code", VStr c);
                                           ("message", VStr m) ]);
                          ("timestamp", VStr (now getOne));
                          ("path", VStr (path getOne)) ] |}
      /\ In (st, c, m)
            [ (409, "CONFLICT",
               "Registro duplicado. Este valor já existe no sistema.");
              (404, "NOT_FOUND", "Registro não encontrado.");
              (400, "INVALID_REFERENCE",
               "Referência inválida a outro registro.");
              (500, "DATABASE_ERROR", "Erro no banco de dados.");
              (500, "INTERNAL_ERROR", "Erro interno do servidor") ].
Proof.
  assert (Hname : name typeError <> "ZodError") by discriminate.
  split; [reflexivity|]. split; [reflexivity|]. split; [exact Hname|].
  exact (production_hides_internals typeError getOne eq_refl eq_refl
           (or_intror Hname)).
Defined.

Lemma service_rejects_bad_ids_witness :
  getUserById (VNum 0) oneUser
  = (oneUser,
     inl (Errors.ValidationError
            (Some "ID inválido. Deve ser um número positivo") None))
  /\ deleteUser VNull oneUser
     = (oneUser,
        inl (Errors.ValidationError
               (Some "ID inválido. Deve ser um número positivo") None)).
Proof.
  split.
  - apply (service_rejects_bad_ids (VNum 0) oneUser).
    right. right. right. exists 0. split; [reflexivity|lia].
  - apply (service_rejects_bad_ids VNull oneUser).
    right. left. reflexivity.
Defined.

Lemma bad_requests_never_reach_database_witness :
  In getUser [getUsers; getUser; postUsers; putUser; deleteUser_]
  /\ status (snd (getUser getAbc emptyDB)) = 400
  /\ getUser getAbc oneUser = (oneUser, snd (getUser getAbc emptyDB)).
Proof.
  assert (Hin : In getUser
                  [getUsers; getUser; postUsers; putUser; deleteUser_])
    by (right; left; reflexivity).
  assert (H400 : status (snd (getUser getAbc emptyDB)) = 400)
    by (vm_compute; reflexivity).
  split; [exact Hin|]. split; [exact H400|].
  exact (bad_requests_never_reach_database getUser getAbc emptyDB _ _
           Hin (surjective_pairing _) H400 oneUser).
Defined.

End ConcreteCases.

Section HugeIds.
Context `{Runtime}.

(** X19. An id that reads as a number from 10^21 on, short of Infinity, is
    looked up by the first digit of that number: the schema hands on the
    number, the service passes it to [parseInt], and [parseInt] reads the
    digits before the point or the exponent in the exponent notation of
    the number. GET answers with the user of that row, or 404 when there
    is none, and DELETE removes the user of that row. *)
Theorem huge_id_reads_first_digit (req : Request) (db : DB) (ps : obj)
    (s : string) :
  params req = VObj ps -> get "id" ps = VStr s ->
  Str.matchesDigits s = true ->
  Double.exponential <= idNumber s < Double.infinity ->
  idRow s = Some (Double.shortestLead (idNumber s))
  /\ match users db !! Double.shortestLead (idNumber s) with
     | Some u =>
         getUser req db
         = (db,
            {| status := 200;
               json := VObj [ ("success", VBool true);
                              ("data",
                               Prisma.project (Some userSelect) u) ] |})
         /\ deleteUser_ req db
            = ({| users := delete (Double.shortestLead (idNumber s))
                             (users db);
                  nextId := nextId db;
                  clock := clock db |},
               {| status := 200;
                  json := VObj [ ("success", VBool true);
                                 ("message",
                                  VStr "Usuário removido com sucesso");
                                 ("data",
                                  VObj [ ("id", VNum (id u));
                                         ("nome", VStr (nome u));
                                         ("email", VStr (email u)) ]) ] |})
     | None =>
         getUser req db
         = (db, errorHandler (notFound (VNum (idNumber s))) req)
         /\ deleteUser_ req db
            = (db, errorHandler (notFound (VNum (idNumber s))) req)
     end.
Proof.
  intros Hp Hid Hd [Hlo Hhi].
  assert (Hexp : 0 < Double.exponential) by reflexivity.
  assert (Hpos : 0 < idNumber s) by lia.
  assert (Hkey : Double.key (idNumber s)
                 = Some (Double.shortestLead (idNumber s))).
  { unfold Double.key. rewrite Z.abs_eq by lia.
    destruct (Z.ltb_spec (idNumber s) Double.exponential); [lia|].
    destruct (Z.leb_spec Double.infinity (idNumber s)); [lia|].
    rewrite Z.sgn_pos by lia. now rewrite Z.mul_1_l. }
  split; [exact Hkey|].
  pose proof (validate_id_accepts req ps s Hp Hid Hd Hpos) as Hv.
  rewrite (getUser_validated req db _ Hpos Hv),
    (deleteUser__validated req db _ Hpos Hv), Hkey.
  destruct (users db !! _); split; reflexivity.
Qed.

End HugeIds.

Section ConcreteCases2.
Import Scenario Cases.
#[local] Existing Instance Node.runtime.

Lemma huge_id_reads_first_digit_witness :
  params getSextillion = VObj [("id", VStr "1000000000000000000000")]
  /\ Double.exponential <= idNumber "1000000000000000000000"
                        < Double.infinity
  /\ idNumber "1000000000000000000000" = 10 ^ 21
  /\ idRow "1000000000000000000000" = Some 1
  /\ getUser getSextillion oneUser
     = (oneUser,
        {| status := 200;
           json := VObj [ ("success", VBool true);
                          ("data",
                           VObj [ ("id", VNum 1); ("nome", VStr "Ana");
                                  ("email", VStr "ana@escola.com");
                                  ("papel", VStr "PROFESSOR");
                                  ("foto",
                                   VStr "https://example.com/foto.jpg");
                                  ("createdAt", VNum 0) ]) ] |})
  /\ fst (deleteUser_ getSextillion oneUser)
     = {| users := delete 1 (users oneUser); nextId := 2; clock := 1 |}.
Proof.
  assert (Hr : Double.exponential <= idNumber "1000000000000000000000"
                                  < Double.infinity)
    by (vm_compute; split; [discriminate|reflexivity]).
  pose proof (huge_id_reads_first_digit getSextillion oneUser
                [("id", VStr "1000000000000000000000")]
                "1000000000000000000000" eq_refl eq_refl eq_refl Hr)
    as [Hrow Hrun].
  assert (Hlead : Double.shortestLead (idNumber "1000000000000000000000")
                  = 1) by (vm_compute; reflexivity).
  rewrite Hlead in Hrow, Hrun.
  assert (Hana : users oneUser !! 1 = Some ana) by (vm_compute; reflexivity).
  rewrite Hana in Hrun. destruct Hrun as [Hget Hdel].
  split; [reflexivity|]. split; [exact Hr|].
  split; [vm_compute; reflexivity|]. split; [exact Hrow|].
  split; [exact Hget|]. rewrite Hdel. reflexivity.
Defined.

(** An id of 400 digits reads as Infinity, in which [parseInt] finds no
    digit: the lookup fails in the driver and the answer is 500. *)
Example id_of_400_digits_is_answered_500 :
  idNumber nines = Double.infinity
  /\ idRow nines = None
  /\ getUser getNines oneUser
     = (oneUser,
        {| status := 500;
           json := VObj [ ("success", VBool false);
                          ("error",
                           VObj [ ("code", VStr "INTERNAL_ERROR");
                                  ("message",
                                   VStr "Erro interno do servidor") ]);
                          ("timestamp", VStr (now getNines));
                          ("path", VStr (path getNines)) ] |}).
Proof. repeat split; vm_compute; reflexivity. Qed.

End ConcreteCases2.
